(** * Frame-synchronised annotation correlation: a shallow embedding

    This development embeds the data-transformation core of
    [top_down_pose_tracking_input.py] and [vis_pose_tracking_result.py]
    and states the properties of the specification over that embedding.

    Both scripts consist of a single [main] function operating on values
    obtained from [json.load] and on the records produced by the pose
    stage.  The embedding therefore has three layers:

    - [Py]: the Python values the scripts manipulate, and the builtin
      operations they apply to them (subscripting, [in], [==], [+], [-],
      [round(_, 3)], [int], iteration), each returning either a value or
      the exception Python raises; the same for the entries of the
      float64 rows the pose stage returns, whose [-] and [round] are
      numpy's;
    - [Common], [TopDown] and [Vis]: the loops of the two [main]
      functions, with the function-local variables that survive from one
      iteration to the next ([this_person_cat_id], [frame_json_id],
      [dict_obj]) modelled as explicit optional bindings;
    - [FloatReal]: the real numbers binary64 floats denote, on which
      the statements about rounding are made;
    - the properties, by component.

    Video decoding, rendering and the pose model are outside the
    embedding: a video is the number of its frames, and the pose stage
    is a parameter of the frame loop. *)

From Stdlib Require Import ZArith List String Ascii Bool Lia.
From Stdlib Require Import Reals Lra.
From Stdlib Require Import Floats.
Import ListNotations.

(** ** Python values and builtins *)

Module Py.

Local Open Scope Z_scope.

(** The exceptions the modelled fragment can raise. *)
Inductive exn : Type :=
| KeyError
| IndexError
| TypeError
| ValueError
| OverflowError
| AttributeError
| UnboundLocalError.

Inductive result (A : Type) : Type :=
| Ok (a : A)
| Raise (e : exn).

Arguments Ok {A} a.
Arguments Raise {A} e.

Definition bind {A B : Type} (m : result A) (k : A -> result B) : result B :=
  match m with
  | Ok a => k a
  | Raise e => Raise e
  end.

Notation "x <- m ;; k" := (bind m (fun x => k))
  (at level 61, m at next level, right associativity).

(** Reading a local variable: an unbound one raises [UnboundLocalError]. *)
Definition read_local {A : Type} (x : option A) : result A :=
  match x with
  | Some a => Ok a
  | None => Raise UnboundLocalError
  end.

(** Values as [json.load] builds them.  A [dict] is kept as an
    association list in insertion order, which is the order Python
    iterates it in and [json.dump] writes it in; lookups take the first
    binding of a key. *)
#[warnings="-register-all"]
Inductive value : Type :=
| VNone
| VBool (b : bool)
| VInt (z : Z)
| VFloat (f : float)
| VStr (s : string)
| VList (l : list value)
| VDict (d : list (string * value)).

Definition dict : Type := list (string * value).

Fixpoint dict_get (k : string) (d : dict) : option value :=
  match d with
  | [] => None
  | (k', v) :: d' => if String.eqb k k' then Some v else dict_get k d'
  end.

Definition dict_mem (k : string) (d : dict) : bool :=
  match dict_get k d with Some _ => true | None => false end.

(** [d[k] = v]: an existing key keeps its position, a new key goes last. *)
Fixpoint dict_set (k : string) (v : value) (d : dict) : dict :=
  match d with
  | [] => [(k, v)]
  | (k', v') :: d' =>
      if String.eqb k k' then (k, v) :: d' else (k', v') :: dict_set k v d'
  end.

(** *** Numbers

    A JSON number is loaded as an [int] of unbounded size or as a
    [float], an IEEE 754 binary64; the latter is the kernel's primitive
    [float], whose operations compute as the hardware's do. *)

Definition Z_of_bool (b : bool) : Z := if b then 1 else 0.

(** The integer a finite float denotes, when it denotes one. *)
Definition float_integral (f : float) : option Z :=
  match Prim2SF f with
  | S754_zero _ => Some 0
  | S754_finite s m e =>
      let a :=
        if 0 <=? e then Some (Zpos m * 2 ^ e)
        else if (Zpos m mod 2 ^ (- e)) =? 0 then Some (Zpos m / 2 ^ (- e))
        else None in
      match a with
      | Some a => Some (if s then - a else a)
      | None => None
      end
  | _ => None
  end.

(** [float(z)]: the nearest double, ties to even; too large an integer
    raises [OverflowError]. *)
Definition float_of_Z (z : Z) : result float :=
  match binary_normalize prec emax z 0 false with
  | S754_infinity _ => Raise OverflowError
  | sf => Ok (SF2Prim sf)
  end.

Definition half_even_div (a b : Z) : Z :=
  let q := a / b in
  match (2 * (a mod b)) ?= b with
  | Lt => q
  | Gt => q + 1
  | Eq => if Z.even q then q else q + 1
  end.

(** [round(f, 3)] on a float: the exact value of [f] is rounded, ties to
    even, to a multiple of 1/1000, and the result is the double nearest
    to that decimal; zeros keep their sign, infinities and nan are
    returned unchanged. *)
Definition float_round3 (f : float) : float :=
  match Prim2SF f with
  | S754_finite s m e =>
      let n :=
        if 0 <=? e then Zpos m * 2 ^ e * 1000
        else half_even_div (Zpos m * 1000) (2 ^ (- e)) in
      match n with
      | Zpos p =>
          SF2Prim (SFdiv prec emax (S754_finite s p 0) (S754_finite false 1000 0))
      | _ => SF2Prim (S754_zero s)
      end
  | _ => f
  end.

(** [int(f)] on a float truncates toward zero. *)
Definition float_trunc (f : float) : result Z :=
  match Prim2SF f with
  | S754_zero _ => Ok 0
  | S754_finite s m e =>
      let a := if 0 <=? e then Zpos m * 2 ^ e else Zpos m / 2 ^ (- e) in
      Ok (if s then - a else a)
  | S754_infinity _ => Raise OverflowError
  | S754_nan => Raise ValueError
  end.

Inductive number : Type :=
| NInt (z : Z)
| NFloat (f : float).

(** [bool] is a subclass of [int]. *)
Definition as_number (v : value) : option number :=
  match v with
  | VBool b => Some (NInt (Z_of_bool b))
  | VInt z => Some (NInt z)
  | VFloat f => Some (NFloat f)
  | _ => None
  end.

Definition number_eq (a b : number) : bool :=
  match a, b with
  | NInt x, NInt y => x =? y
  | NFloat f, NFloat g => PrimFloat.eqb f g
  | NInt x, NFloat f | NFloat f, NInt x =>
      match float_integral f with
      | Some y => x =? y
      | None => false
      end
  end.

Definition number_arith (fz : Z -> Z -> Z) (ff : float -> float -> float)
    (a b : number) : result value :=
  match a, b with
  | NInt x, NInt y => Ok (VInt (fz x y))
  | NFloat f, NFloat g => Ok (VFloat (ff f g))
  | NInt x, NFloat g => f <- float_of_Z x ;; Ok (VFloat (ff f g))
  | NFloat f, NInt y => g <- float_of_Z y ;; Ok (VFloat (ff f g))
  end.

(** [a + b] *)
Definition py_add (a b : value) : result value :=
  match as_number a, as_number b with
  | Some x, Some y => number_arith Z.add PrimFloat.add x y
  | _, _ =>
      match a, b with
      | VStr s, VStr t => Ok (VStr (s ++ t)%string)
      | VList l, VList m => Ok (VList (l ++ m)%list)
      | _, _ => Raise TypeError
      end
  end.

(** [a - b] *)
Definition py_sub (a b : value) : result value :=
  match as_number a, as_number b with
  | Some x, Some y => number_arith Z.sub PrimFloat.sub x y
  | _, _ => Raise TypeError
  end.

(** [round(v, 3)]: an [int] (or [bool]) rounds to itself as an [int]. *)
Definition py_round3 (v : value) : result value :=
  match as_number v with
  | Some (NInt z) => Ok (VInt z)
  | Some (NFloat f) => Ok (VFloat (float_round3 f))
  | None => Raise TypeError
  end.

(** *** Entries of a float64 array

    The pose stage collects the boxes it is handed, each ending in the
    float score, in one [ndarray]; the [bbox] of a pose result is a row
    of it, so its entries are [numpy.float64] scalars.  Such a row is
    represented by the list of its entries; an entry written as a Python
    int stands for the float64 the array holds for it. *)

Definition np_float64 (v : value) : result float :=
  match as_number v with
  | Some (NFloat f) => Ok f
  | Some (NInt z) => float_of_Z z
  | None => Raise TypeError
  end.

(** [numpy.rint]: the nearest integer, ties to even; a zero result keeps
    the sign, infinities and nan are returned unchanged. *)
Definition float_rint (f : float) : float :=
  match Prim2SF f with
  | S754_finite s m e =>
      if 0 <=? e then f
      else
        let n := PrimFloat.of_uint63
                   (Uint63.of_Z (half_even_div (Zpos m) (2 ^ (- e)))) in
        if s then PrimFloat.opp n else n
  | _ => f
  end.

(** [round(a, 3)] on a [numpy.float64]: numpy multiplies by [1000.0],
    applies [rint] and divides by [1000.0], each step in binary64. *)
Definition float64_round3 (f : float) : float :=
  PrimFloat.div (float_rint (PrimFloat.mul f 1000)) 1000.

(** [a - b] on entries of a float64 array. *)
Definition np_sub (a b : value) : result value :=
  x <- np_float64 a ;;
  y <- np_float64 b ;;
  Ok (VFloat (PrimFloat.sub x y)).

(** [round(a, 3)] on a [numpy.float64]. *)
Definition np_round3 (v : value) : result value :=
  x <- np_float64 v ;;
  Ok (VFloat (float64_round3 x)).

(** *** Strings

    A [str] is kept as the bytes of its UTF-8 encoding: a character is a
    lead byte together with the continuation bytes that follow it. *)

Definition byte (c : ascii) : Z := Z.of_nat (nat_of_ascii c).

Definition is_continuation (c : ascii) : bool :=
  (128 <=? byte c) && (byte c <? 192).

(** The continuation bytes a string starts with, and the characters
    that follow them. *)
Fixpoint chars_from (s : string) : string * list string :=
  match s with
  | EmptyString => (EmptyString, [])
  | String c s' =>
      let (k, l) := chars_from s' in
      if is_continuation c then (String c k, l)
      else (EmptyString, String c k :: l)
  end.

(** The characters of a string, in order. *)
Definition chars (s : string) : list string :=
  match chars_from s with
  | (EmptyString, l) => l
  | (k, l) => k :: l
  end.

(** The code point a character encodes; [None] for bytes that encode
    none. *)
Definition code_point (ch : string) : option Z :=
  match ch with
  | String a EmptyString => if byte a <? 128 then Some (byte a) else None
  | String a (String b EmptyString) =>
      let cp := (byte a - 192) * 64 + (byte b - 128) in
      if (192 <=? byte a) && (byte a <? 224) && (128 <=? cp)
      then Some cp else None
  | String a (String b (String c EmptyString)) =>
      let cp := (byte a - 224) * 4096 + (byte b - 128) * 64 + (byte c - 128) in
      if (224 <=? byte a) && (byte a <? 240) && (2048 <=? cp)
      then Some cp else None
  | String a (String b (String c (String d EmptyString))) =>
      let cp := (byte a - 240) * 262144 + (byte b - 128) * 4096
                + (byte c - 128) * 64 + (byte d - 128) in
      if (240 <=? byte a) && (byte a <? 248) && (65536 <=? cp)
         && (cp <=? 1114111)
      then Some cp else None
  | _ => None
  end.

(** The code points of the digit zero of every script with decimal
    digits (Unicode 14.0, the database of CPython 3.11); the nine code
    points after each are its digits one to nine. *)
Definition decimal_zeros : list Z :=
  [48; 1632; 1776; 1984; 2406; 2534; 2662; 2790; 2918; 3046; 3174; 3302;
   3430; 3558; 3664; 3792; 3872; 4160; 4240; 6112; 6160; 6470; 6608; 6784;
   6800; 6992; 7088; 7232; 7248; 42528; 43216; 43264; 43472; 43504; 43600;
   44016; 65296; 66720; 68912; 69734; 69872; 69942; 70096; 70384; 70736;
   70864; 71248; 71360; 71472; 71904; 72016; 72784; 73040; 73120; 92768;
   92864; 93008; 120782; 120792; 120802; 120812; 120822; 123200; 123632;
   125264; 130032].

(** The blanks beyond ASCII. *)
Definition wide_blanks : list Z :=
  [133; 160; 5760; 8192; 8193; 8194; 8195; 8196; 8197; 8198; 8199; 8200;
   8201; 8202; 8232; 8233; 8239; 8287; 12288].

Definition decimal_of (cp : Z) : option Z :=
  match find (fun zero => (zero <=? cp) && (cp <? zero + 10)) decimal_zeros with
  | Some zero => Some (cp - zero)
  | None => None
  end.

(** What [int] makes of a character before it parses: code points
    below 127 stay, a blank becomes a space, a decimal digit of any
    script becomes the ASCII digit of the same value; no other character
    is accepted. *)
Definition ascii_of_char (ch : string) : option ascii :=
  match code_point ch with
  | None => None
  | Some cp =>
      if cp <? 127 then Some (ascii_of_nat (Z.to_nat cp))
      else if existsb (Z.eqb cp) wide_blanks then Some " "%char
      else match decimal_of cp with
           | Some d => Some (ascii_of_nat (Z.to_nat (48 + d)))
           | None => None
           end
  end.

Fixpoint transliterate (l : list string) : option string :=
  match l with
  | [] => Some EmptyString
  | ch :: l' =>
      match ascii_of_char ch, transliterate l' with
      | Some c, Some s => Some (String c s)
      | _, _ => None
      end
  end.

(** [int(v)] *)
Definition is_space (c : ascii) : bool :=
  let n := nat_of_ascii c in
  ((9 <=? n)%nat && (n <=? 13)%nat) || (n =? 32)%nat.

Fixpoint lstrip (s : string) : string :=
  match s with
  | String c s' => if is_space c then lstrip s' else s
  | EmptyString => s
  end.

Fixpoint string_rev_onto (acc s : string) : string :=
  match s with
  | EmptyString => acc
  | String c s' => string_rev_onto (String c acc) s'
  end.

Definition strip (s : string) : string :=
  string_rev_onto EmptyString (lstrip (string_rev_onto EmptyString (lstrip s))).

Definition digit_of (c : ascii) : option Z :=
  let n := nat_of_ascii c in
  if (48 <=? n)%nat && (n <=? 57)%nat then Some (Z.of_nat (n - 48)) else None.

Fixpoint parse_digits (acc : Z) (after_digit : bool) (s : string) : option Z :=
  match s with
  | EmptyString => if after_digit then Some acc else None
  | String c s' =>
      match digit_of c with
      | Some d => parse_digits (10 * acc + d) true s'
      | None =>
          if Ascii.eqb c "_"%char && after_digit then parse_digits acc false s'
          else None
      end
  end.

Fixpoint digit_count (s : string) : nat :=
  match s with
  | EmptyString => O
  | String c s' =>
      match digit_of c with
      | Some _ => S (digit_count s')
      | None => digit_count s'
      end
  end.

(** [sys.int_info.default_max_str_digits] *)
Definition max_str_digits : nat := 4300.

(** [int(s)] on a string: blanks around, an optional sign, decimal
    digits with single underscores between them, and no more than
    [max_str_digits] digits.  Anything else raises [ValueError]. *)
Definition int_of_string (s : string) : result Z :=
  let body sign t :=
    match parse_digits 0 false t with
    | Some z =>
        if (digit_count t <=? max_str_digits)%nat then Ok (sign * z)
        else Raise ValueError
    | None => Raise ValueError
    end in
  match transliterate (chars s) with
  | None => Raise ValueError
  | Some a =>
      match strip a with
      | String "+" t => body 1 t
      | String "-" t => body (-1) t
      | t => body 1 t
      end
  end.

Definition py_int (v : value) : result value :=
  match v with
  | VBool b => Ok (VInt (Z_of_bool b))
  | VInt z => Ok (VInt z)
  | VFloat f => z <- float_trunc f ;; Ok (VInt z)
  | VStr s => z <- int_of_string s ;; Ok (VInt z)
  | _ => Raise TypeError
  end.

(** *** Comparison, membership, subscripting, iteration *)

(** [a == b] *)
Fixpoint py_eq (a b : value) : bool :=
  match a, b with
  | VNone, VNone => true
  | VStr s, VStr t => String.eqb s t
  | VList l, VList m =>
      (fix all2 (l m : list value) : bool :=
         match l, m with
         | [], [] => true
         | x :: l', y :: m' => py_eq x y && all2 l' m'
         | _, _ => false
         end) l m
  | VDict d, VDict e =>
      Nat.eqb (List.length d) (List.length e) &&
      (fix sub (d : list (string * value)) : bool :=
         match d with
         | [] => true
         | (k, v) :: d' =>
             match dict_get k e with
             | Some w => py_eq v w
             | None => false
             end && sub d'
         end) d
  | _, _ =>
      match as_number a, as_number b with
      | Some x, Some y => number_eq x y
      | _, _ => false
      end
  end.

Definition string_chars (s : string) : list value := map VStr (chars s).

Definition is_substring (k s : string) : bool :=
  match String.index 0 k s with Some _ => true | None => false end.

(** ["k" in v] for a string literal [k]. *)
Definition py_contains (k : string) (v : value) : result bool :=
  match v with
  | VDict d => Ok (dict_mem k d)
  | VList l => Ok (existsb (py_eq (VStr k)) l)
  | VStr s => Ok (is_substring k s)
  | _ => Raise TypeError
  end.

(** [v["k"]] for a string literal [k]. *)
Definition py_getitem_key (v : value) (k : string) : result value :=
  match v with
  | VDict d =>
      match dict_get k d with
      | Some x => Ok x
      | None => Raise KeyError
      end
  | _ => Raise TypeError
  end.

(** [v[i]] for a non-negative integer literal [i]. *)
Definition py_getitem_idx (v : value) (i : nat) : result value :=
  match v with
  | VList l =>
      match nth_error l i with
      | Some x => Ok x
      | None => Raise IndexError
      end
  | VStr s =>
      match nth_error (chars s) i with
      | Some c => Ok (VStr c)
      | None => Raise IndexError
      end
  | VDict _ => Raise KeyError
  | _ => Raise TypeError
  end.

(** [v.get("k")] *)
Definition py_get (v : value) (k : string) : result value :=
  match v with
  | VDict d =>
      match dict_get k d with
      | Some x => Ok x
      | None => Ok VNone
      end
  | _ => Raise AttributeError
  end.

(** [v is None] *)
Definition is_None (v : value) : bool :=
  match v with VNone => true | _ => false end.

(** The items a [for] loop over [v] visits. *)
Definition py_iter (v : value) : result (list value) :=
  match v with
  | VList l => Ok l
  | VDict d => Ok (map (fun kv => VStr (fst kv)) d)
  | VStr s => Ok (string_chars s)
  | _ => Raise TypeError
  end.

(** A [for] loop whose body updates a state and may raise. *)
Fixpoint for_each {S A : Type} (body : S -> A -> result S) (s : S)
    (l : list A) : result S :=
  match l with
  | [] => Ok s
  | x :: l' => s' <- body s x ;; for_each body s' l'
  end.

Fixpoint map_result {A B : Type} (f : A -> result B) (l : list A)
    : result (list B) :=
  match l with
  | [] => Ok []
  | x :: l' => y <- f x ;; ys <- map_result f l' ;; Ok (y :: ys)
  end.

(** In a pose result, an [ndarray] is represented by the nested list
    of its entries, and its entries by Python numbers;
    [a.flatten().tolist()] lists them in row-major order. *)
Fixpoint flatten_entries (v : value) : list value :=
  match v with
  | VList l => flat_map flatten_entries l
  | x => [x]
  end.

Definition flatten_tolist (v : value) : result (list value) :=
  match v with
  | VList l => Ok (flat_map flatten_entries l)
  | _ => Raise AttributeError
  end.

End Py.

(** ** Statements the two scripts share

    The person-category scan, the frame-index resolution, the
    direct-or-nested field lookups and the bounding-box conversion are
    written identically in both [main] functions. *)

Module Common.

Import Py.
Local Open Scope string_scope.

(** Body of [for data in json_data["categories"]]. *)
Definition scan_category (this_person_cat_id : option value) (data : value)
    : result (option value) :=
  label_name <- py_getitem_key data "name" ;;
  if py_eq label_name (VStr "person")
  then id <- py_getitem_key data "id" ;; Ok (Some id)
  else Ok this_person_cat_id.

(** [for data in json_data["annotations"]:
       for data in json_data["categories"]: ...]

    The result is the binding of [this_person_cat_id] after the loops;
    [None] stands for a variable that was never assigned. *)
Definition resolve_person_cat_id (json_data : value)
    (this_person_cat_id : option value) : result (option value) :=
  annotations <- py_getitem_key json_data "annotations" ;;
  outer <- py_iter annotations ;;
  for_each
    (fun cat_id _ =>
       categories <- py_getitem_key json_data "categories" ;;
       inner <- py_iter categories ;;
       for_each scan_category cat_id inner)
    this_person_cat_id outer.

(** [if "frame_id" in data: frame_json_id = data["frame_id"]
     elif "image_id" in data: frame_json_id = data["image_id"] - 1]

    There is no [else]: with neither key, [frame_json_id] keeps the
    binding it had. *)
Definition resolve_frame_json_id (data : value) (frame_json_id : option value)
    : result (option value) :=
  has_frame_id <- py_contains "frame_id" data ;;
  if has_frame_id
  then v <- py_getitem_key data "frame_id" ;; Ok (Some v)
  else
    has_image_id <- py_contains "image_id" data ;;
    if has_image_id
    then v <- py_getitem_key data "image_id" ;;
         r <- py_sub v (VInt 1) ;;
         Ok (Some r)
    else Ok frame_json_id.

(** ["attributes" in data and k in data["attributes"]] *)
Definition in_attributes (k : string) (data : value) : result bool :=
  has_attributes <- py_contains "attributes" data ;;
  if has_attributes
  then attributes <- py_getitem_key data "attributes" ;; py_contains k attributes
  else Ok false.

(** [if k in data: person[k] = data[k]
     elif "attributes" in data and k in data["attributes"]:
         person[k] = convert(data["attributes"][k])] *)
Definition direct_or_attributes (k : string) (convert : value -> result value)
    (data : value) (person : dict) : result dict :=
  direct <- py_contains k data ;;
  if direct
  then v <- py_getitem_key data k ;; Ok (dict_set k v person)
  else
    nested <- in_attributes k data ;;
    if nested
    then attributes <- py_getitem_key data "attributes" ;;
         v <- py_getitem_key attributes k ;;
         v' <- convert v ;;
         Ok (dict_set k v' person)
    else Ok person.

(** The three lookups, after [person = {}; person['activity'] = ""]. *)
Definition person_fields (data : value) : result dict :=
  let person := dict_set "activity" (VStr "") [] in
  person <- direct_or_attributes "track_id" Ok data person ;;
  person <- direct_or_attributes "occluded" py_int data person ;;
  direct_or_attributes "activity" Ok data person.

(** [[data["bbox"][0], data["bbox"][1], data["bbox"][0]+data["bbox"][2],
      data["bbox"][1]+data["bbox"][3], 1.0]] *)
Definition xywh_to_xyxy (bbox : value) : result value :=
  x <- py_getitem_idx bbox 0 ;;
  y <- py_getitem_idx bbox 1 ;;
  w <- py_getitem_idx bbox 2 ;;
  x2 <- py_add x w ;;
  h <- py_getitem_idx bbox 3 ;;
  y2 <- py_add y h ;;
  Ok (VList [x; y; x2; y2; VFloat 1.0]).

Definition person_bbox (data : value) : result value :=
  bbox <- py_getitem_key data "bbox" ;;
  xywh_to_xyxy bbox.

End Common.

(** ** [top_down_pose_tracking_input.py] *)

Module TopDown.

Import Py Common.
Local Open Scope string_scope.
Local Open Scope list_scope.
Local Open Scope Z_scope.

(** The locals of [main] whose binding outlives a loop iteration, and
    the output list [results['annotations']]. *)
Record locals : Type := Locals {
  this_person_cat_id : option value;
  frame_json_id : option value;
  dict_obj : option value;
  annotations : list value
}.

Definition initial : locals := Locals None None None [].

(** The [dict_obj] literal of the non-person loop. *)
Definition non_person_entry (data category_id : value) : result value :=
  has_track_id <- py_contains "track_id" data ;;
  track_id <-
    (if has_track_id then py_getitem_key data "track_id"
     else attributes <- py_getitem_key data "attributes" ;;
          py_getitem_key attributes "track_id") ;;
  has_frame_id <- py_contains "frame_id" data ;;
  frame_id <-
    (if has_frame_id then py_getitem_key data "frame_id"
     else attributes <- py_getitem_key data "attributes" ;;
          py_getitem_key attributes "image_id") ;;
  bbox <- py_getitem_key data "bbox" ;;
  occ <- py_get data "occluded" ;;
  occluded <- (if is_None occ then Ok (VInt 0) else py_get data "occluded") ;;
  Ok (VDict [("track_id", track_id); ("frame_id", frame_id); ("bbox", bbox);
             ("occluded", occluded); ("category_id", category_id)]).

(** Body of the loop that copies the records of other categories. *)
Definition passthrough_body (s : locals) (data : value) : result locals :=
  category_id <- py_getitem_key data "category_id" ;;
  person_id <- read_local (this_person_cat_id s) ;;
  if py_eq category_id person_id then Ok s
  else
    d <- non_person_entry data category_id ;;
    Ok (Locals (this_person_cat_id s) (frame_json_id s) (Some d)
               (annotations s ++ [d])).

Definition passthrough (json_data : value) (s : locals) : result locals :=
  anns <- py_getitem_key json_data "annotations" ;;
  items <- py_iter anns ;;
  for_each passthrough_body s items.

(** The [person] dict built from one record. *)
Definition normalize_person (data : value) : result value :=
  person <- person_fields data ;;
  bbox <- person_bbox data ;;
  let person := dict_set "bbox" bbox person in
  let person := dict_set "category_id" (VInt 1) person in
  Ok (VDict person).

(** Body of [for data in json_data["annotations"]] inside the frame
    loop; [frame_id] is the loop counter of the enclosing [while]. *)
Definition correlate_body (frame_id : Z) (st : locals * list value)
    (data : value) : result (locals * list value) :=
  let (s, person_results) := st in
  fj <- resolve_frame_json_id data (frame_json_id s) ;;
  let s := Locals (this_person_cat_id s) fj (dict_obj s) (annotations s) in
  current <- read_local fj ;;
  if negb (py_eq (VInt frame_id) current) then Ok (s, person_results)
  else
    category_id <- py_getitem_key data "category_id" ;;
    person_id <- read_local (this_person_cat_id s) ;;
    if negb (py_eq category_id person_id) then Ok (s, person_results)
    else
      person <- normalize_person data ;;
      Ok (s, person_results ++ [person]).

Definition person_observations (json_data : value) (frame_id : Z) (s : locals)
    : result (locals * list value) :=
  anns <- py_getitem_key json_data "annotations" ;;
  items <- py_iter anns ;;
  for_each (correlate_body frame_id) (s, []) items.

(** [[b[0], b[1], round(b[2]-b[0],3), round(b[3]-b[1],3)]] for
    [b = pose_results[i]["bbox"]], a row of the float64 array of boxes:
    the differences and their rounding are numpy's. *)
Definition xyxy_to_xywh (bbox : value) : result value :=
  x1 <- py_getitem_idx bbox 0 ;;
  y1 <- py_getitem_idx bbox 1 ;;
  x2 <- py_getitem_idx bbox 2 ;;
  dx <- np_sub x2 x1 ;;
  w <- np_round3 dx ;;
  y2 <- py_getitem_idx bbox 3 ;;
  dy <- np_sub y2 y1 ;;
  h <- np_round3 dy ;;
  Ok (VList [x1; y1; w; h]).

(** The [dict_obj] literal of the encoding loop. *)
Definition encode_person (pose_result : value) (frame_id : Z)
    (key_point : list value) : result value :=
  track_id <- py_getitem_key pose_result "track_id" ;;
  b <- py_getitem_key pose_result "bbox" ;;
  bbox <- xyxy_to_xywh b ;;
  occ <- py_get pose_result "occluded" ;;
  occluded <-
    (if is_None occ then Ok (VInt 0) else py_get pose_result "occluded") ;;
  activity <- py_get pose_result "activity" ;;
  Ok (VDict [("track_id", track_id); ("frame_id", VInt frame_id);
             ("keypoints", VList key_point); ("bbox", bbox);
             ("occluded", occluded); ("activity", activity);
             ("category_id", VInt 1)]).

(** Body of [for i in range(len(pose_results))].  The [append] is not
    under the [if]: it runs for every entry, with whatever [dict_obj] is
    bound to at that point. *)
Definition encode_body (frame_id : Z) (s : locals) (pose_result : value)
    : result locals :=
  keypoints <- py_getitem_key pose_result "keypoints" ;;
  pos_arr <- flatten_tolist keypoints ;;
  key_point <- map_result py_round3 pos_arr ;;
  category_id <- py_getitem_key pose_result "category_id" ;;
  obj <-
    (if py_eq category_id (VInt 1)
     then d <- encode_person pose_result frame_id key_point ;; Ok (Some d)
     else Ok (dict_obj s)) ;;
  d <- read_local obj ;;
  Ok (Locals (this_person_cat_id s) (frame_json_id s) obj
             (annotations s ++ [d])).

Definition encode_results (frame_id : Z) (s : locals)
    (pose_results : list value) : result locals :=
  for_each (encode_body frame_id) s pose_results.

Section Main.

(** The pose stage, with the optional smoothing, on the image of one
    frame: an external collaborator, constrained only by its type. *)
Variable pose_stage : Z -> list value -> result (list value).

Definition process_frame (json_data : value) (frame_id : Z) (s : locals)
    : result locals :=
  st <- person_observations json_data frame_id s ;;
  pose_results <- pose_stage frame_id (snd st) ;;
  encode_results frame_id (fst st) pose_results.

(** The [while] loop over a video of [n] frames, from [frame_id] on. *)
Fixpoint frame_loop (json_data : value) (n : nat) (frame_id : Z) (s : locals)
    : result locals :=
  match n with
  | O => Ok s
  | S n' =>
      s' <- process_frame json_data frame_id s ;;
      frame_loop json_data n' (frame_id + 1) s'
  end.

(** What precedes the frame loop. *)
Definition prelude (json_data : value) : result locals :=
  id <- resolve_person_cat_id json_data None ;;
  passthrough json_data (Locals id None None []).

Definition main (json_data : value) (n_frames : nat) : result (list value) :=
  s <- prelude json_data ;;
  s <- frame_loop json_data n_frames 0 s ;;
  Ok (annotations s).

End Main.

End TopDown.

(** ** [vis_pose_tracking_result.py] *)

Module Vis.

Import Py Common.
Local Open Scope string_scope.
Local Open Scope list_scope.
Local Open Scope Z_scope.

(** An iterator over a list, as the items it has yet to yield. *)
Definition next {A : Type} (a : list A) : option (A * list A) :=
  match a with
  | [] => None
  | x :: a' => Some (x, a')
  end.

(** [zip(a, a, a)] over one shared iterator [a]: every round draws three
    items from it, and the first failed draw ends the iteration, items
    already drawn in that round included. *)
Fixpoint threewise {A : Type} (a : list A) : list (A * A * A) :=
  match a with
  | x :: y :: z :: a' => (x, y, z) :: threewise a'
  | _ => []
  end.

(** [for x, y, z in threewise(keypoints): person_key_points.append([x, y, z])] *)
Definition regroup_keypoints (keypoints : value) : result value :=
  items <- py_iter keypoints ;;
  Ok (VList (map (fun t => match t with (x, y, z) => VList [x; y; z] end)
                 (threewise items))).

Record locals : Type := Locals {
  this_person_cat_id : option value;
  frame_json_id : option value
}.

(** The [person] dict built from one record. *)
Definition normalize_person (data : value) (frame_id : Z) : result value :=
  person <- person_fields data ;;
  let person := dict_set "category_id" (VInt 1) person in
  bbox <- person_bbox data ;;
  let person := dict_set "bbox" bbox person in
  let person := dict_set "frame_id" (VInt frame_id) person in
  has_keypoints <- py_contains "keypoints" data ;;
  person_key_points <-
    (if has_keypoints
     then keypoints <- py_getitem_key data "keypoints" ;;
          regroup_keypoints keypoints
     else Ok (VList [])) ;;
  Ok (VDict (dict_set "keypoints" person_key_points person)).

Definition correlate_body (frame_id : Z) (st : locals * list value)
    (data : value) : result (locals * list value) :=
  let (s, pose_results) := st in
  fj <- resolve_frame_json_id data (frame_json_id s) ;;
  let s := Locals (this_person_cat_id s) fj in
  current <- read_local fj ;;
  if negb (py_eq (VInt frame_id) current) then Ok (s, pose_results)
  else
    category_id <- py_getitem_key data "category_id" ;;
    person_id <- read_local (this_person_cat_id s) ;;
    if negb (py_eq category_id person_id) then Ok (s, pose_results)
    else
      person <- normalize_person data frame_id ;;
      Ok (s, pose_results ++ [person]).

Definition person_observations (json_data : value) (frame_id : Z) (s : locals)
    : result (locals * list value) :=
  anns <- py_getitem_key json_data "annotations" ;;
  items <- py_iter anns ;;
  for_each (correlate_body frame_id) (s, []) items.

(** The [while] loop over a video of [n] frames: the per-frame lists
    handed to the renderer, in frame order. *)
Fixpoint frame_loop (json_data : value) (n : nat) (frame_id : Z) (s : locals)
    : result (list (list value)) :=
  match n with
  | O => Ok []
  | S n' =>
      st <- person_observations json_data frame_id s ;;
      rest <- frame_loop json_data n' (frame_id + 1) (fst st) ;;
      Ok (snd st :: rest)
  end.

Definition main (json_data : value) (n_frames : nat)
    : result (list (list value)) :=
  id <- resolve_person_cat_id json_data None ;;
  frame_loop json_data n_frames 0 (Locals id None).

End Vis.

(** ** Sample documents

    Concrete records and documents on which the properties below are
    exercised. *)

Module Samples.

Import Py.
Local Open Scope string_scope.
Local Open Scope list_scope.
Local Open Scope Z_scope.
Local Open Scope float_scope.

Definition person_category : value :=
  VDict [("id", VInt 1); ("name", VStr "person")].

Definition car_category : value :=
  VDict [("id", VInt 2); ("name", VStr "car")].

Definition document (categories annotations : list value) : value :=
  VDict [("categories", VList categories); ("annotations", VList annotations)].

(** One person at [frame_id = 0], bbox [[10, 20, 30, 40]], [track_id = 5]. *)
Definition person_at_frame_0 : value :=
  VDict [("frame_id", VInt 0); ("category_id", VInt 1); ("track_id", VInt 5);
         ("bbox", VList [VInt 10; VInt 20; VInt 30; VInt 40])].

(** A person record with none of the frame-index fields. *)
Definition person_without_frame_index : value :=
  VDict [("category_id", VInt 1); ("track_id", VInt 6);
         ("bbox", VList [VInt 1; VInt 2; VInt 3; VInt 4])].

(** Every fallback field both directly and under [attributes], with
    different values. *)
Definition record_with_both : dict :=
  [("frame_id", VInt 0); ("category_id", VInt 1);
   ("bbox", VList [VInt 10; VInt 20; VInt 30; VInt 40]);
   ("track_id", VInt 5); ("occluded", VInt 1); ("activity", VStr "walking");
   ("attributes",
    VDict [("track_id", VInt 6); ("occluded", VStr "false");
           ("activity", VStr "standing")])].

(** No [occluded] and no [activity], neither direct nor nested. *)
Definition record_without_occluded : dict :=
  [("frame_id", VInt 0); ("category_id", VInt 1); ("track_id", VInt 5);
   ("bbox", VList [VInt 10; VInt 20; VInt 30; VInt 40])].

(** A direct [occluded] that is neither 0 nor 1. *)
Definition record_occluded_5 : dict :=
  [("frame_id", VInt 0); ("category_id", VInt 1); ("track_id", VInt 5);
   ("occluded", VInt 5);
   ("bbox", VList [VInt 10; VInt 20; VInt 30; VInt 40])].

(** [occluded] only under [attributes], as a boolean. *)
Definition record_nested_occluded : dict :=
  [("image_id", VInt 3); ("category_id", VInt 1);
   ("bbox", VList [VInt 10; VInt 20; VInt 30; VInt 40]);
   ("attributes", VDict [("track_id", VInt 6); ("occluded", VBool true)])].

(** A person record with seven keypoint values: two whole triples and
    one value left over. *)
Definition record_with_keypoints : dict :=
  [("frame_id", VInt 7); ("category_id", VInt 1); ("track_id", VInt 5);
   ("bbox", VList [VInt 10; VInt 20; VInt 30; VInt 40]);
   ("keypoints", VList [VFloat 1.5; VFloat 2.25; VFloat 0.5;
                        VFloat 3.5; VFloat 4.25; VFloat 0.75; VFloat 9])].

(** A non-person record in the nested convention of the passthrough:
    frame and track under [attributes]. *)
Definition car_record : dict :=
  [("category_id", VInt 2); ("bbox", VList [VInt 1; VInt 2; VInt 3; VInt 4]);
   ("attributes", VDict [("track_id", VInt 9); ("image_id", VInt 3)])].

(** Pose results: a person, and an entry of another category. *)
Definition person_pose_result : dict :=
  [("track_id", VInt 5); ("category_id", VInt 1);
   ("bbox", VList [VFloat 10; VFloat 20; VFloat 40.5; VFloat 60.25; VFloat 1]);
   ("keypoints", VList [VList [VFloat 1.5; VFloat 2.25; VFloat 0.5]])].

Definition other_pose_result : dict :=
  [("track_id", VInt 7); ("category_id", VInt 2);
   ("bbox", VList [VFloat 0; VFloat 0; VFloat 1; VFloat 1; VFloat 1]);
   ("keypoints", VList [])].

(** A pose result whose bbox is [[10.125, 20.0625, 86.5025, 59.388, 1.0]]
    and whose keypoints are [[[1.23456, 2.0005, 0.5]]], each the nearest
    double.  The extents [86.5025 - 10.125] and [59.388 - 20.0625] are
    the doubles nearest to 76.3775 and 39.3255, both just below the
    decimal. *)
Definition tied_pose_result : dict :=
  [("track_id", VInt 5); ("category_id", VInt 1);
   ("bbox", VList [VFloat 0x1.44p+3; VFloat 0x1.41p+4;
                   VFloat 0x1.5a028f5c28f5cp+6; VFloat 0x1.db1a9fbe76c8bp+5;
                   VFloat 1]);
   ("keypoints", VList [VList [VFloat 0x1.3c0c1fc8f3238p+0;
                               VFloat 0x1.0010624dd2f1bp+1; VFloat 0.5]])].

(** The doubles nearest to 76.3775, 39.3255, 76.378 and 39.326. *)
Definition f76_3775 : float := 0x1.31828f5c28f5cp+6.
Definition f39_3255 : float := 0x1.3a9a9fbe76c8bp+5.
Definition f76_378 : float := 0x1.3183126e978d5p+6.
Definition f39_326 : float := 0x1.3a9ba5e353f7dp+5.

(** The doubles nearest to 0.1 and 0.2. *)
Definition f0_1 : float := 0x1.999999999999ap-4.
Definition f0_2 : float := 0x1.999999999999ap-3.

(** A bbox whose origin is so large that adding a width of 1 is lost. *)
Definition far_bbox : value :=
  VList [VFloat 1e16; VFloat 0; VFloat 1; VFloat 1].

(** The row of the float64 array that [numpy.array] builds from a box. *)
Definition float64_row (bbox : value) : value :=
  match bbox with
  | VList l =>
      VList (map (fun v => match np_float64 v with
                           | Ok f => VFloat f
                           | Raise _ => v
                           end) l)
  | other => other
  end.

(** The pose stage as the identity on the records, each box a float64
    row, with one synthetic keypoint row per person. *)
Definition identity_pose_stage (frame_id : Z) (person_results : list value)
    : result (list value) :=
  Ok (map (fun person =>
             match person with
             | VDict d =>
                 let d := match dict_get "bbox" d with
                          | Some bbox => dict_set "bbox" (float64_row bbox) d
                          | None => d
                          end in
                 VDict (dict_set "keypoints"
                          (VList [VList [VFloat 1.5; VFloat 2.25; VFloat 0.5]]) d)
             | other => other
             end) person_results).

End Samples.

(** ** Notions used to state the properties *)

Module Notions.

Import Py Common.
Local Open Scope string_scope.
Local Open Scope list_scope.
Local Open Scope Z_scope.

(** The items of a triple, in order. *)
Definition untriple {A : Type} (t : A * A * A) : list A :=
  match t with (x, y, z) => [x; y; z] end.

(** The fields looked up directly and then under [attributes]. *)
Definition fallback_keys : list string := ["track_id"; "occluded"; "activity"].

(** The conversion each lookup applies to a nested value. *)
Definition nested_conversion (k : string) : value -> result value :=
  if String.eqb k "occluded" then py_int else Ok.

(** A produced person record, from either script. *)
Definition produced (data person : dict) : Prop :=
  TopDown.normalize_person (VDict data) = Ok (VDict person) \/
  exists frame_id, Vis.normalize_person (VDict data) frame_id = Ok (VDict person).

(** The pose results whose [category_id] equals 1. *)
Definition is_person_result (pose_result : value) : bool :=
  match py_getitem_key pose_result "category_id" with
  | Ok category_id => py_eq category_id (VInt 1)
  | Raise _ => false
  end.

Definition person_results_count (pose_results : list value) : nat :=
  List.length (filter is_person_result pose_results).

(** [entry] is what the encoder writes for the person result
    [pose_result]: the [dict_obj] literal over its keypoints, flattened
    and each rounded to three decimals. *)
Definition encoding (frame_id : Z) (pose_result entry : value) : Prop :=
  is_person_result pose_result = true /\
  exists keypoints pos_arr key_point,
    py_getitem_key pose_result "keypoints" = Ok keypoints /\
    flatten_tolist keypoints = Ok pos_arr /\
    map_result py_round3 pos_arr = Ok key_point /\
    TopDown.encode_person pose_result frame_id key_point = Ok entry.

(** The correlator's conversion followed by the encoder's. *)
Definition bbox_round_trip (bbox : value) : result value :=
  b <- xywh_to_xyxy bbox ;; TopDown.xyxy_to_xywh b.

(** A category descriptor with the two fields the scan reads. *)
Definition well_formed_category (c : value) : Prop :=
  exists d name id,
    c = VDict d /\ dict_get "name" d = Some name /\ dict_get "id" d = Some id.

(** Whether the scan takes the entry for the person category. *)
Definition is_person_category (c : value) : bool :=
  match py_getitem_key c "name" with
  | Ok name => py_eq name (VStr "person")
  | Raise _ => false
  end.

(** The binding one pass over [categories] leaves, starting from
    [binding]: the [id] of the last entry named "person", if any. *)
Fixpoint last_person_id (categories : list value) (binding : option value)
    : option value :=
  match categories with
  | [] => binding
  | c :: categories' =>
      last_person_id categories'
        (if is_person_category c
         then match py_getitem_key c "id" with
              | Ok id => Some id
              | Raise _ => binding
              end
         else binding)
  end.

End Notions.

(** ** Notions used to state the properties of whole loops *)

Module Selection.

Import Py Common.
Local Open Scope string_scope.
Local Open Scope list_scope.
Local Open Scope Z_scope.

(** The integer frame index a record resolves to on its own, whatever
    [frame_json_id] held before. *)
Definition record_index (data : value) : option Z :=
  match resolve_frame_json_id data None with
  | Ok (Some (VInt index)) => Some index
  | _ => None
  end.

(** A record the frame loop can place: it has an integer frame index
    and a [category_id]. *)
Definition indexed_record (data : value) : Prop :=
  exists index category_id,
    record_index data = Some index /\
    py_getitem_key data "category_id" = Ok category_id.

(** The records the correlator keeps on frame [frame_id]. *)
Definition selected (frame_id : Z) (person_id data : value) : bool :=
  match record_index data, py_getitem_key data "category_id" with
  | Some index, Ok category_id =>
      (frame_id =? index) && py_eq category_id person_id
  | _, _ => false
  end.

(** The records the non-person loop copies. *)
Definition is_other_category (person_id data : value) : bool :=
  match py_getitem_key data "category_id" with
  | Ok category_id => negb (py_eq category_id person_id)
  | Raise _ => false
  end.

(** An output entry carrying the [bbox] and the [category_id] of a
    record, as they are. *)
Definition copied (data entry : value) : Prop :=
  exists bbox category_id,
    py_getitem_key data "bbox" = Ok bbox /\
    py_getitem_key entry "bbox" = Ok bbox /\
    py_getitem_key data "category_id" = Ok category_id /\
    py_getitem_key entry "category_id" = Ok category_id.

(** The shape of an observation handed to the pose stage. *)
Definition observation_shape (person : value) : Prop :=
  exists d x y x2 y2 activity,
    person = VDict d /\
    dict_get "category_id" d = Some (VInt 1) /\
    dict_get "bbox" d = Some (VList [x; y; x2; y2; VFloat 1]) /\
    dict_get "activity" d = Some activity.

(** A value that [flatten] leaves as one entry. *)
Definition is_scalar (v : value) : bool :=
  match v with
  | VList _ => false
  | _ => true
  end.

(** The frame counters of a loop of [n] iterations starting at [first]. *)
Definition frame_ids (first : Z) (n : nat) : list Z :=
  map (fun j => first + Z.of_nat j) (seq 0 n).

(** Whether a record falls on frame [frame_id]. *)
Definition on_frame (frame_id : Z) (data : value) : bool :=
  match record_index data with
  | Some index => frame_id =? index
  | None => false
  end.

(** The rows of a keypoint array, from its triples. *)
Definition keypoint_rows (triples : list (value * value * value))
    : list value :=
  map (fun t => VList (Notions.untriple t)) triples.

(** The entry the non-person loop builds from a record that carries
    every field directly. *)
Definition direct_entry (data : dict) : option value :=
  match dict_get "track_id" data, dict_get "frame_id" data,
        dict_get "bbox" data, dict_get "category_id" data with
  | Some track_id, Some frame_id, Some bbox, Some category_id =>
      Some (VDict [("track_id", track_id); ("frame_id", frame_id);
                   ("bbox", bbox);
                   ("occluded",
                    match dict_get "occluded" data with
                    | None | Some VNone => VInt 0
                    | Some occluded => occluded
                    end);
                   ("category_id", category_id)])
  | _, _, _, _ => None
  end.

(** A record the non-person loop can process without consulting
    [attributes]: a person record, or one with every field direct. *)
Definition passthrough_ready (person_id data : value) : Prop :=
  exists d category_id,
    data = VDict d /\
    dict_get "category_id" d = Some category_id /\
    (py_eq category_id person_id = true \/
     exists entry, direct_entry d = Some entry).

End Selection.

(** ** The real number a float denotes

    The statements about float arithmetic are made on the real numbers
    the floats denote.  A finite binary64 is [(-1)^s * m * 2^e]; the
    primitive operations are specified by the functions of [SpecFloat]
    on that representation. *)

Module FloatReal.

Import Py.
Local Open Scope R_scope.

Definition pow2 (e : Z) : R := powerRZ 2 e.

Definition SF2R (x : spec_float) : R :=
  match x with
  | S754_finite s m e => (if s then - IZR (Zpos m) else IZR (Zpos m)) * pow2 e
  | _ => 0
  end.

Definition SF_finite (x : spec_float) : bool :=
  match x with
  | S754_zero _ | S754_finite _ _ _ => true
  | _ => false
  end.

Definition float_real (f : float) : R := SF2R (Prim2SF f).

Definition float_finite (f : float) : bool := SF_finite (Prim2SF f).

(** Where [u] lies between [m] and [m + 1], as the round and sticky
    bits of a right shift record it. *)
Definition bracket (m : Z) (r s : bool) (u : R) : Prop :=
  match r, s with
  | false, false => u = IZR m
  | false, true => IZR m < u < IZR m + / 2
  | true, false => u = IZR m + / 2
  | true, true => IZR m + / 2 < u < IZR m + 1
  end.

(** The shift record [mrs] at exponent [e] locates the value [v]. *)
Definition represents (v : R) (mrs : shr_record) (e : Z) : Prop :=
  (0 <= shr_m mrs)%Z /\
  bracket (shr_m mrs) (shr_r mrs) (shr_s mrs) (v * pow2 (- e)).

(** Half a unit in the last place of a binary64 of magnitude at most
    [2^k]: the rounding error of one operation with such a result. *)
Definition err (k : Z) : R := pow2 (Z.max (k - 52) (-1074) - 1).

(** A JSON number and the real it denotes: an [int], or a finite
    [float]. *)
Definition number_real (v : value) (q : R) : Prop :=
  match v with
  | VInt z => q = IZR z
  | VFloat f => float_finite f = true /\ q = float_real f
  | _ => False
  end.

(** [r] is [d] rounded to three decimals the way numpy does it: the
    double nearest to [n / 1000] for an integer [n] that is, up to the
    rounding of the product [1000 * d], the integer nearest to it; so
    [r] is within half a thousandth (and those two roundings) of [d].
    Stated for [d] of magnitude at most [2^31]. *)
Definition rounded_to_3_decimals (d r : float) : Prop :=
  float_finite d = true -> Rabs (float_real d) <= pow2 31 ->
  exists (nf : float) (n : Z),
    r = PrimFloat.div nf 1000 /\
    float_real nf = IZR n /\
    Rabs (IZR n - 1000 * float_real d) <= / 2 + pow2 (-12) /\
    float_finite r = true /\
    Rabs (float_real r - IZR n / 1000) <= pow2 (-21) /\
    Rabs (float_real r - float_real d) <= 501 / 1000000.

End FloatReal.

(** * Properties *)

(** ** Generic facts about the builtins *)

Module PyFacts.

Import Py.
Local Open Scope string_scope.
Local Open Scope list_scope.

Lemma bind_inv {A B : Type} (m : result A) (k : A -> result B) (b : B) :
  bind m k = Ok b -> exists a, m = Ok a /\ k a = Ok b.
Proof. destruct m as [a|e]; simpl; [eauto | discriminate]. Qed.

Lemma dict_get_set_eq (k : string) (v : value) (d : dict) :
  dict_get k (dict_set k v d) = Some v.
Proof.
  induction d as [|[k' v'] d IH]; simpl.
  - now rewrite String.eqb_refl.
  - destruct (String.eqb k k') eqn:E; simpl.
    + now rewrite String.eqb_refl.
    + now rewrite E.
Qed.

Lemma dict_get_set_ne (k k' : string) (v : value) (d : dict) :
  k <> k' -> dict_get k (dict_set k' v d) = dict_get k d.
Proof.
  intros Hne. apply String.eqb_neq in Hne.
  induction d as [|[k0 v0] d IH]; simpl.
  - now rewrite Hne.
  - destruct (String.eqb k' k0) eqn:E; simpl.
    + apply String.eqb_eq in E. subst k0. now rewrite Hne.
    + now rewrite IH.
Qed.

Lemma contains_dict (k : string) (d : dict) :
  py_contains k (VDict d) = Ok (dict_mem k d).
Proof. reflexivity. Qed.

Lemma dict_mem_some (k : string) (d : dict) (v : value) :
  dict_get k d = Some v -> dict_mem k d = true.
Proof. unfold dict_mem. now intros ->. Qed.

Lemma dict_mem_none (k : string) (d : dict) :
  dict_get k d = None -> dict_mem k d = false.
Proof. unfold dict_mem. now intros ->. Qed.

Lemma getitem_key_some (k : string) (d : dict) (v : value) :
  dict_get k d = Some v -> py_getitem_key (VDict d) k = Ok v.
Proof. simpl. now intros ->. Qed.

(** Only the string itself equals a string. *)
Lemma py_eq_str (v : value) (s : string) :
  py_eq v (VStr s) = true <-> v = VStr s.
Proof.
  split.
  - destruct v; simpl; try discriminate.
    intros H. apply String.eqb_eq in H. now subst.
  - intros ->. simpl. apply String.eqb_refl.
Qed.

(** A loop whose body ignores the item and computes an idempotent
    update does, after the first iteration, nothing more. *)
Lemma for_each_idempotent {S A : Type} (body : S -> A -> result S)
    (f : S -> S) :
  (forall s x, body s x = Ok (f s)) ->
  (forall s, f (f s) = f s) ->
  forall l s,
    for_each body s l = Ok (match l with [] => s | _ :: _ => f s end).
Proof.
  intros Hbody Hf. induction l as [|x l IH]; intros s; [reflexivity|].
  cbn [for_each]. rewrite Hbody. cbn [bind]. rewrite IH.
  destruct l; [reflexivity|]. now rewrite Hf.
Qed.

End PyFacts.

(** ** Binary64 arithmetic

    The error of one addition, subtraction, multiplication or division,
    and of the rounding to three decimals built from them, derived from
    the specification of the primitive floats. *)

Module FloatFacts.

Import Py Common FloatReal.
Local Open Scope R_scope.

Ltac fexp_lia := unfold fexp, SpecFloat.emin, prec, emax in *; lia.

Lemma pow2_pos (e : Z) : 0 < pow2 e.
Proof. apply powerRZ_lt. lra. Qed.

Lemma pow2_add (a b : Z) : pow2 (a + b) = pow2 a * pow2 b.
Proof. apply powerRZ_add. lra. Qed.

Lemma pow2_0 : pow2 0 = 1.
Proof. reflexivity. Qed.

Lemma pow2_1 : pow2 1 = 2.
Proof. unfold pow2. simpl. lra. Qed.

Lemma pow2_m1 : pow2 (-1) = / 2.
Proof. unfold pow2. simpl. f_equal. lra. Qed.

Lemma pow2_succ (e : Z) : pow2 (e + 1) = 2 * pow2 e.
Proof. rewrite pow2_add, pow2_1. lra. Qed.

Lemma pow2_pred (e : Z) : pow2 (e - 1) = pow2 e / 2.
Proof.
  replace (e - 1)%Z with (e + -1)%Z by lia.
  rewrite pow2_add, pow2_m1. lra.
Qed.

Lemma pow2_opp (e : Z) : pow2 (- e) * pow2 e = 1.
Proof. rewrite <- pow2_add. replace (- e + e)%Z with 0%Z by lia. apply pow2_0. Qed.

Lemma pow2_nat_ge1 (n : nat) : 1 <= pow2 (Z.of_nat n).
Proof.
  induction n as [|n IH].
  - change (Z.of_nat 0) with 0%Z. rewrite pow2_0. lra.
  - rewrite Nat2Z.inj_succ. unfold Z.succ. rewrite pow2_succ. lra.
Qed.

Lemma pow2_le (a b : Z) : (a <= b)%Z -> pow2 a <= pow2 b.
Proof.
  intros H. replace b with (a + Z.of_nat (Z.to_nat (b - a)))%Z by lia.
  rewrite pow2_add.
  pose proof (pow2_nat_ge1 (Z.to_nat (b - a))).
  pose proof (pow2_pos a). nra.
Qed.

Lemma pow2_lt (a b : Z) : (a < b)%Z -> pow2 a < pow2 b.
Proof.
  intros H. apply Rlt_le_trans with (pow2 (a + 1)).
  - rewrite pow2_succ. pose proof (pow2_pos a). lra.
  - apply pow2_le. lia.
Qed.

Lemma pow2_le_inv (a b : Z) : pow2 a <= pow2 b -> (a <= b)%Z.
Proof.
  intros H. destruct (Z_le_gt_dec a b) as [|Hgt]; [assumption|].
  apply Z.gt_lt, pow2_lt in Hgt. lra.
Qed.

Lemma pow2_IZR (n : Z) : (0 <= n)%Z -> pow2 n = IZR (2 ^ n).
Proof.
  intros H. pattern n. apply natlike_ind; [reflexivity| |assumption].
  intros x Hx IH. unfold Z.succ. rewrite pow2_succ, IH.
  rewrite Z.pow_add_r by lia. rewrite mult_IZR. simpl. lra.
Qed.

(** *** Number of binary digits *)

Lemma digits2_bounds (p : positive) :
  (2 ^ (Zpos (digits2_pos p) - 1) <= Zpos p < 2 ^ Zpos (digits2_pos p))%Z.
Proof.
  induction p as [p IH|p IH|]; simpl digits2_pos.
  - rewrite Pos2Z.inj_succ. unfold Z.succ.
    replace (Z.pos (digits2_pos p) + 1 - 1)%Z with (Z.pos (digits2_pos p) - 1 + 1)%Z by lia.
    rewrite !Z.pow_add_r by lia. change (2 ^ 1)%Z with 2%Z. lia.
  - rewrite Pos2Z.inj_succ. unfold Z.succ.
    replace (Z.pos (digits2_pos p) + 1 - 1)%Z with (Z.pos (digits2_pos p) - 1 + 1)%Z by lia.
    rewrite !Z.pow_add_r by lia. change (2 ^ 1)%Z with 2%Z. lia.
  - simpl. lia.
Qed.

Lemma Zdigits2_nonneg (m : Z) : (0 <= Zdigits2 m)%Z.
Proof. destruct m; simpl; lia. Qed.

Lemma Zdigits2_bounds (m : Z) :
  (0 < m)%Z -> (2 ^ (Zdigits2 m - 1) <= m < 2 ^ Zdigits2 m)%Z.
Proof. destruct m as [|p|p]; try lia. intros _. apply digits2_bounds. Qed.

Lemma Zdigits2_unique (m d : Z) :
  (0 < m)%Z -> (2 ^ (d - 1) <= m < 2 ^ d)%Z -> (1 <= d)%Z -> Zdigits2 m = d.
Proof.
  intros Hm [Hl Hu] Hd.
  pose proof (Zdigits2_bounds m Hm) as [Hl' Hu'].
  assert (H1 : (0 < Zdigits2 m)%Z) by (destruct m; simpl; lia).
  assert (A : (d - 1 < Zdigits2 m)%Z).
  { apply (Z.pow_lt_mono_r_iff 2); lia. }
  assert (B : (Zdigits2 m - 1 < d)%Z).
  { apply (Z.pow_lt_mono_r_iff 2); lia. }
  lia.
Qed.

Lemma Zdigits2_le_pow (m k : Z) :
  (0 <= m)%Z -> (0 <= k)%Z -> (m < 2 ^ k)%Z -> (Zdigits2 m <= k)%Z.
Proof.
  intros Hm Hk H. destruct (Z.eq_dec m 0) as [->|Hne]; [simpl; lia|].
  pose proof (Zdigits2_bounds m ltac:(lia)) as [Hl _].
  assert (Zdigits2 m - 1 < k)%Z; [|lia].
  apply (Z.pow_lt_mono_r_iff 2); lia.
Qed.

Lemma Zdigits2_real (m : Z) :
  (0 < m)%Z -> pow2 (Zdigits2 m - 1) <= IZR m < pow2 (Zdigits2 m).
Proof.
  intros Hm. pose proof (Zdigits2_bounds m Hm) as [Hl Hu].
  assert (H1 : (0 < Zdigits2 m)%Z) by (destruct m; simpl; lia).
  rewrite !pow2_IZR by lia. split; [apply IZR_le | apply IZR_lt]; assumption.
Qed.

(** Digits after dividing by a power of two. *)
Lemma Zdigits2_div_pow (m n : Z) :
  (0 < m)%Z -> (0 <= n)%Z -> (0 < m / 2 ^ n)%Z ->
  Zdigits2 (m / 2 ^ n) = (Zdigits2 m - n)%Z.
Proof.
  intros Hm Hn Hq.
  pose proof (Zdigits2_bounds m Hm) as [Hl Hu].
  assert (H1 : (0 < Zdigits2 m)%Z) by (destruct m; simpl; lia).
  assert (Hp : (0 < 2 ^ n)%Z) by (apply Z.pow_pos_nonneg; lia).
  assert (Hd : (n < Zdigits2 m)%Z).
  { destruct (Z_lt_le_dec n (Zdigits2 m)) as [|Hge]; [assumption|].
    assert (2 ^ Zdigits2 m <= 2 ^ n)%Z by (apply Z.pow_le_mono_r; lia).
    rewrite Z.div_small in Hq by lia. lia. }
  apply Zdigits2_unique; [assumption| |lia].
  split.
  - apply Z.div_le_lower_bound; [lia|].
    rewrite <- Z.pow_add_r by lia.
    replace (n + (Zdigits2 m - n - 1))%Z with (Zdigits2 m - 1)%Z by lia. assumption.
  - apply Z.div_lt_upper_bound; [lia|].
    rewrite <- Z.pow_add_r by lia.
    replace (n + (Zdigits2 m - n))%Z with (Zdigits2 m) by lia. assumption.
Qed.

Lemma iter_xO (d : positive) :
  forall p, Zpos (Pos.iter xO p d) = (Zpos p * 2 ^ Zpos d)%Z.
Proof.
  induction d as [|d IH] using Pos.peano_ind; intros p.
  - simpl. lia.
  - rewrite Pos.iter_succ. rewrite Pos2Z.inj_xO, IH.
    rewrite Pos2Z.inj_succ. unfold Z.succ. rewrite Z.pow_add_r by lia. lia.
Qed.


Lemma IZR_xO (p : positive) : IZR (Zpos p~0) = 2 * IZR (Zpos p).
Proof. rewrite Pos2Z.inj_xO, mult_IZR. reflexivity. Qed.

Lemma IZR_xI (p : positive) : IZR (Zpos p~1) = 2 * IZR (Zpos p) + 1.
Proof. rewrite Pos2Z.inj_xI, plus_IZR, mult_IZR. reflexivity. Qed.

Lemma shr_1_represents (v : R) (mrs : shr_record) (e : Z) :
  represents v mrs e ->
  represents v (shr_1 mrs) (e + 1) /\ shr_m (shr_1 mrs) = (shr_m mrs / 2)%Z.
Proof.
  destruct mrs as [m r s]. unfold represents. cbn [shr_m shr_r shr_s].
  intros [Hm Hb].
  replace (- (e + 1))%Z with (- e + -1)%Z by lia.
  rewrite pow2_add, pow2_m1, <- Rmult_assoc.
  set (u := v * pow2 (- e)) in *.
  destruct m as [|[p|p|]|p]; try lia.
  - split; [|reflexivity]. split; [simpl; lia|].
    destruct r, s; cbn -[IZR] in *; lra.
  - split; [|apply Z.div_unique with 1%Z; simpl; lia].
    split; [simpl; lia|].
    destruct r, s; cbn -[IZR] in *; rewrite IZR_xI in Hb; lra.
  - split; [|apply Z.div_unique with 0%Z; simpl; lia].
    split; [simpl; lia|].
    destruct r, s; cbn -[IZR] in *; rewrite IZR_xO in Hb; lra.
  - split; [|reflexivity]. split; [simpl; lia|].
    destruct r, s; cbn -[IZR] in *; lra.
Qed.

Lemma iter_pos_nat {A : Type} (f : A -> A) (p : positive) :
  forall x, iter_pos f p x = Nat.iter (Pos.to_nat p) f x.
Proof.
  induction p as [p IH|p IH|]; intros x; simpl iter_pos.
  - rewrite !IH. rewrite Pos2Nat.inj_xI.
    rewrite <- Nat.iter_add. rewrite <- Nat.iter_succ_r.
    f_equal. lia.
  - rewrite !IH. rewrite Pos2Nat.inj_xO.
    rewrite <- Nat.iter_add. f_equal. lia.
  - reflexivity.
Qed.

Lemma shr_nat_represents (v : R) (mrs : shr_record) (e : Z) (n : nat) :
  represents v mrs e ->
  represents v (Nat.iter n shr_1 mrs) (e + Z.of_nat n) /\
  shr_m (Nat.iter n shr_1 mrs) = (shr_m mrs / 2 ^ Z.of_nat n)%Z.
Proof.
  intros H. induction n as [|n [IH1 IH2]].
  - simpl. rewrite Z.add_0_r, Z.div_1_r. split; [assumption|reflexivity].
  - cbn [Nat.iter nat_rect].
    destruct (shr_1_represents v _ _ IH1) as [H1 H2].
    rewrite Nat2Z.inj_succ. unfold Z.succ.
    split.
    + replace (e + (Z.of_nat n + 1))%Z with (e + Z.of_nat n + 1)%Z by lia.
      exact H1.
    + change (Nat.iter n shr_1 mrs) with (nat_rect (fun _ => shr_record) mrs (fun _ => shr_1) n) in *.
      rewrite H2, IH2. rewrite Z.pow_add_r by lia.
      change (2 ^ 1)%Z with 2%Z.
      rewrite Z.div_div by lia. reflexivity.
Qed.

Lemma shr_represents (v : R) (mrs mrs' : shr_record) (e e' n : Z) :
  represents v mrs e ->
  shr mrs e n = (mrs', e') ->
  e' = (e + Z.max n 0)%Z /\
  represents v mrs' e' /\
  shr_m mrs' = (shr_m mrs / 2 ^ Z.max n 0)%Z.
Proof.
  intros H. unfold shr. destruct n as [|p|p]; intros [= <- <-].
  - simpl Z.max. rewrite Z.add_0_r, Z.div_1_r. auto.
  - rewrite iter_pos_nat.
    destruct (shr_nat_represents v mrs e (Pos.to_nat p) H) as [H1 H2].
    rewrite positive_nat_Z in *.
    replace (Z.max (Z.pos p) 0) with (Z.pos p) by lia. auto.
  - replace (Z.max (Z.neg p) 0) with 0%Z by lia.
    rewrite Z.add_0_r, Z.div_1_r. auto.
Qed.

Lemma round_nearest_even_represents (v : R) (mrs : shr_record) (e : Z) :
  represents v mrs e ->
  let mr := round_nearest_even (shr_m mrs) (loc_of_shr_record mrs) in
  (mr = shr_m mrs \/ mr = (shr_m mrs + 1)%Z) /\
  Rabs (IZR mr - v * pow2 (- e)) <= / 2 /\
  (loc_of_shr_record mrs = loc_Exact -> IZR mr = v * pow2 (- e)).
Proof.
  destruct mrs as [m r s]. unfold represents. cbn [shr_m shr_r shr_s].
  intros [Hm Hb]. set (u := v * pow2 (- e)) in *.
  destruct r, s; simpl in *.
  - split; [right; reflexivity|]. split; [|discriminate].
    rewrite plus_IZR. apply Rabs_le. lra.
  - destruct (Z.even m).
    + split; [left; reflexivity|]. split; [|discriminate].
      apply Rabs_le. lra.
    + split; [right; reflexivity|]. split; [|discriminate].
      rewrite plus_IZR. apply Rabs_le. lra.
  - split; [left; reflexivity|]. split; [|discriminate].
    apply Rabs_le. lra.
  - split; [left; reflexivity|]. split; [|intros _; lra].
    apply Rabs_le. lra.
Qed.

Lemma Zdigits2_succ (m : Z) :
  (0 <= m)%Z ->
  Zdigits2 (m + 1) = Zdigits2 m \/
  (Zdigits2 (m + 1) = (Zdigits2 m + 1)%Z /\ (m + 1 = 2 ^ Zdigits2 m)%Z).
Proof.
  intros Hm. destruct (Z.eq_dec m 0) as [->|Hne].
  - right. split; reflexivity.
  - pose proof (Zdigits2_bounds m ltac:(lia)) as [Hl Hu].
    assert (H1 : (0 < Zdigits2 m)%Z) by (destruct m; simpl; lia).
    destruct (Z.eq_dec (m + 1) (2 ^ Zdigits2 m)) as [He|Hn].
    + right. split; [|assumption].
      apply Zdigits2_unique; [lia| |lia].
      replace (Zdigits2 m + 1 - 1)%Z with (Zdigits2 m) by lia.
      rewrite Z.pow_add_r by lia. change (2 ^ 1)%Z with 2%Z. lia.
    + left. apply Zdigits2_unique; lia.
Qed.


Lemma record_of_loc_m (m : Z) (l : location) : shr_m (shr_record_of_loc m l) = m.
Proof. destruct l as [|[]]; reflexivity. Qed.

Lemma loc_of_record_of_loc (m : Z) (l : location) :
  loc_of_shr_record (shr_record_of_loc m l) = l.
Proof. destruct l as [|[]]; reflexivity. Qed.

(** The rounding every operation ends with: the value [v], located by
    [(mx, lx)] at exponent [ex], goes to a float within half a unit of
    the exponent it is rounded at. *)
Lemma round_aux_spec (sx : bool) (mx ex : Z) (lx : location) (v : R) :
  represents v (shr_record_of_loc mx lx) ex ->
  (Z.max ex (fexp prec emax (Zdigits2 mx + ex)) < emax - prec)%Z ->
  exists q : R,
    0 <= q /\
    Rabs (q - v) <= pow2 (Z.max ex (fexp prec emax (Zdigits2 mx + ex)) - 1) /\
    (lx = loc_Exact -> (fexp prec emax (Zdigits2 mx + ex) <= ex)%Z -> q = v) /\
    SF_finite (binary_round_aux prec emax sx mx ex lx) = true /\
    SF2R (binary_round_aux prec emax sx mx ex lx) = (if sx then - q else q).
Proof.
  intros Hrep HE.
  set (E := Z.max ex (fexp prec emax (Zdigits2 mx + ex))) in *.
  assert (Hmx : (0 <= mx)%Z).
  { destruct Hrep as [H _]. now rewrite record_of_loc_m in H. }
  unfold binary_round_aux.
  destruct (shr_fexp prec emax mx ex lx) as [mrs1 e1] eqn:H1.
  unfold shr_fexp in H1.
  destruct (shr_represents v _ _ _ _ _ Hrep H1) as (He1 & Hrep1 & Hm1).
  rewrite record_of_loc_m in Hm1.
  set (n := (fexp prec emax (Zdigits2 mx + ex) - ex)%Z) in *.
  assert (HeE : e1 = E) by (unfold E, n in *; lia).
  clear He1. subst e1.
  destruct (round_nearest_even_represents v mrs1 E Hrep1) as (Hmr & Hhalf & Hexact).
  set (mr := round_nearest_even (shr_m mrs1) (loc_of_shr_record mrs1)) in *.
  set (m1 := shr_m mrs1) in *.
  assert (Hm1nn : (0 <= m1)%Z) by (destruct Hrep1 as [H _]; exact H).
  assert (Hemin : (-1074 <= E)%Z).
  { unfold E. fexp_lia. }
  (* the first shift leaves a mantissa that is not too long *)
  assert (HA : (fexp prec emax (Zdigits2 m1 + E) <= E)%Z).
  { destruct (Z_le_gt_dec n 0) as [Hn|Hn].
    - replace (Z.max n 0) with 0%Z in Hm1 by lia.
      rewrite Z.div_1_r in Hm1. rewrite Hm1. unfold E, n in *. fexp_lia.
    - replace (Z.max n 0) with n in Hm1 by lia.
      destruct (Z.eq_dec m1 0) as [H0|H0].
      + rewrite H0. simpl Zdigits2. unfold E in *. fexp_lia.
      + assert (Hmxp : (0 < mx)%Z).
        { destruct (Z.eq_dec mx 0) as [Hz|]; [|lia].
          rewrite Hz, Z.div_0_l in Hm1; [lia|].
          apply Z.pow_nonzero; lia. }
        rewrite Hm1, Zdigits2_div_pow by lia.
        unfold E, n in *. fexp_lia. }
  (* the rounded mantissa has at most one digit more *)
  assert (HB : Zdigits2 mr = Zdigits2 m1 \/
               (Zdigits2 mr = (Zdigits2 m1 + 1)%Z /\ mr = (2 ^ Zdigits2 m1)%Z)).
  { destruct Hmr as [-> | ->]; [left; reflexivity|].
    apply Zdigits2_succ. assumption. }
  assert (Hmrnn : (0 <= mr)%Z) by lia.
  set (w := IZR mr * pow2 E).
  assert (Hw : represents w (shr_record_of_loc mr loc_Exact) E).
  { split; [simpl; lia|]. simpl. unfold w.
    rewrite Rmult_assoc, (Rmult_comm (pow2 E)), pow2_opp. lra. }
  destruct (shr_fexp prec emax mr E loc_Exact) as [mrs2 e2] eqn:H2.
  unfold shr_fexp in H2.
  destruct (shr_represents w _ _ _ _ _ Hw H2) as (He2 & Hrep2 & Hm2).
  cbn [shr_record_of_loc shr_m] in Hm2.
  set (n2 := (fexp prec emax (Zdigits2 mr + E) - E)%Z) in *.
  pose proof (Zdigits2_nonneg m1) as Hd1.
  assert (Hn2 : (n2 <= 0)%Z \/ (n2 = 1%Z /\ (mr = 2 * (mr / 2))%Z)).
  { destruct HB as [HB | [HB Hpow]].
    - left. unfold n2. rewrite HB. lia.
    - destruct (Z_le_gt_dec n2 0) as [|Hgt]; [left; assumption|right].
      assert (Hd : (1 <= Zdigits2 m1)%Z).
      { unfold n2 in Hgt. rewrite HB in Hgt. fexp_lia. }
      split.
      + unfold n2 in *. rewrite HB in *. fexp_lia.
      + rewrite Hpow.
        replace (Zdigits2 m1) with (Zdigits2 m1 - 1 + 1)%Z at 1 2 by lia.
        rewrite Z.pow_add_r by lia. change (2 ^ 1)%Z with 2%Z.
        rewrite Z.div_mul by lia. lia. }
  assert (Hval : IZR (shr_m mrs2) * pow2 e2 = w /\ (e2 <= E + 1)%Z).
  { destruct Hn2 as [Hn2 | [Hn2 Hev]].
    - replace (Z.max n2 0) with 0%Z in * by lia.
      rewrite Z.div_1_r in Hm2. rewrite Hm2, He2, Z.add_0_r.
      split; [reflexivity | lia].
    - rewrite Hn2 in *. change (Z.max 1 0) with 1%Z in *.
      change (2 ^ 1)%Z with 2%Z in Hm2.
      rewrite Hm2, He2. split; [|lia].
      unfold w. rewrite pow2_succ. rewrite Hev at 2. rewrite mult_IZR. lra. }
  destruct Hval as [Hval He2le].
  assert (Hm2nn : (0 <= shr_m mrs2)%Z) by (destruct Hrep2 as [H _]; exact H).
  assert (Hwnn : 0 <= w).
  { unfold w. apply Rmult_le_pos; [apply IZR_le; lia|]. pose proof (pow2_pos E). lra. }
  exists w. split; [assumption|]. split.
  { unfold w.
    replace (IZR mr * pow2 E - v)
      with ((IZR mr - v * pow2 (- E)) * pow2 E).
    2:{ rewrite Rmult_minus_distr_r, Rmult_assoc, pow2_opp. lra. }
    rewrite Rabs_mult, (Rabs_pos_eq (pow2 E)) by (pose proof (pow2_pos E); lra).
    rewrite pow2_pred. pose proof (pow2_pos E). nra. }
  split.
  { intros -> Hle. unfold w.
    assert (Hn0 : Z.max n 0 = 0%Z) by (unfold n; lia).
    assert (HEex : E = ex) by (unfold E; lia).
    assert (Hl : loc_of_shr_record mrs1 = loc_Exact).
    { unfold shr in H1. unfold n in Hn0.
      destruct (fexp prec emax (Zdigits2 mx + ex) - ex)%Z; try lia;
        injection H1 as <- _; reflexivity. }
    rewrite (Hexact Hl), Rmult_assoc, pow2_opp. lra. }
  destruct (shr_m mrs2) as [|p|p]; try lia.
  - split; [reflexivity|]. simpl in Hval. simpl. destruct sx; lra.
  - replace (e2 <=? emax - prec)%Z with true by (symmetry; apply Z.leb_le; lia).
    split; [reflexivity|]. cbn [SF2R]. fold (pow2 e2). destruct sx; lra.
Qed.

Lemma Zdigits2_mul_pow (m d : Z) :
  (0 < m)%Z -> (0 <= d)%Z -> Zdigits2 (m * 2 ^ d) = (Zdigits2 m + d)%Z.
Proof.
  intros Hm Hd.
  pose proof (Zdigits2_bounds m Hm) as [Hl Hu].
  assert (H1 : (0 < Zdigits2 m)%Z) by (destruct m; simpl; lia).
  assert (Hp : (0 < 2 ^ d)%Z) by (apply Z.pow_pos_nonneg; lia).
  apply Zdigits2_unique; [nia| |lia].
  replace (Zdigits2 m + d - 1)%Z with (Zdigits2 m - 1 + d)%Z by lia.
  rewrite !Z.pow_add_r by lia. nia.
Qed.

Lemma shl_align_spec (mx : positive) (ex ex' : Z) (m' : positive) (e' : Z) :
  shl_align mx ex ex' = (m', e') ->
  e' = Z.min ex ex' /\
  Zpos m' = (Zpos mx * 2 ^ (ex - e'))%Z /\
  IZR (Zpos m') * pow2 e' = IZR (Zpos mx) * pow2 ex /\
  (Zdigits2 (Zpos m') + e' = Zdigits2 (Zpos mx) + ex)%Z.
Proof.
  unfold shl_align. destruct (ex' - ex)%Z as [|d|d] eqn:Hd; intros [= <- <-].
  - replace (Z.min ex ex') with ex by lia.
    rewrite Z.sub_diag, Z.mul_1_r. auto.
  - replace (Z.min ex ex') with ex by lia.
    rewrite Z.sub_diag, Z.mul_1_r. auto.
  - assert (He : (ex - ex' = Z.pos d)%Z) by lia.
    split; [lia|]. rewrite He, iter_xO. split; [reflexivity|]. split.
    + rewrite mult_IZR, <- pow2_IZR by lia.
      rewrite Rmult_assoc, <- pow2_add. do 2 f_equal. lia.
    + rewrite Zdigits2_mul_pow by lia. lia.
Qed.

Lemma binary_round_spec (sx : bool) (m : positive) (e : Z) :
  (fexp prec emax (Zdigits2 (Zpos m) + e) < emax - prec)%Z ->
  exists q : R,
    0 <= q /\
    Rabs (q - IZR (Zpos m) * pow2 e)
      <= pow2 (fexp prec emax (Zdigits2 (Zpos m) + e) - 1) /\
    ((fexp prec emax (Zdigits2 (Zpos m) + e) <= e)%Z -> q = IZR (Zpos m) * pow2 e) /\
    SF_finite (binary_round prec emax sx m e) = true /\
    SF2R (binary_round prec emax sx m e) = (if sx then - q else q).
Proof.
  intros Hc. unfold binary_round.
  change (Z.pos (digits2_pos m)) with (Zdigits2 (Zpos m)).
  set (c := fexp prec emax (Zdigits2 (Z.pos m) + e)) in *.
  destruct (shl_align m e c) as [mz ez] eqn:Hs.
  destruct (shl_align_spec _ _ _ _ _ Hs) as (Hez & Hmz & Hv & Hd).
  assert (Hrep : represents (IZR (Zpos m) * pow2 e)
                   (shr_record_of_loc (Zpos mz) loc_Exact) ez).
  { split; [simpl; lia|]. simpl. rewrite <- Hv.
    rewrite Rmult_assoc, (Rmult_comm (pow2 ez)), pow2_opp. lra. }
  assert (HE : Z.max ez (fexp prec emax (Zdigits2 (Z.pos mz) + ez)) = c).
  { rewrite Hd. fold c. lia. }
  destruct (round_aux_spec sx (Zpos mz) ez loc_Exact _ Hrep)
    as (q & Hq & Herr & Hex & Hfin & Hval).
  { rewrite HE. exact Hc. }
  rewrite HE in Herr. rewrite Hd in Hex. fold c in Hex.
  exists q. repeat split; try assumption.
  intros Hle. apply Hex; [reflexivity|lia].
Qed.

Lemma binary_normalize_spec (M e : Z) (sz : bool) :
  (fexp prec emax (Zdigits2 M + e) < emax - prec)%Z ->
  SF_finite (binary_normalize prec emax M e sz) = true /\
  Rabs (SF2R (binary_normalize prec emax M e sz) - IZR M * pow2 e)
    <= pow2 (fexp prec emax (Zdigits2 M + e) - 1) /\
  ((fexp prec emax (Zdigits2 M + e) <= e)%Z ->
   SF2R (binary_normalize prec emax M e sz) = IZR M * pow2 e).
Proof.
  intros Hc. destruct M as [|m|m]; cbn [binary_normalize].
  - split; [reflexivity|]. cbn [SF2R]. split; [|intros _; lra].
    replace (0 - 0 * pow2 e) with 0 by lra. rewrite Rabs_R0.
    pose proof (pow2_pos (fexp prec emax (Zdigits2 0 + e) - 1)). lra.
  - destruct (binary_round_spec false m e Hc) as (q & Hq & Herr & Hex & Hfin & Hval).
    rewrite Hval. auto.
  - change (Zdigits2 (Z.neg m)) with (Zdigits2 (Z.pos m)) in *.
    destruct (binary_round_spec true m e Hc) as (q & Hq & Herr & Hex & Hfin & Hval).
    rewrite Hval. change (Z.neg m) with (- Z.pos m)%Z. rewrite opp_IZR.
    split; [assumption|]. split.
    + replace (- q - - IZR (Z.pos m) * pow2 e)
        with (- (q - IZR (Z.pos m) * pow2 e)) by lra.
      rewrite Rabs_Ropp. exact Herr.
    + intros Hle. rewrite (Hex Hle). lra.
Qed.

(** The exponent a value below [2^k] is rounded at. *)
Lemma fexp_magnitude (M e k : Z) :
  M <> 0%Z -> Rabs (IZR M) * pow2 e <= pow2 k ->
  (Zdigits2 M + e <= k + 1)%Z.
Proof.
  intros HM Hb.
  assert (Hd : pow2 (Zdigits2 M - 1) <= Rabs (IZR M)).
  { destruct M as [|m|m]; [congruence| |].
    - rewrite Rabs_pos_eq by (apply IZR_le; lia).
      apply Zdigits2_real. lia.
    - change (Zdigits2 (Z.neg m)) with (Zdigits2 (Z.pos m)).
      change (Z.neg m) with (- Z.pos m)%Z. rewrite opp_IZR, Rabs_Ropp.
      rewrite Rabs_pos_eq by (apply IZR_le; lia).
      apply Zdigits2_real. lia. }
  assert (pow2 (Zdigits2 M - 1 + e) <= pow2 k).
  { rewrite pow2_add. pose proof (pow2_pos e). nra. }
  apply pow2_le_inv in H. lia.
Qed.

Lemma binary_normalize_err (M e k : Z) (sz : bool) :
  Rabs (IZR M * pow2 e) <= pow2 k -> (k <= 970)%Z ->
  SF_finite (binary_normalize prec emax M e sz) = true /\
  Rabs (SF2R (binary_normalize prec emax M e sz) - IZR M * pow2 e) <= err k.
Proof.
  intros Hb Hk. destruct (Z.eq_dec M 0) as [->|HM].
  - split; [reflexivity|]. cbn [binary_normalize SF2R].
    replace (0 - 0 * pow2 e) with 0 by lra. rewrite Rabs_R0.
    unfold err. pose proof (pow2_pos (Z.max (k - 52) (-1074) - 1)). lra.
  - rewrite Rabs_mult, (Rabs_pos_eq (pow2 e)) in Hb
      by (pose proof (pow2_pos e); lra).
    pose proof (fexp_magnitude M e k HM Hb) as Hd.
    assert (Hc : (fexp prec emax (Zdigits2 M + e) <= Z.max (k - 52) (-1074))%Z) by fexp_lia.
    destruct (binary_normalize_spec M e sz) as (Hfin & Herr & _).
    { unfold prec, emax in *. lia. }
    split; [assumption|]. eapply Rle_trans; [exact Herr|].
    unfold err. apply pow2_le. lia.
Qed.

(** *** Addition and subtraction *)

Lemma cond_Zopp_IZR (s : bool) (m : Z) :
  IZR (cond_Zopp s m) = (if s then - IZR m else IZR m).
Proof. destruct s; simpl; [apply opp_IZR|reflexivity]. Qed.

Lemma aligned_value (s : bool) (m : positive) (e ez : Z) :
  (ez <= e)%Z ->
  IZR (cond_Zopp s (Zpos (fst (shl_align m e ez)))) * pow2 ez
  = SF2R (S754_finite s m e).
Proof.
  intros Hle. destruct (shl_align m e ez) as [m' e'] eqn:Hs.
  destruct (shl_align_spec _ _ _ _ _ Hs) as (He & _ & Hv & _).
  replace e' with ez in Hv by lia.
  cbn [fst SF2R]. rewrite cond_Zopp_IZR. destruct s; lra.
Qed.

Lemma SFadd_spec (x y : spec_float) (k : Z) :
  SF_finite x = true -> SF_finite y = true ->
  Rabs (SF2R x + SF2R y) <= pow2 k -> (k <= 970)%Z ->
  SF_finite (SFadd prec emax x y) = true /\
  Rabs (SF2R (SFadd prec emax x y) - (SF2R x + SF2R y)) <= err k.
Proof.
  intros Hx Hy Hb Hk.
  assert (Herr0 : 0 <= err k) by (unfold err; pose proof (pow2_pos (Z.max (k - 52) (-1074) - 1)); lra).
  destruct x as [sx|sx| |sx mx ex], y as [sy|sy| |sy my ey]; try discriminate.
  - split; [destruct sx, sy; reflexivity|].
    replace (SF2R (SFadd prec emax (S754_zero sx) (S754_zero sy))) with 0
      by (destruct sx, sy; reflexivity).
    cbn [SF2R]. replace (0 - (0 + 0)) with 0 by lra. now rewrite Rabs_R0.
  - cbn [SFadd]. split; [reflexivity|]. cbn [SF2R].
    match goal with |- Rabs ?t <= _ => replace t with 0 by lra end.
    now rewrite Rabs_R0.
  - cbn [SFadd]. split; [reflexivity|]. cbn [SF2R].
    match goal with |- Rabs ?t <= _ => replace t with 0 by lra end.
    now rewrite Rabs_R0.
  - cbn [SFadd].
    set (ez := Z.min ex ey).
    set (M := (cond_Zopp sx (Z.pos (fst (shl_align mx ex ez)))
               + cond_Zopp sy (Z.pos (fst (shl_align my ey ez))))%Z).
    assert (HM : IZR M * pow2 ez
                 = SF2R (S754_finite sx mx ex) + SF2R (S754_finite sy my ey)).
    { unfold M. rewrite plus_IZR, Rmult_plus_distr_r.
      rewrite !aligned_value by (unfold ez; lia). reflexivity. }
    rewrite <- HM in *. apply binary_normalize_err; assumption.
Qed.

Lemma SFsub_spec (x y : spec_float) (k : Z) :
  SF_finite x = true -> SF_finite y = true ->
  Rabs (SF2R x - SF2R y) <= pow2 k -> (k <= 970)%Z ->
  SF_finite (SFsub prec emax x y) = true /\
  Rabs (SF2R (SFsub prec emax x y) - (SF2R x - SF2R y)) <= err k.
Proof.
  intros Hx Hy Hb Hk.
  assert (Herr0 : 0 <= err k) by (unfold err; pose proof (pow2_pos (Z.max (k - 52) (-1074) - 1)); lra).
  destruct x as [sx|sx| |sx mx ex], y as [sy|sy| |sy my ey]; try discriminate.
  - split; [destruct sx, sy; reflexivity|].
    replace (SF2R (SFsub prec emax (S754_zero sx) (S754_zero sy))) with 0
      by (destruct sx, sy; reflexivity).
    cbn [SF2R]. replace (0 - (0 - 0)) with 0 by lra. now rewrite Rabs_R0.
  - cbn [SFsub]. split; [reflexivity|]. cbn [SF2R].
    match goal with |- Rabs ?t <= _ => replace t with 0 by (destruct sy; simpl; lra) end.
    now rewrite Rabs_R0.
  - cbn [SFsub]. split; [reflexivity|]. cbn [SF2R].
    match goal with |- Rabs ?t <= _ => replace t with 0 by lra end.
    now rewrite Rabs_R0.
  - cbn [SFsub].
    set (ez := Z.min ex ey).
    set (M := (cond_Zopp sx (Z.pos (fst (shl_align mx ex ez)))
               - cond_Zopp sy (Z.pos (fst (shl_align my ey ez))))%Z).
    assert (HM : IZR M * pow2 ez
                 = SF2R (S754_finite sx mx ex) - SF2R (S754_finite sy my ey)).
    { unfold M. rewrite minus_IZR, Rmult_minus_distr_r.
      rewrite !aligned_value by (unfold ez; lia). reflexivity. }
    rewrite <- HM in *. apply binary_normalize_err; assumption.
Qed.

Lemma err_nonneg (k : Z) : 0 <= err k.
Proof. unfold err. pose proof (pow2_pos (Z.max (k - 52) (-1074) - 1)). lra. Qed.

(** *** Multiplication *)

Lemma SFmul_spec (x y : spec_float) (k : Z) :
  SF_finite x = true -> SF_finite y = true ->
  Rabs (SF2R x * SF2R y) <= pow2 k -> (k <= 970)%Z ->
  SF_finite (SFmul prec emax x y) = true /\
  Rabs (SF2R (SFmul prec emax x y) - SF2R x * SF2R y) <= err k.
Proof.
  intros Hx Hy Hb Hk. pose proof (err_nonneg k) as Herr0.
  destruct x as [sx|sx| |sx mx ex], y as [sy|sy| |sy my ey]; try discriminate;
    try (cbn [SFmul SF2R SF_finite]; split; [reflexivity|];
         match goal with |- Rabs ?t <= _ => replace t with 0 by lra end;
         now rewrite Rabs_R0).
  cbn [SFmul].
  set (v := IZR (Z.pos (mx * my)) * pow2 (ex + ey)).
  assert (Hv : SF2R (S754_finite sx mx ex) * SF2R (S754_finite sy my ey)
               = (if xorb sx sy then - v else v)).
  { unfold v. cbn [SF2R]. rewrite Pos2Z.inj_mul, mult_IZR, pow2_add.
    destruct sx, sy; simpl; lra. }
  rewrite Hv in *.
  assert (Hvb : Rabs (IZR (Z.pos (mx * my))) * pow2 (ex + ey) <= pow2 k).
  { replace (Rabs (if xorb sx sy then - v else v)) with (Rabs v) in Hb
      by (destruct (xorb sx sy); [now rewrite Rabs_Ropp|reflexivity]).
    unfold v in Hb.
    rewrite Rabs_mult, (Rabs_pos_eq (pow2 (ex + ey))) in Hb
      by (pose proof (pow2_pos (ex + ey)); lra).
    exact Hb. }
  assert (Hd := fexp_magnitude (Z.pos (mx * my)) (ex + ey) k ltac:(discriminate) Hvb).
  assert (Hee : (ex + ey <= k)%Z).
  { apply pow2_le_inv. eapply Rle_trans; [|exact Hvb].
    rewrite Rabs_pos_eq by (apply IZR_le; lia).
    assert (1 <= IZR (Z.pos (mx * my))) by (apply IZR_le; lia).
    pose proof (pow2_pos (ex + ey)). nra. }
  assert (Hrep : represents v (shr_record_of_loc (Z.pos (mx * my)) loc_Exact) (ex + ey)).
  { split; [simpl; lia|]. simpl. unfold v.
    rewrite Rmult_assoc, (Rmult_comm (pow2 (ex + ey))), pow2_opp. lra. }
  destruct (round_aux_spec (xorb sx sy) _ _ _ _ Hrep)
    as (q & Hq & Herr & Hex & Hfin & Hval).
  { fexp_lia. }
  split; [assumption|]. rewrite Hval.
  replace ((if xorb sx sy then - q else q) - (if xorb sx sy then - v else v))
    with (if xorb sx sy then - (q - v) else q - v)
    by (destruct (xorb sx sy); lra).
  replace (Rabs (if xorb sx sy then - (q - v) else q - v)) with (Rabs (q - v))
    by (destruct (xorb sx sy); [now rewrite Rabs_Ropp|reflexivity]).
  destruct (Z_le_gt_dec (fexp prec emax (Zdigits2 (Z.pos (mx * my)) + (ex + ey))) (ex + ey))
    as [Hle|Hgt].
  - rewrite (Hex eq_refl Hle). replace (v - v) with 0 by lra.
    now rewrite Rabs_R0.
  - eapply Rle_trans; [exact Herr|]. unfold err. apply pow2_le. fexp_lia.
Qed.

(** *** Division *)

Lemma new_location_represents (nb q r : Z) (e : Z) (v : R) :
  (0 < nb)%Z -> (0 <= q)%Z -> (0 <= r < nb)%Z ->
  v * pow2 (- e) = IZR q + IZR r / IZR nb ->
  represents v (shr_record_of_loc q (new_location nb r)) e.
Proof.
  intros Hnb Hq Hr Hv. split; [now rewrite record_of_loc_m|].
  rewrite record_of_loc_m, Hv.
  set (t := IZR r / IZR nb).
  assert (HN : 0 < IZR nb) by (apply IZR_lt; lia).
  assert (Ht : t * IZR nb = IZR r) by (unfold t; field; lra).
  assert (Hr0 : 0 <= IZR r) by (apply IZR_le; lia).
  assert (Hr1 : IZR r < IZR nb) by (apply IZR_lt; lia).
  assert (Ht1 : t < 1) by nra.
  assert (Hlt : forall a b : Z, (a < b)%Z -> IZR a < IZR b) by (intros; now apply IZR_lt).
  unfold new_location, new_location_even, new_location_odd.
  destruct (Z.even nb) eqn:Hev.
  - destruct (Z.eqb_spec r 0) as [->|Hne].
    + simpl. unfold t. lra.
    + assert (0 < IZR r) by (apply IZR_lt; lia).
      assert (0 < t) by nra.
      destruct (Z.compare_spec (2 * r) nb) as [He|Hl|Hg]; simpl.
      * apply (f_equal IZR) in He. rewrite mult_IZR in He. nra.
      * apply Hlt in Hl. rewrite mult_IZR in Hl. split; nra.
      * apply Hlt in Hg. rewrite mult_IZR in Hg. split; nra.
  - destruct (Z.eqb_spec r 0) as [->|Hne].
    + simpl. unfold t. lra.
    + assert (0 < IZR r) by (apply IZR_lt; lia).
      assert (0 < t) by nra.
      assert (Hodd : (2 * r <> nb)%Z).
      { intros <-. rewrite Z.even_mul in Hev. discriminate. }
      destruct (Z.compare_spec (2 * r + 1) nb) as [He|Hl|Hg]; simpl.
      * assert (Hl : (2 * r < nb)%Z) by lia.
        apply Hlt in Hl. rewrite mult_IZR in Hl. split; nra.
      * assert (Hl' : (2 * r < nb)%Z) by lia.
        apply Hlt in Hl'. rewrite mult_IZR in Hl'. split; nra.
      * assert (Hg' : (nb < 2 * r)%Z) by lia.
        apply Hlt in Hg'. rewrite mult_IZR in Hg'. split; nra.
Qed.

Lemma SFdiv_spec (x : spec_float) (sy : bool) (my : positive) (ey : Z) (k : Z) :
  SF_finite x = true ->
  Rabs (SF2R x / SF2R (S754_finite sy my ey)) <= pow2 k -> (k <= 970)%Z ->
  SF_finite (SFdiv prec emax x (S754_finite sy my ey)) = true /\
  Rabs (SF2R (SFdiv prec emax x (S754_finite sy my ey))
        - SF2R x / SF2R (S754_finite sy my ey)) <= err k.
Proof.
  intros Hx Hb Hk. pose proof (err_nonneg k) as Herr0.
  assert (Hmy : 0 < IZR (Z.pos my)) by (apply IZR_lt; lia).
  pose proof (pow2_pos ey) as Hpy.
  assert (Hy : SF2R (S754_finite sy my ey) <> 0).
  { cbn [SF2R]. destruct sy; nra. }
  destruct x as [sx|sx| |sx mx ex]; try discriminate.
  - cbn [SFdiv SF_finite]. split; [reflexivity|]. cbn [SF2R] in *.
    match goal with |- Rabs ?t <= _ => replace t with 0 by (unfold Rdiv; lra) end.
    now rewrite Rabs_R0.
  - cbn [SFdiv]. unfold SFdiv_core_binary.
    set (d1 := Zdigits2 (Z.pos mx)). set (d2 := Zdigits2 (Z.pos my)).
    set (e' := Z.min (fexp prec emax (d1 + ex - (d2 + ey))) (ex - ey)).
    set (s := (ex - ey - e')%Z).
    assert (Hs : (0 <= s)%Z) by (unfold s, e'; lia).
    set (m' := match s with
               | 0%Z => Z.pos mx
               | Z.pos _ => Z.shiftl (Z.pos mx) s
               | Z.neg _ => 0%Z
               end).
    assert (Hm' : m' = (Z.pos mx * 2 ^ s)%Z).
    { unfold m'. destruct s as [|p|p] eqn:Es; [simpl; lia| |lia].
      apply Z.shiftl_mul_pow2. lia. }
    pose proof (Z_div_mod m' (Z.pos my) ltac:(lia)) as Hdm.
    destruct (Z.div_eucl m' (Z.pos my)) as [q r]. destruct Hdm as [Hdm Hr].
    assert (Hp : (0 < 2 ^ s)%Z) by (apply Z.pow_pos_nonneg; lia).
    assert (Hq : (0 <= q)%Z) by nia.
    set (v := IZR (Z.pos mx) * pow2 ex / (IZR (Z.pos my) * pow2 ey)).
    assert (Hv : SF2R (S754_finite sx mx ex) / SF2R (S754_finite sy my ey)
                 = (if xorb sx sy then - v else v)).
    { unfold v. cbn [SF2R]. destruct sx, sy; simpl; field; lra. }
    rewrite Hv in *.
    replace (Rabs (if xorb sx sy then - v else v)) with (Rabs v) in Hb
      by (destruct (xorb sx sy); [now rewrite Rabs_Ropp|reflexivity]).
    assert (Hmx : 0 < IZR (Z.pos mx)) by (apply IZR_lt; lia).
    pose proof (pow2_pos ex) as Hpx.
    assert (Hvpos : 0 < v).
    { unfold v. apply Rdiv_lt_0_compat; nra. }
    rewrite Rabs_pos_eq in Hb by lra.
    assert (Hu : v * pow2 (- e') = IZR q + IZR r / IZR (Z.pos my)).
    { assert (HR : IZR m' = IZR (Z.pos my) * IZR q + IZR r).
      { rewrite Hdm, plus_IZR, mult_IZR. reflexivity. }
      rewrite Hm', mult_IZR, <- pow2_IZR in HR by lia.
      assert (Hpe : pow2 ex = pow2 s * pow2 ey * pow2 e').
      { rewrite <- !pow2_add. f_equal. unfold s. lia. }
      pose proof (pow2_opp e') as Ho. pose proof (pow2_pos e') as Hpe'.
      pose proof (pow2_pos (- e')) as Hpne'.
      unfold v. rewrite Hpe.
      replace (IZR (Z.pos mx) * (pow2 s * pow2 ey * pow2 e') /
               (IZR (Z.pos my) * pow2 ey) * pow2 (- e'))
        with (IZR (Z.pos mx) * pow2 s / IZR (Z.pos my) * (pow2 (- e') * pow2 e'))
        by (field; lra).
      rewrite Ho, HR. field. lra. }
    assert (Hrep := new_location_represents (Z.pos my) q r e' v ltac:(lia) Hq Hr Hu).
    (* the exponents involved stay below the bound *)
    assert (He'k : (e' <= Z.max (k - 52) (-1074))%Z).
    { assert (Hd : (d1 + ex - (d2 + ey) <= k + 1)%Z).
      { pose proof (Zdigits2_real (Z.pos mx) ltac:(lia)) as [Hl1 _].
        pose proof (Zdigits2_real (Z.pos my) ltac:(lia)) as [_ Hu2].
        fold d1 in Hl1. fold d2 in Hu2.
        assert (Hlow : pow2 (d1 - 1 + ex - (d2 + ey)) <= v).
        { set (P := pow2 (d1 - 1 + ex - (d2 + ey))).
          assert (HP : P * (pow2 d2 * pow2 ey) = pow2 (d1 - 1) * pow2 ex).
          { unfold P. rewrite <- !pow2_add. f_equal. lia. }
          assert (HV : v * (IZR (Z.pos my) * pow2 ey) = IZR (Z.pos mx) * pow2 ex).
          { unfold v. field. lra. }
          pose proof (pow2_pos (d1 - 1 + ex - (d2 + ey))) as HPp. fold P in HPp.
          assert (H1 : pow2 (d1 - 1) * pow2 ex <= IZR (Z.pos mx) * pow2 ex) by nra.
          assert (H2 : P * (IZR (Z.pos my) * pow2 ey) <= P * (pow2 d2 * pow2 ey)).
          { apply Rmult_le_compat_l; [lra|]. nra. }
          apply Rmult_le_reg_r with (IZR (Z.pos my) * pow2 ey); [nra|]. lra. }
        assert (Hpk : pow2 (d1 - 1 + ex - (d2 + ey)) <= pow2 k) by lra.
        apply pow2_le_inv in Hpk. lia. }
      unfold e'. fexp_lia. }
    assert (Hqk : (fexp prec emax (Zdigits2 q + e') <= Z.max (k - 52) (-1074))%Z).
    { destruct (Z.eq_dec q 0) as [->|Hq0].
      - simpl Zdigits2. fexp_lia.
      - assert (Hqv : Rabs (IZR q) * pow2 e' <= pow2 k).
        { rewrite Rabs_pos_eq by (apply IZR_le; lia).
          pose proof (pow2_opp e') as Ho. pose proof (pow2_pos e') as Hpe'.
          assert (Hq1 : IZR q <= v * pow2 (- e')).
          { rewrite Hu.
            assert (0 <= IZR r / IZR (Z.pos my)).
            { apply Rmult_le_pos; [apply IZR_le; lia|].
              left. apply Rinv_0_lt_compat. lra. }
            lra. }
          apply Rle_trans with (v * pow2 (- e') * pow2 e'); [nra|].
          rewrite Rmult_assoc, Ho. lra. }
        pose proof (fexp_magnitude q e' k Hq0 Hqv). fexp_lia. }
    destruct (round_aux_spec (xorb sx sy) q e' _ v Hrep)
      as (w & Hw & Herr & _ & Hfin & Hval).
    { unfold prec, emax in *. lia. }
    split; [assumption|]. rewrite Hval.
    replace ((if xorb sx sy then - w else w) - (if xorb sx sy then - v else v))
      with (if xorb sx sy then - (w - v) else w - v)
      by (destruct (xorb sx sy); lra).
    replace (Rabs (if xorb sx sy then - (w - v) else w - v)) with (Rabs (w - v))
      by (destruct (xorb sx sy); [now rewrite Rabs_Ropp|reflexivity]).
    eapply Rle_trans; [exact Herr|]. unfold err. apply pow2_le. lia.
Qed.

(** *** The primitive operations *)

Lemma float_add_spec (x y : float) (k : Z) :
  float_finite x = true -> float_finite y = true ->
  Rabs (float_real x + float_real y) <= pow2 k -> (k <= 970)%Z ->
  float_finite (PrimFloat.add x y) = true /\
  Rabs (float_real (PrimFloat.add x y) - (float_real x + float_real y)) <= err k.
Proof.
  unfold float_finite, float_real. rewrite add_spec. apply SFadd_spec.
Qed.

Lemma float_sub_spec (x y : float) (k : Z) :
  float_finite x = true -> float_finite y = true ->
  Rabs (float_real x - float_real y) <= pow2 k -> (k <= 970)%Z ->
  float_finite (PrimFloat.sub x y) = true /\
  Rabs (float_real (PrimFloat.sub x y) - (float_real x - float_real y)) <= err k.
Proof.
  unfold float_finite, float_real. rewrite sub_spec. apply SFsub_spec.
Qed.

Lemma float_mul_spec (x y : float) (k : Z) :
  float_finite x = true -> float_finite y = true ->
  Rabs (float_real x * float_real y) <= pow2 k -> (k <= 970)%Z ->
  float_finite (PrimFloat.mul x y) = true /\
  Rabs (float_real (PrimFloat.mul x y) - float_real x * float_real y) <= err k.
Proof.
  unfold float_finite, float_real. rewrite mul_spec. apply SFmul_spec.
Qed.

Lemma Prim2SF_1000 : Prim2SF 1000 = S754_finite false 8796093022208000 (-43).
Proof. reflexivity. Qed.

Lemma float_real_1000 : float_real 1000 = 1000.
Proof.
  unfold float_real. rewrite Prim2SF_1000. cbn [SF2R].
  change 8796093022208000%positive with (1000 * 2 ^ 43)%positive.
  rewrite Pos2Z.inj_mul, mult_IZR.
  pose proof (pow2_opp 43) as H. rewrite (pow2_IZR 43) in H by lia.
  change (- (43))%Z with (-43)%Z in H.
  change (Z.pos (2 ^ 43)) with (2 ^ 43)%Z.
  rewrite Rmult_assoc, (Rmult_comm (IZR (2 ^ 43))), H. lra.
Qed.

Lemma float_div_1000_spec (x : float) (k : Z) :
  float_finite x = true ->
  Rabs (float_real x / 1000) <= pow2 k -> (k <= 970)%Z ->
  float_finite (PrimFloat.div x 1000) = true /\
  Rabs (float_real (PrimFloat.div x 1000) - float_real x / 1000) <= err k.
Proof.
  rewrite <- float_real_1000.
  unfold float_finite, float_real. rewrite div_spec, Prim2SF_1000.
  apply SFdiv_spec.
Qed.

(** *** [rint] *)

Lemma half_even_div_spec (a b : Z) :
  (0 <= a)%Z -> (0 < b)%Z ->
  (a / b <= half_even_div a b <= a / b + 1)%Z /\
  Rabs (IZR (half_even_div a b) - IZR a / IZR b) <= / 2.
Proof.
  intros Ha Hb. unfold half_even_div.
  pose proof (Z_div_mod_eq_full a b) as Hdm.
  pose proof (Z.mod_pos_bound a b Hb) as Hr.
  set (q := (a / b)%Z) in *. set (r := (a mod b)%Z) in *.
  assert (HB : 0 < IZR b) by (apply IZR_lt; lia).
  assert (Hab : IZR a / IZR b = IZR q + IZR r / IZR b).
  { rewrite Hdm, plus_IZR, mult_IZR. field. lra. }
  set (t := IZR r / IZR b) in *.
  assert (Ht : t * IZR b = IZR r) by (unfold t; field; lra).
  assert (Hlt : forall x y : Z, (x < y)%Z -> IZR x < IZR y) by (intros; now apply IZR_lt).
  assert (Hr0 : 0 <= IZR r) by (apply IZR_le; lia).
  assert (Ht0 : 0 <= t) by nra.
  rewrite Hab.
  destruct (Z.compare_spec (2 * r) b) as [He|Hl|Hg].
  - apply (f_equal IZR) in He. rewrite mult_IZR in He.
    assert (t = / 2) by nra.
    destruct (Z.even q); (split; [lia|]); rewrite ?plus_IZR; apply Rabs_le; lra.
  - split; [lia|]. apply Hlt in Hl. rewrite mult_IZR in Hl.
    assert (t < / 2) by nra. apply Rabs_le; lra.
  - split; [lia|]. apply Hlt in Hg. rewrite mult_IZR in Hg.
    assert (/ 2 < t) by nra.
    assert (Hr1 : IZR r < IZR b) by (apply Hlt; lia).
    assert (t < 1) by nra.
    rewrite plus_IZR. apply Rabs_le; lra.
Qed.

Lemma valid_mantissa_bound (s : bool) (m : positive) (e : Z) :
  valid_binary (S754_finite s m e) = true -> (Zpos m < 2 ^ 53)%Z.
Proof.
  cbn [valid_binary SpecFloat.valid_binary]. unfold bounded, canonical_mantissa.
  intros H. apply andb_prop in H as [H _]. apply Z.eqb_eq in H.
  pose proof (digits2_bounds m) as [_ Hu].
  assert (Hd : (Z.pos (digits2_pos m) <= 53)%Z) by fexp_lia.
  eapply Z.lt_le_trans; [exact Hu|]. apply Z.pow_le_mono_r; lia.
Qed.

Lemma SF2R_opp (x : spec_float) : SF2R (SFopp x) = - SF2R x.
Proof. destruct x as [s|s| |s m e]; cbn [SFopp SF2R]; try lra. destruct s; simpl; lra. Qed.

Lemma SF_finite_opp (x : spec_float) : SF_finite (SFopp x) = SF_finite x.
Proof. destruct x; reflexivity. Qed.

(** An integer below [2^53] converts exactly. *)
Lemma of_uint63_exact (n : Z) :
  (0 <= n < 2 ^ 53)%Z ->
  float_finite (PrimFloat.of_uint63 (Uint63.of_Z n)) = true /\
  float_real (PrimFloat.of_uint63 (Uint63.of_Z n)) = IZR n.
Proof.
  intros Hn. unfold float_finite, float_real.
  rewrite of_uint63_spec, Uint63.of_Z_spec.
  rewrite Z.mod_small.
  2:{ split; [lia|]. eapply Z.lt_trans; [apply Hn|]. reflexivity. }
  assert (Hd : (Zdigits2 n <= 53)%Z) by (apply Zdigits2_le_pow; lia).
  assert (Hc : (fexp prec emax (Zdigits2 n + 0) <= 0)%Z) by fexp_lia.
  destruct (binary_normalize_spec n 0 false) as (Hfin & _ & Hex).
  { unfold prec, emax in *. lia. }
  split; [assumption|]. rewrite (Hex Hc), pow2_0. lra.
Qed.

Lemma float_rint_spec (t : float) :
  float_finite t = true ->
  exists n : Z,
    float_finite (float_rint t) = true /\
    float_real (float_rint t) = IZR n /\
    Rabs (IZR n - float_real t) <= / 2.
Proof.
  unfold float_finite at 1. intros Hfin.
  pose proof (Prim2SF_valid t) as Hvalid.
  unfold float_rint.
  destruct (Prim2SF t) as [s|s| |s m e] eqn:Et; try discriminate.
  - exists 0%Z. unfold float_finite, float_real. rewrite Et. cbn [SF_finite SF2R].
    split; [reflexivity|]. split; [reflexivity|].
    replace (0 - 0) with 0 by lra. rewrite Rabs_R0. lra.
  - destruct (Z.leb_spec 0 e) as [He|He].
    + exists (if s then - (Z.pos m * 2 ^ e) else Z.pos m * 2 ^ e)%Z.
      unfold float_finite, float_real. rewrite Et. cbn [SF_finite SF2R].
      split; [reflexivity|].
      assert (Hv : IZR (Z.pos m * 2 ^ e) = IZR (Z.pos m) * pow2 e).
      { rewrite mult_IZR, pow2_IZR by lia. reflexivity. }
      destruct s; rewrite ?opp_IZR, Hv; (split; [lra|]);
        match goal with |- Rabs ?x <= _ => replace x with 0 by lra end;
        rewrite Rabs_R0; lra.
    + pose proof (valid_mantissa_bound s m e Hvalid) as Hm.
      set (b := (2 ^ (- e))%Z).
      assert (Hb : (2 <= b)%Z).
      { unfold b. change 2%Z with (2 ^ 1)%Z at 1. apply Z.pow_le_mono_r; lia. }
      destruct (half_even_div_spec (Z.pos m) b ltac:(lia) ltac:(lia)) as [Hq Hh].
      set (n0 := half_even_div (Z.pos m) b) in *.
      assert (Hn0 : (0 <= n0 < 2 ^ 53)%Z).
      { assert (0 <= Z.pos m / b)%Z by (apply Z.div_pos; lia).
        assert (Z.pos m / b <= Z.pos m / 2)%Z
          by (apply Z.div_le_compat_l; lia).
        assert (Z.pos m / 2 < 2 ^ 52)%Z.
        { apply Z.div_lt_upper_bound; [lia|]. change (2 * 2 ^ 52)%Z with (2 ^ 53)%Z. lia. }
        assert (2 ^ 52 < 2 ^ 53)%Z by reflexivity. lia. }
      destruct (of_uint63_exact n0 Hn0) as [Hf Hr].
      assert (Hv : IZR (Z.pos m) * pow2 e = IZR (Z.pos m) / IZR b).
      { unfold b. rewrite <- pow2_IZR by lia.
        pose proof (pow2_opp e) as Ho. pose proof (pow2_pos (- e)).
        unfold Rdiv. f_equal.
        apply Rmult_eq_reg_r with (pow2 (- e)); [|lra].
        rewrite Rinv_l by lra. rewrite Rmult_comm. exact Ho. }
      exists (if s then - n0 else n0)%Z.
      unfold float_finite, float_real in *. rewrite Et. cbn [SF2R].
      destruct s.
      * rewrite opp_spec, SF_finite_opp, SF2R_opp, Hr, opp_IZR.
        split; [assumption|]. split; [reflexivity|].
        replace (- IZR n0 - - IZR (Z.pos m) * pow2 e)
          with (- (IZR n0 - IZR (Z.pos m) / IZR b)) by (rewrite <- Hv; lra).
        rewrite Rabs_Ropp. exact Hh.
      * split; [assumption|]. split; [assumption|].
        rewrite Hv. exact Hh.
Qed.

Lemma Rabs_le_inv (a b : R) : Rabs a <= b -> - b <= a <= b.
Proof. intros H. unfold Rabs in H. destruct (Rcase_abs a); lra. Qed.

(** *** Powers of two as numerals *)

Lemma pow2_pos_numeral (n : Z) : (0 <= n)%Z -> pow2 n = IZR (2 ^ n).
Proof. apply pow2_IZR. Qed.

Lemma pow2_neg_numeral (n : Z) : (0 <= n)%Z -> pow2 (- n) * IZR (2 ^ n) = 1.
Proof. intros H. rewrite <- pow2_IZR by assumption. apply pow2_opp. Qed.

Ltac pow2_numerals :=
  repeat match goal with
  | |- context [pow2 (Zpos ?p)] =>
      rewrite (pow2_pos_numeral (Zpos p)) in * by lia
  | H : context [pow2 (Zpos ?p)] |- _ =>
      rewrite (pow2_pos_numeral (Zpos p)) in * by lia
  end;
  repeat match goal with
  | |- context [pow2 (Zneg ?p)] =>
      let H := fresh "Hp" in
      pose proof (pow2_neg_numeral (Zpos p) ltac:(lia)) as H;
      change (- Zpos p)%Z with (Zneg p) in H;
      generalize dependent (pow2 (Zneg p)); intros
  | H0 : context [pow2 (Zneg ?p)] |- _ =>
      let H := fresh "Hp" in
      pose proof (pow2_neg_numeral (Zpos p) ltac:(lia)) as H;
      change (- Zpos p)%Z with (Zneg p) in H;
      generalize dependent (pow2 (Zneg p)); intros
  end;
  cbn [Z.pow Z.pow_pos Pos.iter Z.mul Pos.mul Pos.add] in *.

Lemma float_finite_1000 : float_finite 1000 = true.
Proof. reflexivity. Qed.

(** [round(d, 3)] on a float64 of magnitude at most [2^31]: the double
    nearest to [n / 1000] for an integer [n] within a half (and the
    rounding error of the product) of [1000 d]. *)
Lemma float64_round3_spec (d : float) :
  float_finite d = true -> Rabs (float_real d) <= pow2 31 ->
  exists (nf : float) (n : Z),
    float64_round3 d = PrimFloat.div nf 1000 /\
    float_real nf = IZR n /\
    Rabs (IZR n - 1000 * float_real d) <= / 2 + pow2 (-12) /\
    float_finite (float64_round3 d) = true /\
    Rabs (float_real (float64_round3 d) - IZR n / 1000) <= pow2 (-21) /\
    Rabs (float_real (float64_round3 d) - float_real d) <= 501 / 1000000.
Proof.
  intros Hfin Hb. unfold float64_round3.
  destruct (float_mul_spec d 1000 41 Hfin float_finite_1000) as [Htf Hte].
  { rewrite float_real_1000. rewrite Rabs_mult, (Rabs_pos_eq 1000) by lra.
    replace 41%Z with (31 + 10)%Z by lia. rewrite pow2_add.
    pose proof (pow2_pos 31). pow2_numerals. nra. }
  { lia. }
  change (err 41) with (pow2 (-12)) in Hte. rewrite float_real_1000 in Hte.
  set (t := PrimFloat.mul d 1000) in *.
  destruct (float_rint_spec t Htf) as (n & Hnf & Hnr & Hnh).
  set (nf := float_rint t) in *.
  assert (Hnb : Rabs (IZR n) <= pow2 31 * 1000 + 1).
  { apply Rabs_le_inv in Hb. apply Rabs_le_inv in Hte. apply Rabs_le_inv in Hnh.
    apply Rabs_le. pow2_numerals. lra. }
  destruct (float_div_1000_spec nf 32 Hnf) as [Hrf Hre].
  { rewrite Hnr. unfold Rdiv. rewrite Rabs_mult, (Rabs_pos_eq (/ 1000)) by lra.
    pow2_numerals. lra. }
  { lia. }
  change (err 32) with (pow2 (-21)) in Hre. rewrite Hnr in Hre.
  exists nf, n. split; [reflexivity|]. split; [assumption|].
  split.
  { apply Rabs_le_inv in Hte. apply Rabs_le_inv in Hnh. apply Rabs_le.
    lra. }
  split; [assumption|]. split; [assumption|].
  apply Rabs_le_inv in Hte. apply Rabs_le_inv in Hnh. apply Rabs_le_inv in Hre.
  apply Rabs_le. pow2_numerals. lra.
Qed.

(** *** Integers as float64 *)

Lemma round_aux_canonical (s : bool) (m : positive) (e : Z) :
  canonical_mantissa prec emax m e = true -> (e <= emax - prec)%Z ->
  binary_round_aux prec emax s (Zpos m) e loc_Exact = S754_finite s m e.
Proof.
  unfold canonical_mantissa. intros Hc He. apply Z.eqb_eq in Hc.
  unfold binary_round_aux, shr_fexp. cbn [Zdigits2].
  rewrite Hc, Z.sub_diag.
  cbn [shr shr_record_of_loc shr_m loc_of_shr_record round_nearest_even Zdigits2].
  rewrite Hc, Z.sub_diag. cbn [shr shr_record_of_loc shr_m].
  apply Z.leb_le in He. now rewrite He.
Qed.

Lemma binary_round_valid (s : bool) (m : positive) (e : Z) :
  (fexp prec emax (Zdigits2 (Zpos m) + e) <= e)%Z ->
  (fexp prec emax (Zdigits2 (Zpos m) + e) <= emax - prec)%Z ->
  exists mz ez,
    binary_round prec emax s m e = S754_finite s mz ez /\
    valid_binary (S754_finite s mz ez) = true.
Proof.
  intros Hle Hmax. unfold binary_round.
  change (Z.pos (digits2_pos m)) with (Zdigits2 (Zpos m)).
  destruct (shl_align m e (fexp prec emax (Zdigits2 (Z.pos m) + e))) as [mz ez] eqn:Hs.
  destruct (shl_align_spec _ _ _ _ _ Hs) as (Hez & _ & _ & Hd).
  assert (Hc : canonical_mantissa prec emax mz ez = true).
  { unfold canonical_mantissa. apply Z.eqb_eq.
    change (Z.pos (digits2_pos mz)) with (Zdigits2 (Zpos mz)).
    rewrite Hd. lia. }
  assert (He : (ez <= emax - prec)%Z) by lia.
  exists mz, ez. split; [now apply round_aux_canonical|].
  cbn [valid_binary SpecFloat.valid_binary]. unfold bounded.
  rewrite Hc. apply Z.leb_le in He. now rewrite He.
Qed.

Lemma float_of_Z_exact (z : Z) :
  (Z.abs z < 2 ^ 53)%Z ->
  exists f, float_of_Z z = Ok f /\ float_finite f = true /\ float_real f = IZR z.
Proof.
  intros Hz. unfold float_of_Z.
  destruct (Z.eq_dec z 0) as [->|Hne].
  - eexists. split; [reflexivity|]. split; reflexivity.
  - assert (Hd : (Zdigits2 z <= 53)%Z).
    { destruct z as [|p|p]; [lia| |];
        change (Zdigits2 (Z.neg p)) with (Zdigits2 (Z.pos p));
        apply Zdigits2_le_pow; lia. }
    assert (Hc : (fexp prec emax (Zdigits2 z + 0) <= 0)%Z) by fexp_lia.
    destruct (binary_normalize_spec z 0 false) as (Hfin & _ & Hex).
    { unfold prec, emax in *. lia. }
    specialize (Hex Hc). rewrite pow2_0, Rmult_1_r in Hex.
    assert (Hv : exists s mz ez,
               binary_normalize prec emax z 0 false = S754_finite s mz ez /\
               valid_binary (S754_finite s mz ez) = true).
    { destruct z as [|p|p]; [lia| |]; cbn [binary_normalize].
      - destruct (binary_round_valid false p 0 Hc) as (mz & ez & H1 & H2).
        { unfold prec, emax in *. lia. }
        eauto.
      - change (Zdigits2 (Z.neg p)) with (Zdigits2 (Z.pos p)) in Hc.
        destruct (binary_round_valid true p 0 Hc) as (mz & ez & H1 & H2).
        { unfold prec, emax in *. lia. }
        eauto. }
    destruct Hv as (s & mz & ez & Hbn & Hvalid).
    rewrite Hbn in *.
    exists (SF2Prim (S754_finite s mz ez)). split; [reflexivity|].
    unfold float_finite, float_real. rewrite (Prim2SF_SF2Prim _ Hvalid).
    split; [reflexivity | exact Hex].
Qed.

Lemma IZR_abs_bound (z k : Z) :
  (0 <= k)%Z -> Rabs (IZR z) <= pow2 k -> (Z.abs z <= 2 ^ k)%Z.
Proof.
  intros Hk H. rewrite pow2_IZR in H by assumption.
  rewrite <- abs_IZR in H. now apply le_IZR.
Qed.

(** *** Numbers of a bbox *)

Lemma np_float64_real (v : value) (q : R) :
  number_real v q -> Rabs q <= pow2 52 ->
  exists f, np_float64 v = Ok f /\ float_finite f = true /\ float_real f = q.
Proof.
  destruct v as [| | z | f | | |]; cbn [number_real]; try contradiction.
  - intros -> Hb. cbn [np_float64 as_number].
    apply float_of_Z_exact.
    apply IZR_abs_bound in Hb; [|lia].
    assert (2 ^ 52 < 2 ^ 53)%Z by reflexivity. lia.
  - intros [Hf ->] _. exists f. auto.
Qed.

Lemma py_add_real (a b : value) (A B : R) :
  number_real a A -> number_real b B ->
  Rabs A <= pow2 30 -> Rabs B <= pow2 30 ->
  exists c C,
    py_add a b = Ok c /\ number_real c C /\ Rabs (C - (A + B)) <= pow2 (-22).
Proof.
  intros Ha Hb HA HB.
  assert (H52 : pow2 30 <= pow2 52) by (apply pow2_le; lia).
  assert (Hsum : Rabs (A + B) <= pow2 31).
  { replace 31%Z with (30 + 1)%Z by lia. rewrite pow2_succ.
    apply Rabs_le_inv in HA. apply Rabs_le_inv in HB. apply Rabs_le. lra. }
  assert (Hzero : forall C, C = A + B -> Rabs (C - (A + B)) <= pow2 (-22)).
  { intros C ->. replace (A + B - (A + B)) with 0 by lra. rewrite Rabs_R0.
    pose proof (pow2_pos (-22)). lra. }
  assert (Hfloat : forall f g,
            float_finite f = true -> float_real f = A ->
            float_finite g = true -> float_real g = B ->
            number_real (VFloat (PrimFloat.add f g)) (float_real (PrimFloat.add f g)) /\
            Rabs (float_real (PrimFloat.add f g) - (A + B)) <= pow2 (-22)).
  { intros f g Hf Hfr Hg Hgr.
    destruct (float_add_spec f g 31 Hf Hg) as [H1 H2].
    - rewrite Hfr, Hgr. exact Hsum.
    - lia.
    - rewrite Hfr, Hgr in H2. change (err 31) with (pow2 (-22)) in H2.
      split; [split; [assumption|reflexivity]|assumption]. }
  destruct a as [| | x | f | | |], b as [| | y | g | | |];
    cbn [number_real] in Ha, Hb; try contradiction.
  - subst. exists (VInt (x + y)), (IZR (x + y)). split; [reflexivity|].
    split; [reflexivity|]. apply Hzero. apply plus_IZR.
  - destruct Hb as [Hg ->].
    destruct (np_float64_real (VInt x) A Ha) as (f & Hf & Hff & Hfr); [lra|].
    cbn [np_float64 as_number] in Hf.
    exists (VFloat (PrimFloat.add f g)), (float_real (PrimFloat.add f g)).
    unfold py_add. cbn [as_number number_arith]. rewrite Hf. cbn [bind].
    split; [reflexivity|]. now apply Hfloat.
  - destruct Ha as [Hf ->].
    destruct (np_float64_real (VInt y) B Hb) as (g & Hg & Hgf & Hgr); [lra|].
    cbn [np_float64 as_number] in Hg.
    exists (VFloat (PrimFloat.add f g)), (float_real (PrimFloat.add f g)).
    unfold py_add. cbn [as_number number_arith]. rewrite Hg. cbn [bind].
    split; [reflexivity|]. now apply Hfloat.
  - destruct Ha as [Hf ->]. destruct Hb as [Hg ->].
    exists (VFloat (PrimFloat.add f g)), (float_real (PrimFloat.add f g)).
    split; [reflexivity|]. now apply Hfloat.
Qed.

Lemma np_sub_real (a b : value) (A B : R) :
  number_real a A -> number_real b B ->
  Rabs A <= pow2 52 -> Rabs B <= pow2 52 -> Rabs (A - B) <= pow2 31 ->
  exists d,
    np_sub a b = Ok (VFloat d) /\ float_finite d = true /\
    Rabs (float_real d - (A - B)) <= pow2 (-22).
Proof.
  intros Ha Hb HA HB Hd.
  destruct (np_float64_real a A Ha HA) as (f & Hf & Hff & Hfr).
  destruct (np_float64_real b B Hb HB) as (g & Hg & Hgf & Hgr).
  unfold np_sub. rewrite Hf, Hg. cbn [bind].
  destruct (float_sub_spec f g 31 Hff Hgf) as [H1 H2].
  - rewrite Hfr, Hgr. exact Hd.
  - lia.
  - rewrite Hfr, Hgr in H2. change (err 31) with (pow2 (-22)) in H2.
    eauto.
Qed.

(** One extent of the bbox through both conversions. *)
Lemma extent_round_trip (x w : value) (X W : R) :
  number_real x X -> number_real w W ->
  Rabs X <= pow2 30 -> Rabs W <= pow2 30 ->
  exists x2 d,
    py_add x w = Ok x2 /\
    np_sub x2 x = Ok (VFloat d) /\
    np_round3 (VFloat d) = Ok (VFloat (float64_round3 d)) /\
    float_finite (float64_round3 d) = true /\
    Rabs (float_real (float64_round3 d) - W) <= 502 / 1000000 /\
    exists n : Z, Rabs (float_real (float64_round3 d) - IZR n / 1000) <= pow2 (-21).
Proof.
  intros Hx Hw HX HW.
  destruct (py_add_real x w X W Hx Hw HX HW) as (x2 & X2 & Hadd & Hx2 & He2).
  apply Rabs_le_inv in HX. apply Rabs_le_inv in HW. apply Rabs_le_inv in He2.
  destruct (np_sub_real x2 x X2 X Hx2 Hx) as (d & Hsub & Hdf & Hde).
  { apply Rabs_le. pow2_numerals. lra. }
  { apply Rabs_le. pow2_numerals. lra. }
  { apply Rabs_le. pow2_numerals. lra. }
  apply Rabs_le_inv in Hde.
  destruct (float64_round3_spec d Hdf) as (nf & n & _ & _ & _ & Hrf & Hrn & Hre).
  { apply Rabs_le. pow2_numerals. lra. }
  apply Rabs_le_inv in Hre.
  exists x2, d. split; [assumption|]. split; [assumption|].
  split; [reflexivity|]. split; [assumption|].
  split; [|exists n; exact Hrn].
  apply Rabs_le. pow2_numerals. lra.
Qed.

(** The real a concrete float denotes, for bounds on sample values. *)
Ltac float_real_numeral f :=
  unfold float_real;
  let sf := eval vm_compute in (Prim2SF f) in
  change (Prim2SF f) with sf;
  cbn [SF2R].

End FloatFacts.

(** ** Keypoint regrouping in the visualisation script *)

Module ThreewiseProps.

Import Py Vis Notions.
Local Open Scope list_scope.

(** Induction over a list three items at a time. *)
Lemma list_ind3 {A : Type} (P : list A -> Prop) :
  P [] ->
  (forall x, P [x]) ->
  (forall x y, P [x; y]) ->
  (forall x y z l, P l -> P (x :: y :: z :: l)) ->
  forall l, P l.
Proof.
  intros H0 H1 H2 H3.
  fix IH 1.
  intros [|x [|y [|z l]]]; [apply H0 | apply H1 | apply H2 |].
  apply H3, IH.
Qed.

(** [threewise] is the loop the iterator protocol describes: three
    draws from the one iterator per round, stopping at the first that
    fails. *)
Lemma threewise_next {A : Type} (a : list A) :
  threewise a =
  match next a with
  | None => []
  | Some (x, a1) =>
      match next a1 with
      | None => []
      | Some (y, a2) =>
          match next a2 with
          | None => []
          | Some (z, a3) => (x, y, z) :: threewise a3
          end
      end
  end.
Proof. destruct a as [|x [|y [|z a]]]; reflexivity. Qed.

Lemma threewise_length {A : Type} (l : list A) :
  List.length (threewise l) = (List.length l / 3)%nat.
Proof.
  induction l as [| x | x y | x y z l IH] using list_ind3; try reflexivity.
  cbn [threewise List.length]. rewrite IH.
  change (S (S (S (List.length l)))) with (1 * 3 + List.length l)%nat.
  rewrite Nat.div_add_l by discriminate. reflexivity.
Qed.

Lemma threewise_prefix {A : Type} (l : list A) :
  flat_map untriple (threewise l) = firstn (3 * (List.length l / 3)) l.
Proof.
  induction l as [| x | x y | x y z l IH] using list_ind3; try reflexivity.
  cbn [threewise flat_map untriple app List.length]. rewrite IH.
  change (S (S (S (List.length l)))) with (1 * 3 + List.length l)%nat.
  rewrite Nat.div_add_l by discriminate.
  replace (3 * (1 + List.length l / 3))%nat with (S (S (S (3 * (List.length l / 3)))))
    by lia.
  reflexivity.
Qed.

(** What is dropped is the tail of [List.length l mod 3] items. *)
Lemma threewise_dropped {A : Type} (l : list A) :
  l = flat_map untriple (threewise l) ++ skipn (3 * (List.length l / 3)) l /\
  List.length (skipn (3 * (List.length l / 3)) l) = (List.length l mod 3)%nat.
Proof.
  split.
  - rewrite threewise_prefix. symmetry. apply firstn_skipn.
  - rewrite length_skipn. pose proof (Nat.div_mod_eq (List.length l) 3). lia.
Qed.

(** C10. In the visualisation script a flat keypoint list is regrouped
    into consecutive (x, y, confidence) triples, [floor(length / 3)] of
    them: the triples are the first [3 * floor(length / 3)] values in
    order, the one or two values left over when the List.length is not a
    multiple of 3 are dropped, and no error is raised whatever the
    length. *)
Theorem C10_threewise_drops_incomplete_tail (keypoints : list value) :
  regroup_keypoints (VList keypoints)
    = Ok (VList (map (fun t => VList (untriple t)) (threewise keypoints))) /\
  List.length (threewise keypoints) = (List.length keypoints / 3)%nat /\
  flat_map untriple (threewise keypoints)
    = firstn (3 * (List.length keypoints / 3)) keypoints /\
  keypoints
    = flat_map untriple (threewise keypoints)
      ++ skipn (3 * (List.length keypoints / 3)) keypoints /\
  List.length (skipn (3 * (List.length keypoints / 3)) keypoints)
    = (List.length keypoints mod 3)%nat.
Proof.
  split; [|split; [|split]].
  - unfold regroup_keypoints. simpl. do 2 f_equal.
    apply map_ext. intros [[x y] z]. reflexivity.
  - apply threewise_length.
  - apply threewise_prefix.
  - apply threewise_dropped.
Qed.

End ThreewiseProps.

(** ** The frame-record correlator *)

Module CorrelatorProps.

Import Py Common Notions PyFacts.
Local Open Scope string_scope.
Local Open Scope list_scope.
Local Open Scope Z_scope.

(** *** Frame index *)

Lemma resolve_frame_id_direct (data : dict) (previous : option value)
    (v : value) :
  dict_get "frame_id" data = Some v ->
  resolve_frame_json_id (VDict data) previous = Ok (Some v).
Proof.
  intros H. unfold resolve_frame_json_id. rewrite contains_dict.
  rewrite (dict_mem_some _ _ _ H). simpl. now rewrite H.
Qed.

Lemma resolve_frame_id_image (data : dict) (previous : option value)
    (v : value) :
  dict_get "frame_id" data = None ->
  dict_get "image_id" data = Some v ->
  resolve_frame_json_id (VDict data) previous
    = (r <- py_sub v (VInt 1) ;; Ok (Some r)).
Proof.
  intros Hf Hi. unfold resolve_frame_json_id. rewrite !contains_dict.
  rewrite (dict_mem_none _ _ Hf), (dict_mem_some _ _ _ Hi). simpl.
  now rewrite Hi.
Qed.

Lemma resolve_frame_id_neither (data : dict) (previous : option value) :
  dict_get "frame_id" data = None ->
  dict_get "image_id" data = None ->
  resolve_frame_json_id (VDict data) previous = Ok previous.
Proof.
  intros Hf Hi. unfold resolve_frame_json_id. rewrite !contains_dict.
  now rewrite (dict_mem_none _ _ Hf), (dict_mem_none _ _ Hi).
Qed.

(** C2. For a record with a [frame_id] field the resolved frame index
    is that field's value, unchanged; for a record with only an
    [image_id] field it is [image_id - 1] (for an integer [n], the
    integer [n - 1]).  Neither depends on what an earlier record left in
    [frame_json_id]. *)
Theorem C2_frame_index_resolution (data : dict) (previous : option value) :
  (forall v : value,
     dict_get "frame_id" data = Some v ->
     resolve_frame_json_id (VDict data) previous = Ok (Some v)) /\
  (forall v : value,
     dict_get "frame_id" data = None ->
     dict_get "image_id" data = Some v ->
     resolve_frame_json_id (VDict data) previous
       = (r <- py_sub v (VInt 1) ;; Ok (Some r))) /\
  (forall n : Z,
     dict_get "frame_id" data = None ->
     dict_get "image_id" data = Some (VInt n) ->
     resolve_frame_json_id (VDict data) previous = Ok (Some (VInt (n - 1)))).
Proof.
  split; [|split].
  - intros v. apply resolve_frame_id_direct.
  - intros v. apply resolve_frame_id_image.
  - intros n Hf Hi. now rewrite (resolve_frame_id_image _ _ _ Hf Hi).
Qed.

Lemma C2_frame_index_resolution_witness :
  resolve_frame_json_id
    (VDict [("image_id", VInt 9); ("frame_id", VInt 4)]) (Some (VInt 7))
    = Ok (Some (VInt 4)) /\
  resolve_frame_json_id (VDict [("image_id", VInt 3)]) (Some (VInt 7))
    = Ok (Some (VInt 2)).
Proof.
  split.
  - apply (proj1 (C2_frame_index_resolution _ _)). reflexivity.
  - apply (proj2 (proj2 (C2_frame_index_resolution _ _)) 3); reflexivity.
Defined.

(** A record is looked at further only on the frame whose counter
    equals its resolved index; on every other frame it is passed over. *)
Lemma correlate_body_other_frame (frame_id index : Z) (s : TopDown.locals)
    (person_results : list value) (data : value) :
  resolve_frame_json_id data (TopDown.frame_json_id s)
    = Ok (Some (VInt index)) ->
  frame_id <> index ->
  TopDown.correlate_body frame_id (s, person_results) data
    = Ok (TopDown.Locals (TopDown.this_person_cat_id s) (Some (VInt index))
            (TopDown.dict_obj s) (TopDown.annotations s),
          person_results).
Proof.
  intros Hr Hne. unfold TopDown.correlate_body. rewrite Hr.
  cbn [bind read_local]. cbn [py_eq as_number number_eq].
  apply Z.eqb_neq in Hne. now rewrite Hne.
Qed.

Lemma correlate_body_own_frame (index : Z) (s : TopDown.locals)
    (person_results : list value) (data : dict)
    (category_id person_id person : value) :
  resolve_frame_json_id (VDict data) (TopDown.frame_json_id s)
    = Ok (Some (VInt index)) ->
  dict_get "category_id" data = Some category_id ->
  TopDown.this_person_cat_id s = Some person_id ->
  py_eq category_id person_id = true ->
  TopDown.normalize_person (VDict data) = Ok person ->
  TopDown.correlate_body index (s, person_results) (VDict data)
    = Ok (TopDown.Locals (TopDown.this_person_cat_id s) (Some (VInt index))
            (TopDown.dict_obj s) (TopDown.annotations s),
          person_results ++ [person]).
Proof.
  intros Hr Hc Hp He Hn. unfold TopDown.correlate_body. rewrite Hr.
  cbn [bind read_local]. cbn [py_eq as_number number_eq].
  rewrite Z.eqb_refl. cbn [negb].
  rewrite (getitem_key_some _ _ _ Hc). cbn [bind TopDown.this_person_cat_id].
  rewrite Hp. cbn [bind read_local]. rewrite He, Hn. reflexivity.
Qed.

(** *** Field fallbacks *)

Lemma direct_wins (k : string) (convert : value -> result value)
    (data person : dict) (v : value) :
  dict_get k data = Some v ->
  direct_or_attributes k convert (VDict data) person
    = Ok (dict_set k v person).
Proof.
  intros H. unfold direct_or_attributes. rewrite contains_dict.
  rewrite (dict_mem_some _ _ _ H). simpl. now rewrite H.
Qed.

(** A lookup writes at most its own key. *)
Lemma direct_or_attributes_writes (k : string)
    (convert : value -> result value) (data : value) (person person' : dict) :
  direct_or_attributes k convert data person = Ok person' ->
  person' = person \/ exists v, person' = dict_set k v person.
Proof.
  unfold direct_or_attributes. intros H.
  apply bind_inv in H as (direct & _ & H). destruct direct.
  - apply bind_inv in H as (v & _ & H). injection H as <-. eauto.
  - apply bind_inv in H as (nested & _ & H). destruct nested.
    + apply bind_inv in H as (attributes & _ & H).
      apply bind_inv in H as (v & _ & H).
      apply bind_inv in H as (v' & _ & H).
      injection H as <-. eauto.
    + injection H as <-. now left.
Qed.

Lemma direct_or_attributes_other (k k' : string)
    (convert : value -> result value) (data : value) (person person' : dict) :
  direct_or_attributes k' convert data person = Ok person' ->
  k <> k' ->
  dict_get k person' = dict_get k person.
Proof.
  intros H Hne.
  destruct (direct_or_attributes_writes _ _ _ _ _ H) as [-> | [v ->]].
  - reflexivity.
  - now apply dict_get_set_ne.
Qed.

(** With neither the direct nor the nested field, nothing is written. *)
Lemma direct_or_attributes_absent (k : string)
    (convert : value -> result value) (data person : dict) :
  dict_get k data = None ->
  in_attributes k (VDict data) = Ok false ->
  direct_or_attributes k convert (VDict data) person = Ok person.
Proof.
  intros Hd Hn. unfold direct_or_attributes. rewrite contains_dict.
  rewrite (dict_mem_none _ _ Hd). simpl bind at 1.
  cbv iota. now rewrite Hn.
Qed.

(** With the nested field only, the converted nested value is written. *)
Lemma direct_or_attributes_nested (k : string)
    (convert : value -> result value) (data attributes person : dict)
    (w w' : value) :
  dict_get k data = None ->
  dict_get "attributes" data = Some (VDict attributes) ->
  dict_get k attributes = Some w ->
  convert w = Ok w' ->
  direct_or_attributes k convert (VDict data) person
    = Ok (dict_set k w' person).
Proof.
  intros Hd Ha Hw Hc. unfold direct_or_attributes, in_attributes.
  rewrite !contains_dict.
  rewrite (dict_mem_none _ _ Hd), (dict_mem_some _ _ _ Ha). simpl.
  rewrite Ha. simpl. rewrite (dict_mem_some _ _ _ Hw). simpl.
  rewrite Hw. simpl. now rewrite Hc.
Qed.

Lemma person_fields_direct (data person : dict) (k : string) (v : value) :
  In k fallback_keys ->
  dict_get k data = Some v ->
  person_fields (VDict data) = Ok person ->
  dict_get k person = Some v.
Proof.
  intros Hk Hv H. unfold person_fields in H.
  apply bind_inv in H. destruct H as (p1 & H1 & H).
  apply bind_inv in H. destruct H as (p2 & H2 & H3).
  simpl in Hk. destruct Hk as [<- | [<- | [<- | []]]].
  - rewrite (direct_wins _ _ _ _ _ Hv) in H1. injection H1 as <-.
    rewrite (direct_or_attributes_other _ _ _ _ _ _ H3) by discriminate.
    rewrite (direct_or_attributes_other _ _ _ _ _ _ H2) by discriminate.
    reflexivity.
  - rewrite (direct_wins _ _ _ _ _ Hv) in H2. injection H2 as <-.
    rewrite (direct_or_attributes_other _ _ _ _ _ _ H3) by discriminate.
    apply dict_get_set_eq.
  - rewrite (direct_wins _ _ _ _ _ Hv) in H3. injection H3 as <-.
    apply dict_get_set_eq.
Qed.

(** What each script adds after the three lookups leaves them alone. *)
Lemma top_down_person_fields (data : value) (person : dict) :
  TopDown.normalize_person data = Ok (VDict person) ->
  exists fields,
    person_fields data = Ok fields /\
    forall k, In k fallback_keys -> dict_get k person = dict_get k fields.
Proof.
  unfold TopDown.normalize_person. intros H.
  apply bind_inv in H as (fields & Hf & H).
  apply bind_inv in H as (bbox & _ & H).
  injection H as <-. exists fields. split; [assumption|].
  intros k Hk. simpl in Hk.
  destruct Hk as [<- | [<- | [<- | []]]];
    rewrite !dict_get_set_ne by discriminate; reflexivity.
Qed.

Lemma vis_person_fields (data : value) (frame_id : Z) (person : dict) :
  Vis.normalize_person data frame_id = Ok (VDict person) ->
  exists fields,
    person_fields data = Ok fields /\
    forall k, In k fallback_keys -> dict_get k person = dict_get k fields.
Proof.
  unfold Vis.normalize_person. intros H.
  apply bind_inv in H as (fields & Hf & H).
  apply bind_inv in H as (bbox & _ & H).
  apply bind_inv in H as (has_keypoints & _ & H).
  apply bind_inv in H as (person_key_points & _ & H).
  injection H as <-. exists fields. split; [assumption|].
  intros k Hk. simpl in Hk.
  destruct Hk as [<- | [<- | [<- | []]]];
    rewrite !dict_get_set_ne by discriminate; reflexivity.
Qed.

(** C5. For each of [track_id], [occluded] and [activity]: when the
    record carries the field directly, the lookup stores the direct
    value whatever [attributes] holds, and that is the value the person
    record built by either script ends up with. *)
Theorem C5_direct_field_wins (data : dict) (k : string) (v : value) :
  In k fallback_keys ->
  dict_get k data = Some v ->
  (forall convert person,
     direct_or_attributes k convert (VDict data) person
       = Ok (dict_set k v person)) /\
  (forall person,
     TopDown.normalize_person (VDict data) = Ok (VDict person) ->
     dict_get k person = Some v) /\
  (forall frame_id person,
     Vis.normalize_person (VDict data) frame_id = Ok (VDict person) ->
     dict_get k person = Some v).
Proof.
  intros Hk Hv. split; [|split].
  - intros convert person. now apply direct_wins.
  - intros person H.
    destruct (top_down_person_fields _ _ H) as (fields & Hf & Hsame).
    rewrite (Hsame _ Hk). now apply (person_fields_direct data).
  - intros frame_id person H.
    destruct (vis_person_fields _ _ _ H) as (fields & Hf & Hsame).
    rewrite (Hsame _ Hk). now apply (person_fields_direct data).
Qed.

Lemma C5_direct_field_wins_witness :
  exists person,
    TopDown.normalize_person (VDict Samples.record_with_both)
      = Ok (VDict person) /\
    dict_get "track_id" person = Some (VInt 5) /\
    dict_get "occluded" person = Some (VInt 1) /\
    dict_get "activity" person = Some (VStr "walking").
Proof.
  eexists. split; [reflexivity|].
  split; [|split].
  - apply (proj1 (proj2 (C5_direct_field_wins Samples.record_with_both
                           "track_id" (VInt 5)
                           (or_introl eq_refl) eq_refl))).
    reflexivity.
  - apply (proj1 (proj2 (C5_direct_field_wins Samples.record_with_both
                           "occluded" (VInt 1)
                           (or_intror (or_introl eq_refl)) eq_refl))).
    reflexivity.
  - apply (proj1 (proj2 (C5_direct_field_wins Samples.record_with_both
                           "activity" (VStr "walking")
                           (or_intror (or_intror (or_introl eq_refl)))
                           eq_refl))).
    reflexivity.
Defined.

(** *** Defaults *)

Lemma py_int_is_int (w w' : value) :
  py_int w = Ok w' -> exists n, w' = VInt n.
Proof.
  destruct w; simpl; try discriminate.
  - intros [= <-]. eauto.
  - intros [= <-]. eauto.
  - destruct (float_trunc f); simpl; [|discriminate]. intros [= <-]. eauto.
  - destruct (int_of_string s); simpl; [|discriminate]. intros [= <-]. eauto.
Qed.

Lemma direct_or_attributes_nested_inv (k : string)
    (convert : value -> result value) (data attributes person person' : dict)
    (w : value) :
  dict_get k data = None ->
  dict_get "attributes" data = Some (VDict attributes) ->
  dict_get k attributes = Some w ->
  direct_or_attributes k convert (VDict data) person = Ok person' ->
  exists w', convert w = Ok w' /\ person' = dict_set k w' person.
Proof.
  intros Hd Ha Hw H. destruct (convert w) as [w'|e] eqn:Hc.
  - rewrite (direct_or_attributes_nested _ _ _ _ _ _ _ Hd Ha Hw Hc) in H.
    injection H as <-. eauto.
  - exfalso. revert H. unfold direct_or_attributes, in_attributes.
    rewrite !contains_dict.
    rewrite (dict_mem_none _ _ Hd), (dict_mem_some _ _ _ Ha). simpl.
    rewrite Ha. simpl. rewrite (dict_mem_some _ _ _ Hw). simpl.
    rewrite Hw. simpl. rewrite Hc. discriminate.
Qed.

(** The lookup of key [k] inside [person_fields], and what [person]
    holds for [k] just before it: only ['activity'] is preset. *)
Lemma person_fields_step (data : value) (fields : dict) (k : string) :
  In k fallback_keys ->
  person_fields data = Ok fields ->
  exists before after,
    direct_or_attributes k (nested_conversion k) data before = Ok after /\
    dict_get k fields = dict_get k after /\
    dict_get k before
      = (if String.eqb k "activity" then Some (VStr "") else None).
Proof.
  intros Hk H. unfold person_fields in H.
  apply bind_inv in H. destruct H as (p1 & H1 & H).
  apply bind_inv in H. destruct H as (p2 & H2 & H3).
  simpl in Hk. destruct Hk as [<- | [<- | [<- | []]]].
  - eexists _, p1. split; [exact H1|]. split; [|reflexivity].
    rewrite (direct_or_attributes_other _ _ _ _ _ _ H3) by discriminate.
    now rewrite (direct_or_attributes_other _ _ _ _ _ _ H2) by discriminate.
  - exists p1, p2. split; [exact H2|]. split.
    + now rewrite (direct_or_attributes_other _ _ _ _ _ _ H3) by discriminate.
    + now rewrite (direct_or_attributes_other _ _ _ _ _ _ H1) by discriminate.
  - exists p2, fields. split; [exact H3|]. split; [reflexivity|].
    rewrite (direct_or_attributes_other _ _ _ _ _ _ H2) by discriminate.
    now rewrite (direct_or_attributes_other _ _ _ _ _ _ H1) by discriminate.
Qed.

Lemma person_fields_absent (data fields : dict) (k : string) :
  In k fallback_keys ->
  dict_get k data = None ->
  in_attributes k (VDict data) = Ok false ->
  person_fields (VDict data) = Ok fields ->
  dict_get k fields
    = (if String.eqb k "activity" then Some (VStr "") else None).
Proof.
  intros Hk Hd Hn H.
  destruct (person_fields_step _ _ _ Hk H) as (before & after & Hs & -> & <-).
  rewrite (direct_or_attributes_absent _ _ _ _ Hd Hn) in Hs.
  now injection Hs as <-.
Qed.

Lemma person_fields_nested (data attributes fields : dict) (k : string)
    (w : value) :
  In k fallback_keys ->
  dict_get k data = None ->
  dict_get "attributes" data = Some (VDict attributes) ->
  dict_get k attributes = Some w ->
  person_fields (VDict data) = Ok fields ->
  exists w', nested_conversion k w = Ok w' /\ dict_get k fields = Some w'.
Proof.
  intros Hk Hd Ha Hw H.
  destruct (person_fields_step _ _ _ Hk H) as (before & after & Hs & -> & _).
  destruct (direct_or_attributes_nested_inv _ _ _ _ _ _ _ Hd Ha Hw Hs)
    as (w' & Hc & ->).
  exists w'. split; [exact Hc | apply dict_get_set_eq].
Qed.

(** ['activity'] is preset, so it is always there. *)
Lemma person_fields_activity (data : value) (fields : dict) :
  person_fields data = Ok fields ->
  exists a, dict_get "activity" fields = Some a.
Proof.
  intros H.
  destruct (person_fields_step _ _ "activity"
              (or_intror (or_intror (or_introl eq_refl))) H)
    as (before & after & Hs & -> & Hb).
  destruct (direct_or_attributes_writes _ _ _ _ _ Hs) as [-> | [v ->]].
  - rewrite Hb. simpl. eauto.
  - rewrite dict_get_set_eq. eauto.
Qed.

Lemma encode_person_occluded_default (pose_result entry : dict)
    (frame_id : Z) (key_point : list value) :
  dict_get "occluded" pose_result = None ->
  TopDown.encode_person (VDict pose_result) frame_id key_point
    = Ok (VDict entry) ->
  dict_get "occluded" entry = Some (VInt 0).
Proof.
  intros Ho H. unfold TopDown.encode_person in H.
  apply bind_inv in H as (track_id & _ & H).
  apply bind_inv in H as (b & _ & H).
  apply bind_inv in H as (bbox & _ & H).
  simpl in H. rewrite Ho in H. simpl in H.
  destruct (dict_get "activity" pose_result); simpl in H;
    injection H as <-; reflexivity.
Qed.

Lemma produced_fields (data person : dict) :
  produced data person ->
  exists fields,
    person_fields (VDict data) = Ok fields /\
    forall k, In k fallback_keys -> dict_get k person = dict_get k fields.
Proof.
  intros [H | [frame_id H]].
  - exact (top_down_person_fields _ _ H).
  - exact (vis_person_fields _ _ _ H).
Qed.

(** C8, as the code has it.  Every person record the correlator
    produces has an [activity], which is the empty string when the
    source record has none, direct or nested.  Its [occluded] is the
    direct value unchanged when there is one, else [int] of the nested
    value when there is one, and is not set at all otherwise: the
    default 0 is supplied later, by the result encoder of the inference
    script, for a pose result without [occluded]. *)
Theorem C8_activity_default_occluded_unset (data person : dict) :
  produced data person ->
  (exists a, dict_get "activity" person = Some a) /\
  (dict_get "activity" data = None ->
   in_attributes "activity" (VDict data) = Ok false ->
   dict_get "activity" person = Some (VStr "")) /\
  (forall v, dict_get "occluded" data = Some v ->
             dict_get "occluded" person = Some v) /\
  (forall attributes w,
     dict_get "occluded" data = None ->
     dict_get "attributes" data = Some (VDict attributes) ->
     dict_get "occluded" attributes = Some w ->
     exists n, py_int w = Ok (VInt n) /\
               dict_get "occluded" person = Some (VInt n)) /\
  (dict_get "occluded" data = None ->
   in_attributes "occluded" (VDict data) = Ok false ->
   dict_get "occluded" person = None) /\
  (forall pose_result entry frame_id key_point,
     dict_get "occluded" pose_result = None ->
     TopDown.encode_person (VDict pose_result) frame_id key_point
       = Ok (VDict entry) ->
     dict_get "occluded" entry = Some (VInt 0)).
Proof.
  intros Hp. destruct (produced_fields _ _ Hp) as (fields & Hf & Hsame).
  assert (Ho : In "occluded" fallback_keys) by (simpl; auto).
  assert (Ha : In "activity" fallback_keys) by (simpl; auto).
  repeat split.
  - rewrite (Hsame _ Ha). exact (person_fields_activity _ _ Hf).
  - intros Hd Hn. rewrite (Hsame _ Ha).
    exact (person_fields_absent _ _ _ Ha Hd Hn Hf).
  - intros v Hv. rewrite (Hsame _ Ho).
    exact (person_fields_direct _ _ _ _ Ho Hv Hf).
  - intros attributes w Hd Hat Hw. rewrite (Hsame _ Ho).
    destruct (person_fields_nested _ _ _ _ _ Ho Hd Hat Hw Hf)
      as (w' & Hc & Hg).
    change (nested_conversion "occluded" w) with (py_int w) in Hc.
    destruct (py_int_is_int _ _ Hc) as [n ->]. eauto.
  - intros Hd Hn. rewrite (Hsame _ Ho).
    exact (person_fields_absent _ _ _ Ho Hd Hn Hf).
  - intros pose_result entry frame_id key_point.
    apply encode_person_occluded_default.
Qed.

Lemma C8_activity_default_occluded_unset_witness :
  exists person,
    TopDown.normalize_person (VDict Samples.record_nested_occluded)
      = Ok (VDict person) /\
    dict_get "activity" person = Some (VStr "") /\
    dict_get "occluded" person = Some (VInt 1).
Proof.
  eexists. split; [reflexivity|].
  pose proof (C8_activity_default_occluded_unset
                Samples.record_nested_occluded _ (or_introl eq_refl))
    as (_ & Hact & _ & Hnested & _).
  split.
  - apply Hact; reflexivity.
  - destruct (Hnested _ (VBool true) eq_refl eq_refl eq_refl) as (n & Hn & Hg).
    simpl in Hn. injection Hn as <-. exact Hg.
Defined.

(** C8 as stated fails: a record without [occluded] yields, in both
    scripts, a person record without an ['occluded'] key, not one
    holding 0; and a direct [occluded] of 5 is kept as 5. *)
Lemma C8_occluded_not_defaulted_counterexample :
  (exists person,
     TopDown.normalize_person (VDict Samples.record_without_occluded)
       = Ok (VDict person) /\
     dict_get "occluded" person = None) /\
  (exists person,
     Vis.normalize_person (VDict Samples.record_without_occluded) 0
       = Ok (VDict person) /\
     dict_get "occluded" person = None) /\
  (exists person,
     TopDown.normalize_person (VDict Samples.record_occluded_5)
       = Ok (VDict person) /\
     dict_get "occluded" person = Some (VInt 5) /\
     py_eq (VInt 5) (VInt 0) = false /\ py_eq (VInt 5) (VInt 1) = false).
Proof.
  split; [|split]; eexists; (split; [reflexivity|]); repeat split.
Qed.

(** *** Records without a frame index *)

(** The binding [frame_json_id] keeps when a record has neither key is
    the index the record is then filed under. *)
Lemma correlate_body_without_index (frame_id : Z) (s : TopDown.locals)
    (person_results : list value) (data : dict) :
  dict_get "frame_id" data = None ->
  dict_get "image_id" data = None ->
  TopDown.correlate_body frame_id (s, person_results) (VDict data)
    = match TopDown.frame_json_id s with
      | None => Raise UnboundLocalError
      | Some stale =>
          if negb (py_eq (VInt frame_id) stale) then Ok (s, person_results)
          else
            category_id <- py_getitem_key (VDict data) "category_id" ;;
            person_id <- read_local (TopDown.this_person_cat_id s) ;;
            if negb (py_eq category_id person_id) then Ok (s, person_results)
            else
              person <- TopDown.normalize_person (VDict data) ;;
              Ok (s, person_results ++ [person])
      end.
Proof.
  intros Hf Hi. unfold TopDown.correlate_body.
  rewrite (resolve_frame_id_neither _ _ Hf Hi).
  destruct s as [pid [stale|] obj anns]; reflexivity.
Qed.

(** C3, evaluated on the code.  A person record with neither [frame_id]
    nor [image_id] that follows a frame-0 record is not skipped: it is
    turned into an observation of frame 0.  When it is the first record,
    [frame_json_id] is still unbound and the run aborts, in both
    scripts. *)
Theorem C3_record_without_frame_index_not_skipped :
  (exists s,
     TopDown.person_observations
       (Samples.document [Samples.person_category]
          [Samples.person_at_frame_0; Samples.person_without_frame_index])
       0 (TopDown.Locals (Some (VInt 1)) None None [])
     = Ok (s,
           [VDict [("activity", VStr ""); ("track_id", VInt 5);
                   ("bbox", VList [VInt 10; VInt 20; VInt 40; VInt 60;
                                   VFloat 1]);
                   ("category_id", VInt 1)];
            VDict [("activity", VStr ""); ("track_id", VInt 6);
                   ("bbox", VList [VInt 1; VInt 2; VInt 4; VInt 6; VFloat 1]);
                   ("category_id", VInt 1)]])) /\
  TopDown.person_observations
    (Samples.document [Samples.person_category]
       [Samples.person_without_frame_index])
    0 (TopDown.Locals (Some (VInt 1)) None None [])
  = Raise UnboundLocalError /\
  (forall pose_stage,
     TopDown.main pose_stage
       (Samples.document [Samples.person_category]
          [Samples.person_without_frame_index]) 1
     = Raise UnboundLocalError) /\
  Vis.main
    (Samples.document [Samples.person_category]
       [Samples.person_without_frame_index]) 1
  = Raise UnboundLocalError.
Proof.
  split; [|split; [|split]].
  - eexists. vm_compute. reflexivity.
  - reflexivity.
  - intros pose_stage. reflexivity.
  - reflexivity.
Qed.

End CorrelatorProps.

(** ** The non-person passthrough *)

Module PassthroughProps.

Import Py Common PyFacts.
Local Open Scope string_scope.
Local Open Scope list_scope.
Local Open Scope Z_scope.

(** The [dict_obj] literal, when every lookup succeeds. *)
Lemma non_person_entry_nested_frame (data attributes : dict)
    (category_id track_id image_id bbox : value) :
  dict_get "frame_id" data = None ->
  dict_get "attributes" data = Some (VDict attributes) ->
  dict_get "image_id" attributes = Some image_id ->
  (dict_get "track_id" data = Some track_id \/
   dict_get "track_id" data = None /\
   dict_get "track_id" attributes = Some track_id) ->
  dict_get "bbox" data = Some bbox ->
  exists occluded,
    TopDown.non_person_entry (VDict data) category_id
      = Ok (VDict [("track_id", track_id); ("frame_id", image_id);
                   ("bbox", bbox); ("occluded", occluded);
                   ("category_id", category_id)]).
Proof.
  intros Hf Ha Hi Ht Hb. unfold TopDown.non_person_entry.
  rewrite !contains_dict, (dict_mem_none _ _ Hf).
  assert (Htrack :
    (if dict_mem "track_id" data
     then py_getitem_key (VDict data) "track_id"
     else attributes <- py_getitem_key (VDict data) "attributes" ;;
          py_getitem_key attributes "track_id") = Ok track_id).
  { destruct Ht as [Ht | [Ht Ht']].
    - rewrite (dict_mem_some _ _ _ Ht). now apply getitem_key_some.
    - rewrite (dict_mem_none _ _ Ht), (getitem_key_some _ _ _ Ha). simpl.
      now rewrite Ht'. }
  cbn [bind]. rewrite Htrack. cbn [bind].
  rewrite (getitem_key_some _ _ _ Ha). cbn [bind].
  rewrite (getitem_key_some _ _ _ Hi). cbn [bind].
  rewrite (getitem_key_some _ _ _ Hb). cbn [bind].
  unfold py_get. destruct (dict_get "occluded" data) as [o|]; cbn [bind].
  - destruct (is_None o); cbn [bind]; eexists; reflexivity.
  - cbn [is_None bind]. eexists; reflexivity.
Qed.

(** C9. In the non-person passthrough, a record without a direct
    [frame_id] gets as output frame id the value of
    [attributes.image_id] itself, with no subtraction of one, and that
    entry is what the loop appends; whereas the correlator resolves a
    record that has only [image_id] to [image_id - 1]. *)
Theorem C9_passthrough_image_id_unadjusted (s : TopDown.locals)
    (data attributes : dict)
    (person_id category_id track_id image_id bbox : value) :
  TopDown.this_person_cat_id s = Some person_id ->
  dict_get "category_id" data = Some category_id ->
  py_eq category_id person_id = false ->
  dict_get "frame_id" data = None ->
  dict_get "attributes" data = Some (VDict attributes) ->
  dict_get "image_id" attributes = Some image_id ->
  (dict_get "track_id" data = Some track_id \/
   dict_get "track_id" data = None /\
   dict_get "track_id" attributes = Some track_id) ->
  dict_get "bbox" data = Some bbox ->
  (exists entry s',
     TopDown.non_person_entry (VDict data) category_id = Ok (VDict entry) /\
     dict_get "frame_id" entry = Some image_id /\
     TopDown.passthrough_body s (VDict data) = Ok s' /\
     TopDown.annotations s' = TopDown.annotations s ++ [VDict entry]) /\
  (forall (person_record : dict) (n : Z) (previous : option value),
     dict_get "frame_id" person_record = None ->
     dict_get "image_id" person_record = Some (VInt n) ->
     resolve_frame_json_id (VDict person_record) previous
       = Ok (Some (VInt (n - 1)))).
Proof.
  intros Hs Hc Hne Hf Ha Hi Ht Hb. split.
  - destruct (non_person_entry_nested_frame data attributes category_id
                track_id image_id bbox Hf Ha Hi Ht Hb) as [occluded He].
    eexists. eexists. split; [exact He|]. split; [reflexivity|].
    unfold TopDown.passthrough_body.
    rewrite (getitem_key_some _ _ _ Hc), Hs. cbn [bind read_local].
    rewrite Hne, He. cbn [bind]. split; reflexivity.
  - intros person_record n previous Hpf Hpi.
    now rewrite (CorrelatorProps.resolve_frame_id_image _ _ _ Hpf Hpi).
Qed.

Lemma C9_passthrough_image_id_unadjusted_witness :
  exists entry s',
    TopDown.non_person_entry (VDict Samples.car_record) (VInt 2)
      = Ok (VDict entry) /\
    dict_get "frame_id" entry = Some (VInt 3) /\
    TopDown.passthrough_body (TopDown.Locals (Some (VInt 1)) None None [])
      (VDict Samples.car_record) = Ok s' /\
    TopDown.annotations s' = [VDict entry].
Proof.
  exact (proj1 (C9_passthrough_image_id_unadjusted
                  (TopDown.Locals (Some (VInt 1)) None None [])
                  Samples.car_record
                  [("track_id", VInt 9); ("image_id", VInt 3)]
                  (VInt 1) (VInt 2) (VInt 9) (VInt 3)
                  (VList [VInt 1; VInt 2; VInt 3; VInt 4])
                  eq_refl eq_refl eq_refl eq_refl eq_refl eq_refl
                  (or_intror (conj eq_refl eq_refl)) eq_refl)).
Defined.

End PassthroughProps.

(** ** The result encoder *)

Module EncoderProps.

Import Py Common Notions PyFacts FloatReal FloatFacts.
Local Open Scope string_scope.
Local Open Scope list_scope.
Local Open Scope Z_scope.

(** *** How many annotations a frame appends *)

Lemma encode_body_appends_one (frame_id : Z) (s s' : TopDown.locals)
    (pose_result : value) :
  TopDown.encode_body frame_id s pose_result = Ok s' ->
  exists d, TopDown.annotations s' = TopDown.annotations s ++ [d].
Proof.
  unfold TopDown.encode_body. intros H.
  apply bind_inv in H as (keypoints & _ & H).
  apply bind_inv in H as (pos_arr & _ & H).
  apply bind_inv in H as (key_point & _ & H).
  apply bind_inv in H as (category_id & _ & H).
  apply bind_inv in H as (obj & _ & H).
  apply bind_inv in H as (d & _ & H).
  injection H as <-. simpl. eauto.
Qed.

(** One append per pose result, whatever its category. *)
Lemma encode_results_length (frame_id : Z) (pose_results : list value) :
  forall s s',
    TopDown.encode_results frame_id s pose_results = Ok s' ->
    List.length (TopDown.annotations s')
      = (List.length (TopDown.annotations s) + List.length pose_results)%nat.
Proof.
  unfold TopDown.encode_results.
  induction pose_results as [|pr prs IH]; intros s s' H; simpl in *.
  - injection H as <-. lia.
  - apply bind_inv in H as (s1 & H1 & H).
    apply IH in H. rewrite H.
    destruct (encode_body_appends_one _ _ _ _ H1) as [d ->].
    rewrite length_app. simpl. lia.
Qed.

(** No pose result: nothing happens, and nothing is raised. *)
Lemma encode_results_empty (frame_id : Z) (s : TopDown.locals) :
  TopDown.encode_results frame_id s [] = Ok s.
Proof. reflexivity. Qed.




Lemma person_results_count_all (pose_results : list value) :
  forallb is_person_result pose_results = true ->
  person_results_count pose_results = List.length pose_results.
Proof.
  unfold person_results_count.
  induction pose_results as [|pr prs IH]; [reflexivity|]. cbn [forallb filter].
  intros H. apply andb_prop in H as [H1 H2]. rewrite H1. cbn [List.length].
  now rewrite IH.
Qed.


(** The append is outside the test on [category_id]: were the pose
    results a person followed by an entry of another category, the
    person's entry would be appended twice; and a lone entry of another
    category, with no entry built before it, would raise
    [UnboundLocalError].  The pose stage returns no such entry: every
    record it is handed has [category_id] 1. *)
Example other_category_result_reappends_entry :
  (exists entry s,
     TopDown.encode_results 0 TopDown.initial
       [VDict Samples.person_pose_result; VDict Samples.other_pose_result]
     = Ok s /\
     TopDown.annotations s = [entry; entry] /\
     py_getitem_key entry "track_id" = Ok (VInt 5)) /\
  TopDown.encode_results 0 TopDown.initial [VDict Samples.other_pose_result]
    = Raise UnboundLocalError.
Proof.
  split; [|reflexivity].
  eexists. eexists. split; [vm_compute; reflexivity|].
  split; reflexivity.
Qed.

(** *** The output bbox *)

(** On a row of float64 entries the conversion keeps the first two and
    rounds the two differences. *)
Lemma xyxy_to_xywh_floats (x1 y1 x2 y2 : float) (rest : list value) :
  TopDown.xyxy_to_xywh
    (VList (VFloat x1 :: VFloat y1 :: VFloat x2 :: VFloat y2 :: rest))
  = Ok (VList [VFloat x1; VFloat y1;
               VFloat (float64_round3 (PrimFloat.sub x2 x1));
               VFloat (float64_round3 (PrimFloat.sub y2 y1))]).
Proof. reflexivity. Qed.

Lemma float64_round3_rounds (d : float) :
  rounded_to_3_decimals d (float64_round3 d).
Proof. intros Hf Hb. exact (float64_round3_spec d Hf Hb). Qed.

(** The entry built from a pose result whose bbox converts. *)
Lemma encode_person_bbox (pose_result : dict) (frame_id : Z)
    (key_point : list value) (track_id b bbox : value) :
  dict_get "track_id" pose_result = Some track_id ->
  dict_get "bbox" pose_result = Some b ->
  TopDown.xyxy_to_xywh b = Ok bbox ->
  exists entry,
    TopDown.encode_person (VDict pose_result) frame_id key_point
      = Ok (VDict entry) /\
    dict_get "bbox" entry = Some bbox /\
    dict_get "keypoints" entry = Some (VList key_point).
Proof.
  intros Ht Hb Hbox. unfold TopDown.encode_person.
  rewrite (getitem_key_some _ _ _ Ht). cbn [bind].
  rewrite (getitem_key_some _ _ _ Hb). cbn [bind].
  rewrite Hbox. cbn [bind]. unfold py_get.
  destruct (dict_get "occluded" pose_result) as [o|]; cbn [bind].
  - destruct (is_None o); cbn [bind];
      destruct (dict_get "activity" pose_result); cbn [bind];
      eexists; repeat split; reflexivity.
  - cbn [is_None bind].
    destruct (dict_get "activity" pose_result); cbn [bind];
      eexists; repeat split; reflexivity.
Qed.

(** C7. The bbox of an encoded person annotation is [(x, y, width,
    height)]: [x] and [y] are the first two entries of the pose result's
    bbox, as they are, while [width] and [height] are the differences
    [x2 - x1] and [y2 - y1] rounded to three decimals; this is the
    entry the encoding loop appends for a pose result with
    [category_id == 1].  The bbox of a pose result is a float64 row, and
    the rounding is numpy's: each extent is the double nearest to
    [n / 1000], [n] being the integer nearest to the product of the
    difference with 1000, so it lies within a thousandth's half of the
    difference (up to the error of the two float operations). *)
Theorem C7_bbox_origin_kept_extent_rounded (s : TopDown.locals)
    (pose_result : dict) (frame_id : Z) (raw key_point rest : list value)
    (category_id track_id : value) (x1 y1 x2 y2 : float) :
  dict_get "keypoints" pose_result = Some (VList raw) ->
  map_result py_round3 (flat_map flatten_entries raw) = Ok key_point ->
  dict_get "category_id" pose_result = Some category_id ->
  py_eq category_id (VInt 1) = true ->
  dict_get "track_id" pose_result = Some track_id ->
  dict_get "bbox" pose_result
    = Some (VList (VFloat x1 :: VFloat y1 :: VFloat x2 :: VFloat y2 :: rest)) ->
  exists (width height : float) (entry : dict) (s' : TopDown.locals),
    width = float64_round3 (PrimFloat.sub x2 x1) /\
    height = float64_round3 (PrimFloat.sub y2 y1) /\
    rounded_to_3_decimals (PrimFloat.sub x2 x1) width /\
    rounded_to_3_decimals (PrimFloat.sub y2 y1) height /\
    TopDown.encode_person (VDict pose_result) frame_id key_point
      = Ok (VDict entry) /\
    dict_get "bbox" entry
      = Some (VList [VFloat x1; VFloat y1; VFloat width; VFloat height]) /\
    TopDown.encode_body frame_id s (VDict pose_result) = Ok s' /\
    TopDown.annotations s' = TopDown.annotations s ++ [VDict entry].
Proof.
  intros Hk Hr Hc Hp Ht Hb.
  destruct (encode_person_bbox pose_result frame_id key_point track_id _ _
              Ht Hb (xyxy_to_xywh_floats x1 y1 x2 y2 rest))
    as (entry & He & Hg & _).
  exists (float64_round3 (PrimFloat.sub x2 x1)),
         (float64_round3 (PrimFloat.sub y2 y1)), entry.
  eexists.
  split; [reflexivity|]. split; [reflexivity|].
  split; [apply float64_round3_rounds|]. split; [apply float64_round3_rounds|].
  split; [exact He|]. split; [exact Hg|].
  unfold TopDown.encode_body.
  rewrite (getitem_key_some _ _ _ Hk). cbn [bind flatten_tolist].
  rewrite Hr. cbn [bind].
  rewrite (getitem_key_some _ _ _ Hc). cbn [bind].
  rewrite Hp, He. cbn [bind read_local]. split; reflexivity.
Qed.

(** The sample extents are far below [2^31]. *)
Lemma sample_extents_small :
  (Rabs (float_real Samples.f76_3775) <= pow2 31)%R /\
  (Rabs (float_real Samples.f39_3255) <= pow2 31)%R.
Proof.
  split.
  - float_real_numeral Samples.f76_3775.
    rewrite Rabs_pos_eq; pow2_numerals; lra.
  - float_real_numeral Samples.f39_3255.
    rewrite Rabs_pos_eq; pow2_numerals; lra.
Qed.

Lemma C7_bbox_origin_kept_extent_rounded_witness :
  exists (entry : dict) (s' : TopDown.locals),
    TopDown.encode_body 0 TopDown.initial (VDict Samples.tied_pose_result)
      = Ok s' /\
    TopDown.annotations s' = [VDict entry] /\
    dict_get "bbox" entry
      = Some (VList [VFloat 0x1.44p+3; VFloat 0x1.41p+4;
                     VFloat Samples.f76_378; VFloat Samples.f39_326]) /\
    PrimFloat.sub 0x1.5a028f5c28f5cp+6 0x1.44p+3 = Samples.f76_3775 /\
    PrimFloat.sub 0x1.db1a9fbe76c8bp+5 0x1.41p+4 = Samples.f39_3255 /\
    float_round3 Samples.f76_3775 <> Samples.f76_378 /\
    (Rabs (float_real Samples.f76_378 - float_real Samples.f76_3775)
       <= 501 / 1000000)%R /\
    (Rabs (float_real Samples.f39_326 - float_real Samples.f39_3255)
       <= 501 / 1000000)%R.
Proof.
  destruct (C7_bbox_origin_kept_extent_rounded TopDown.initial
              Samples.tied_pose_result 0
              [VList [VFloat 0x1.3c0c1fc8f3238p+0; VFloat 0x1.0010624dd2f1bp+1;
                      VFloat 0.5]]
              [VFloat 0x1.3c28f5c28f5c3p+0; VFloat 0x1.0020c49ba5e35p+1;
               VFloat 0.5]
              [VFloat 1] (VInt 1) (VInt 5)
              0x1.44p+3 0x1.41p+4 0x1.5a028f5c28f5cp+6 0x1.db1a9fbe76c8bp+5
              eq_refl eq_refl eq_refl eq_refl eq_refl eq_refl)
    as (width & height & entry & s' & Hw & Hh & Hrw & Hrh & He & Hg & Hs & Ha).
  change (PrimFloat.sub 0x1.5a028f5c28f5cp+6 0x1.44p+3)
    with Samples.f76_3775 in *.
  change (PrimFloat.sub 0x1.db1a9fbe76c8bp+5 0x1.41p+4)
    with Samples.f39_3255 in *.
  change (float64_round3 Samples.f76_3775) with Samples.f76_378 in Hw.
  change (float64_round3 Samples.f39_3255) with Samples.f39_326 in Hh.
  subst width height.
  destruct (Hrw eq_refl (proj1 sample_extents_small))
    as (_ & _ & _ & _ & _ & _ & _ & Hbw).
  destruct (Hrh eq_refl (proj2 sample_extents_small))
    as (_ & _ & _ & _ & _ & _ & _ & Hbh).
  exists entry, s'.
  split; [exact Hs|]. split; [exact Ha|]. split; [exact Hg|].
  split; [reflexivity|]. split; [reflexivity|].
  split; [vm_compute; discriminate|].
  split; [exact Hbw | exact Hbh].
Defined.

(** *** The bbox round trip *)

(** C6, as the code has it.  For a bbox [(x, y, w, h)] of JSON numbers,
    ints or finite floats, with [|x|, |y| <= 2^30] and
    [0 <= w, h <= 2^30], the two conversions compose to
    [(x, y, w', h')]: [x] and [y] are returned as they are, and [w'],
    [h'] are float64 values within 0.000502 of [w] and [h], half a unit
    of the third decimal plus the error of the float operations, each
    within [2^-21] of a multiple of 0.001. *)
Theorem C6_bbox_round_trip_within_rounding (x y w h : value) (X Y W H : R) :
  number_real x X -> number_real y Y ->
  number_real w W -> number_real h H ->
  (Rabs X <= pow2 30)%R -> (Rabs Y <= pow2 30)%R ->
  (0 <= W <= pow2 30)%R -> (0 <= H <= pow2 30)%R ->
  exists w' h' : float,
    bbox_round_trip (VList [x; y; w; h])
      = Ok (VList [x; y; VFloat w'; VFloat h']) /\
    float_finite w' = true /\ float_finite h' = true /\
    (Rabs (float_real w' - W) <= 502 / 1000000)%R /\
    (Rabs (float_real h' - H) <= 502 / 1000000)%R /\
    (exists n : Z, (Rabs (float_real w' - IZR n / 1000) <= pow2 (-21))%R) /\
    (exists n : Z, (Rabs (float_real h' - IZR n / 1000) <= pow2 (-21))%R).
Proof.
  intros Hx Hy Hw Hh HX HY HW HH.
  assert (HW' : (Rabs W <= pow2 30)%R) by (rewrite Rabs_pos_eq; lra).
  assert (HH' : (Rabs H <= pow2 30)%R) by (rewrite Rabs_pos_eq; lra).
  destruct (extent_round_trip x w X W Hx Hw HX HW')
    as (x2 & dx & Hax & Hsx & Hrx & Hfx & Hbx & Hnx).
  destruct (extent_round_trip y h Y H Hy Hh HY HH')
    as (y2 & dy & Hay & Hsy & Hry & Hfy & Hby & Hny).
  exists (float64_round3 dx), (float64_round3 dy).
  split; [|repeat split; assumption].
  unfold bbox_round_trip, xywh_to_xyxy, TopDown.xyxy_to_xywh.
  cbn [py_getitem_idx nth_error bind].
  rewrite Hax. cbn [bind]. rewrite Hay. cbn [bind py_getitem_idx nth_error].
  rewrite Hsx. cbn [bind]. rewrite Hrx. cbn [bind].
  rewrite Hsy. cbn [bind]. rewrite Hry. reflexivity.
Qed.

Lemma sample_box_small :
  (Rabs (float_real Samples.f0_1) <= pow2 30)%R /\
  (0 <= float_real Samples.f0_2 <= pow2 30)%R /\
  (Rabs 20 <= pow2 30)%R /\ (0 <= 40 <= pow2 30)%R.
Proof.
  split; [|split; [|split]].
  - float_real_numeral Samples.f0_1.
    rewrite Rabs_pos_eq; pow2_numerals; lra.
  - float_real_numeral Samples.f0_2. pow2_numerals. lra.
  - rewrite Rabs_pos_eq; pow2_numerals; lra.
  - pow2_numerals. lra.
Qed.

Lemma C6_bbox_round_trip_within_rounding_witness :
  bbox_round_trip
    (VList [VFloat Samples.f0_1; VInt 20; VFloat Samples.f0_2; VInt 40])
  = Ok (VList [VFloat Samples.f0_1; VInt 20; VFloat Samples.f0_2; VFloat 40]) /\
  PrimFloat.sub (PrimFloat.add Samples.f0_1 Samples.f0_2) Samples.f0_1
    <> Samples.f0_2 /\
  (Rabs (float_real Samples.f0_2 - float_real Samples.f0_2)
     <= 502 / 1000000)%R /\
  (Rabs (float_real 40 - 40) <= 502 / 1000000)%R.
Proof.
  destruct sample_box_small as (H1 & H2 & H3 & H4).
  destruct (C6_bbox_round_trip_within_rounding
              (VFloat Samples.f0_1) (VInt 20) (VFloat Samples.f0_2) (VInt 40)
              (float_real Samples.f0_1) 20 (float_real Samples.f0_2) 40
              (conj eq_refl eq_refl) eq_refl (conj eq_refl eq_refl) eq_refl
              H1 H3 H2 H4)
    as (w' & h' & Hrt & _ & _ & Hbw & Hbh & _).
  assert (E : bbox_round_trip
                (VList [VFloat Samples.f0_1; VInt 20; VFloat Samples.f0_2; VInt 40])
              = Ok (VList [VFloat Samples.f0_1; VInt 20;
                           VFloat Samples.f0_2; VFloat 40]))
    by reflexivity.
  rewrite E in Hrt. injection Hrt as <- <-.
  split; [exact E|]. split; [vm_compute; discriminate|].
  split; [exact Hbw | exact Hbh].
Defined.

(** C6 as stated fails on floats: with [x = 1e16] and [w = 1], the sum
    [x + w] is [1e16] again, so the width that comes back is 0 while the
    original width, rounded to three decimals, is 1: off by a whole
    unit, not by a rounding in the third decimal. *)
Lemma C6_float_absorption_counterexample :
  xywh_to_xyxy Samples.far_bbox
    = Ok (VList [VFloat 1e16; VFloat 0; VFloat 1e16; VFloat 1; VFloat 1]) /\
  bbox_round_trip Samples.far_bbox
    = Ok (VList [VFloat 1e16; VFloat 0; VFloat 0; VFloat 1]) /\
  np_round3 (VFloat 1) = Ok (VFloat 1) /\
  py_eq (VFloat 0) (VFloat 1) = false /\
  PrimFloat.ltb 0.5 (PrimFloat.abs (PrimFloat.sub 1 0)) = true.
Proof. repeat split. Qed.

End EncoderProps.

(** ** Resolving the person category *)

Module ResolveProps.

Import Py Common Notions PyFacts.
Local Open Scope string_scope.
Local Open Scope list_scope.
Local Open Scope Z_scope.

Lemma well_formed_intro (d : dict) (name id : value) :
  dict_get "name" d = Some name ->
  dict_get "id" d = Some id ->
  well_formed_category (VDict d).
Proof. intros Hn Hi. exists d, name, id. auto. Qed.

Lemma scan_categories (categories : list value) :
  Forall well_formed_category categories ->
  forall binding,
    for_each scan_category binding categories
      = Ok (last_person_id categories binding).
Proof.
  induction 1 as [|c cs (d & name & id & -> & Hn & Hi) _ IH];
    intros binding; [reflexivity|].
  cbn [for_each last_person_id]. unfold scan_category at 1, is_person_category.
  rewrite (getitem_key_some _ _ _ Hn). cbn [bind].
  rewrite (getitem_key_some _ _ _ Hi).
  destruct (py_eq name (VStr "person")); cbn [bind]; apply IH.
Qed.

(** A pass either overwrites the binding or leaves it as it was. *)
Lemma last_person_id_binding (categories : list value) :
  forall binding,
    last_person_id categories binding
      = match last_person_id categories None with
        | Some id => Some id
        | None => binding
        end.
Proof.
  induction categories as [|c cs IH]; intros binding; [reflexivity|].
  cbn [last_person_id]. rewrite IH.
  rewrite (IH (if is_person_category c then _ else _)).
  destruct (last_person_id cs None); [reflexivity|].
  destruct (is_person_category c); [|reflexivity].
  destruct (py_getitem_key c "id"); reflexivity.
Qed.

Lemma last_person_id_idempotent (categories : list value)
    (binding : option value) :
  last_person_id categories (last_person_id categories binding)
    = last_person_id categories binding.
Proof.
  rewrite (last_person_id_binding categories (last_person_id _ _)).
  rewrite (last_person_id_binding categories binding).
  destruct (last_person_id categories None); reflexivity.
Qed.

Lemma last_person_id_none (categories : list value) :
  existsb is_person_category categories = false ->
  last_person_id categories None = None.
Proof.
  induction categories as [|c cs IH]; [reflexivity|].
  cbn [existsb last_person_id]. intros H.
  apply orb_false_iff in H as [-> H]. now apply IH.
Qed.

Lemma last_person_id_some (categories : list value) :
  Forall well_formed_category categories ->
  existsb is_person_category categories = true ->
  exists d id before after,
    last_person_id categories None = Some id /\
    categories = before ++ VDict d :: after /\
    existsb is_person_category after = false /\
    dict_get "name" d = Some (VStr "person") /\
    dict_get "id" d = Some id.
Proof.
  induction 1 as [|c cs (d & name & id & -> & Hn & Hi) _ IH];
    [discriminate|].
  cbn [existsb last_person_id]. intros H.
  destruct (existsb is_person_category cs) eqn:Hcs.
  - destruct (IH eq_refl) as (d' & id' & before & after & Hl & -> & Ha & Hn' & Hi').
    exists d', id', (VDict d :: before), after.
    rewrite last_person_id_binding, Hl. repeat split; assumption.
  - rewrite orb_false_r in H. rewrite H.
    rewrite (getitem_key_some _ _ _ Hi).
    rewrite last_person_id_binding, (last_person_id_none _ Hcs).
    exists d, id, [], cs. repeat split; [assumption | | assumption].
    unfold is_person_category in H. rewrite (getitem_key_some _ _ _ Hn) in H.
    apply py_eq_str in H. now subst.
Qed.

(** The outer loop repeats the same pass once per annotation record. *)
Lemma resolve_outer_loop (json_data : dict) (categories : list value)
    (outer : list value) :
  dict_get "categories" json_data = Some (VList categories) ->
  Forall well_formed_category categories ->
  forall binding,
    for_each
      (fun cat_id (_ : value) =>
         categories <- py_getitem_key (VDict json_data) "categories" ;;
         inner <- py_iter categories ;;
         for_each scan_category cat_id inner)
      binding outer
    = Ok (match outer with
          | [] => binding
          | _ :: _ => last_person_id categories binding
          end).
Proof.
  intros Hc Hwf binding. apply for_each_idempotent.
  - intros s x. rewrite (getitem_key_some _ _ _ Hc). cbn [bind py_iter].
    now apply scan_categories.
  - intros s. apply last_person_id_idempotent.
Qed.

Lemma resolve_person_cat_id_eq (json_data : dict)
    (annotations categories : list value) (binding : option value) :
  dict_get "annotations" json_data = Some (VList annotations) ->
  dict_get "categories" json_data = Some (VList categories) ->
  Forall well_formed_category categories ->
  resolve_person_cat_id (VDict json_data) binding
    = Ok (match annotations with
          | [] => binding
          | _ :: _ => last_person_id categories binding
          end).
Proof.
  intros Ha Hc Hwf. unfold resolve_person_cat_id.
  rewrite (getitem_key_some _ _ _ Ha). cbn [bind py_iter].
  now apply resolve_outer_loop.
Qed.

(** C4, as the code has it.  With a non-empty annotations list, the
    scan binds [this_person_cat_id] to the [id] of a category named
    "person" (the last one) whenever there is one, and leaves it unbound
    when there is none; in that case the inference script stops with
    [UnboundLocalError] at the first record of the non-person loop,
    before the frame loop, whatever the video and the pose stage. *)
Theorem C4_resolution_with_annotations (json_data first : dict)
    (rest categories : list value) :
  dict_get "annotations" json_data = Some (VList (VDict first :: rest)) ->
  dict_get "categories" json_data = Some (VList categories) ->
  Forall well_formed_category categories ->
  resolve_person_cat_id (VDict json_data) None
    = Ok (last_person_id categories None) /\
  (existsb is_person_category categories = true ->
   exists d id before after,
     last_person_id categories None = Some id /\
     categories = before ++ VDict d :: after /\
     existsb is_person_category after = false /\
     dict_get "name" d = Some (VStr "person") /\
     dict_get "id" d = Some id) /\
  (existsb is_person_category categories = false ->
   last_person_id categories None = None /\
   forall category_id,
     dict_get "category_id" first = Some category_id ->
     TopDown.prelude (VDict json_data) = Raise UnboundLocalError /\
     forall pose_stage n_frames,
       TopDown.main pose_stage (VDict json_data) n_frames
         = Raise UnboundLocalError).
Proof.
  intros Ha Hc Hwf.
  pose proof (resolve_person_cat_id_eq _ _ _ None Ha Hc Hwf) as Hres.
  cbn iota in Hres.
  split; [exact Hres|]. split.
  - now apply last_person_id_some.
  - intros Hno. pose proof (last_person_id_none _ Hno) as Hnone.
    split; [exact Hnone|]. intros category_id Hcat.
    assert (Hpre : TopDown.prelude (VDict json_data) = Raise UnboundLocalError).
    { unfold TopDown.prelude. rewrite Hres, Hnone. cbn [bind].
      unfold TopDown.passthrough.
      rewrite (getitem_key_some _ _ _ Ha). cbn [bind py_iter for_each].
      unfold TopDown.passthrough_body at 1.
      rewrite (getitem_key_some _ _ _ Hcat). reflexivity. }
    split; [exact Hpre|].
    intros pose_stage n_frames. unfold TopDown.main. now rewrite Hpre.
Qed.

Lemma C4_resolution_with_annotations_witness :
  resolve_person_cat_id
    (Samples.document [Samples.person_category; Samples.car_category]
       [VDict Samples.car_record]) None
    = Ok (Some (VInt 1)) /\
  TopDown.prelude
    (Samples.document [Samples.car_category] [VDict Samples.car_record])
    = Raise UnboundLocalError.
Proof.
  split.
  - refine (proj1 (C4_resolution_with_annotations
                     [("categories",
                       VList [Samples.person_category; Samples.car_category]);
                      ("annotations", VList [VDict Samples.car_record])]
                     Samples.car_record []
                     [Samples.person_category; Samples.car_category]
                     eq_refl eq_refl _)).
    repeat constructor; eapply well_formed_intro; reflexivity.
  - refine (proj1 (proj2 (proj2 (proj2
              (C4_resolution_with_annotations
                 [("categories", VList [Samples.car_category]);
                  ("annotations", VList [VDict Samples.car_record])]
                 Samples.car_record [] [Samples.car_category]
                 eq_refl eq_refl _)) eq_refl) (VInt 2) eq_refl)).
    repeat constructor; eapply well_formed_intro; reflexivity.
Defined.

(** C4 as stated fails.  With a "person" category and an empty
    annotations list, the scan never runs and the id stays unbound.
    With no "person" category and an empty annotations list, the
    inference script runs to the end without any error; and the
    visualisation script does so even with annotation records, as long
    as none of them falls on a frame of the video. *)
Lemma C4_unbound_or_silent_counterexample :
  resolve_person_cat_id
    (Samples.document [Samples.person_category] []) None = Ok None /\
  TopDown.main Samples.identity_pose_stage
    (Samples.document [Samples.car_category] []) 3 = Ok [] /\
  Vis.main
    (Samples.document [Samples.car_category] [VDict Samples.record_nested_occluded])
    2 = Ok [[]; []].
Proof. repeat split. Qed.

End ResolveProps.

(** ** End-to-end scenarios *)

Module Scenarios.

Import Py Common.
Local Open Scope string_scope.
Local Open Scope list_scope.
Local Open Scope Z_scope.

(** One person at [frame_id = 0] with bbox [[10, 20, 30, 40]] and
    [track_id = 5], a video of one frame, the pose stage as identity:
    the box comes back as floats, having been a float64 row. *)
Example one_person_one_frame :
  TopDown.main Samples.identity_pose_stage
    (Samples.document [Samples.person_category] [Samples.person_at_frame_0]) 1
  = Ok [VDict [("track_id", VInt 5); ("frame_id", VInt 0);
               ("keypoints", VList [VFloat 1.5; VFloat 2.25; VFloat 0.5]);
               ("bbox", VList [VFloat 10; VFloat 20; VFloat 30; VFloat 40]);
               ("occluded", VInt 0); ("activity", VStr "");
               ("category_id", VInt 1)]].
Proof. reflexivity. Qed.

(** A record with [image_id = 3] is output once, on frame 2. *)
Example image_id_three_is_frame_two :
  TopDown.main Samples.identity_pose_stage
    (Samples.document [Samples.person_category]
       [VDict Samples.record_nested_occluded]) 4
  = Ok [VDict [("track_id", VInt 6); ("frame_id", VInt 2);
               ("keypoints", VList [VFloat 1.5; VFloat 2.25; VFloat 0.5]);
               ("bbox", VList [VFloat 10; VFloat 20; VFloat 30; VFloat 40]);
               ("occluded", VInt 1); ("activity", VStr "");
               ("category_id", VInt 1)]].
Proof. reflexivity. Qed.

(** A pose stage that finds nobody: no annotation, no error. *)
Example no_pose_result :
  TopDown.main (fun _ _ => Ok [])
    (Samples.document [Samples.person_category] [Samples.person_at_frame_0]) 2
  = Ok [].
Proof. reflexivity. Qed.

End Scenarios.

(** ** The correlator as a selection over the annotation list *)

Module SelectionProps.

Import Py Common Notions Selection PyFacts.
Local Open Scope string_scope.
Local Open Scope list_scope.
Local Open Scope Z_scope.

Lemma for_each_invariant {S A : Type} (P : S -> Prop)
    (body : S -> A -> result S) :
  (forall s x s', P s -> body s x = Ok s' -> P s') ->
  forall l s s', P s -> for_each body s l = Ok s' -> P s'.
Proof.
  intros Hstep. induction l as [|x l IH]; intros s s' Hs H; cbn in H.
  - now injection H as <-.
  - apply bind_inv in H as (s1 & H1 & H). eauto.
Qed.

Lemma for_each_app {S A : Type} (body : S -> A -> result S) (s : S)
    (l1 l2 : list A) :
  for_each body s (l1 ++ l2) = (s' <- for_each body s l1 ;; for_each body s' l2).
Proof.
  revert s. induction l1 as [|x l1 IH]; intros s; cbn; [reflexivity|].
  destruct (body s x); cbn; [apply IH | reflexivity].
Qed.

(** A record with an index of its own resolves to it whatever the
    earlier records left in [frame_json_id]. *)
Lemma record_index_resolves (data : value) (index : Z) :
  record_index data = Some index ->
  forall previous,
    resolve_frame_json_id data previous = Ok (Some (VInt index)).
Proof.
  unfold record_index, resolve_frame_json_id. intros H previous.
  destruct (py_contains "frame_id" data) as [has_frame_id|];
    cbn [bind] in *; [|discriminate].
  destruct has_frame_id.
  - destruct (py_getitem_key data "frame_id") as [v|]; cbn [bind] in *;
      [|discriminate].
    destruct v; try discriminate. now injection H as ->.
  - destruct (py_contains "image_id" data) as [has_image_id|];
      cbn [bind] in *; [|discriminate].
    destruct has_image_id; [|discriminate].
    destruct (py_getitem_key data "image_id") as [v|]; cbn [bind] in *;
      [|discriminate].
    destruct (py_sub v (VInt 1)) as [r|]; cbn [bind] in *; [|discriminate].
    destruct r; try discriminate. now injection H as ->.
Qed.

(** One iteration on a record that has an index and a category. *)
Lemma top_down_correlate_indexed (frame_id index : Z) (s : TopDown.locals)
    (acc : list value) (data category_id person_id : value) :
  record_index data = Some index ->
  py_getitem_key data "category_id" = Ok category_id ->
  TopDown.this_person_cat_id s = Some person_id ->
  TopDown.correlate_body frame_id (s, acc) data
    = if selected frame_id person_id data
      then person <- TopDown.normalize_person data ;;
           Ok (TopDown.Locals (Some person_id) (Some (VInt index))
                 (TopDown.dict_obj s) (TopDown.annotations s),
               acc ++ [person])
      else Ok (TopDown.Locals (Some person_id) (Some (VInt index))
                 (TopDown.dict_obj s) (TopDown.annotations s), acc).
Proof.
  intros Hi Hc Hp. unfold TopDown.correlate_body, selected.
  rewrite (record_index_resolves _ _ Hi), Hi, Hc. cbn [bind read_local].
  cbn [py_eq as_number number_eq TopDown.this_person_cat_id].
  rewrite Hp. destruct (frame_id =? index); cbn [negb andb]; [|reflexivity].
  cbn [bind read_local].
  destruct (py_eq category_id person_id); reflexivity.
Qed.

Lemma vis_correlate_indexed (frame_id index : Z) (s : Vis.locals)
    (acc : list value) (data category_id person_id : value) :
  record_index data = Some index ->
  py_getitem_key data "category_id" = Ok category_id ->
  Vis.this_person_cat_id s = Some person_id ->
  Vis.correlate_body frame_id (s, acc) data
    = if selected frame_id person_id data
      then person <- Vis.normalize_person data frame_id ;;
           Ok (Vis.Locals (Some person_id) (Some (VInt index)),
               acc ++ [person])
      else Ok (Vis.Locals (Some person_id) (Some (VInt index)), acc).
Proof.
  intros Hi Hc Hp. unfold Vis.correlate_body, selected.
  rewrite (record_index_resolves _ _ Hi), Hi, Hc. cbn [bind read_local].
  cbn [py_eq as_number number_eq Vis.this_person_cat_id].
  rewrite Hp. destruct (frame_id =? index); cbn [negb andb]; [|reflexivity].
  cbn [bind read_local].
  destruct (py_eq category_id person_id); reflexivity.
Qed.

Lemma top_down_correlate_loop (frame_id : Z) (person_id : value)
    (items : list value) :
  Forall indexed_record items ->
  forall s acc obs,
    TopDown.this_person_cat_id s = Some person_id ->
    map_result TopDown.normalize_person
      (filter (selected frame_id person_id) items) = Ok obs ->
    exists s',
      for_each (TopDown.correlate_body frame_id) (s, acc) items
        = Ok (s', acc ++ obs) /\
      TopDown.this_person_cat_id s' = Some person_id /\
      TopDown.dict_obj s' = TopDown.dict_obj s /\
      TopDown.annotations s' = TopDown.annotations s.
Proof.
  induction 1 as [|data items (index & category_id & Hi & Hc) _ IH];
    intros s acc obs Hp Hm.
  - cbn in Hm. injection Hm as <-. exists s. rewrite app_nil_r. auto.
  - cbn [for_each filter] in *.
    rewrite (top_down_correlate_indexed _ _ _ _ _ _ _ Hi Hc Hp).
    destruct (selected frame_id person_id data).
    + cbn [map_result] in Hm.
      apply bind_inv in Hm as (person & Hn & Hm).
      apply bind_inv in Hm as (rest & Hrest & Hm). injection Hm as <-.
      rewrite Hn. cbn [bind].
      destruct (IH (TopDown.Locals (Some person_id) (Some (VInt index))
                      (TopDown.dict_obj s) (TopDown.annotations s))
                   (acc ++ [person]) rest eq_refl Hrest)
        as (s' & Hloop & Hp' & Hd & Ha).
      exists s'. rewrite Hloop, <- app_assoc. auto.
    + cbn [bind].
      destruct (IH (TopDown.Locals (Some person_id) (Some (VInt index))
                      (TopDown.dict_obj s) (TopDown.annotations s))
                   acc obs eq_refl Hm)
        as (s' & Hloop & Hp' & Hd & Ha).
      exists s'. auto.
Qed.

(** X1. On a frame of the inference script, when every record has an
    integer frame index and a category id, the observations handed to
    the pose stage are the normalised records whose index is the frame
    counter and whose category is the person category, in the order of
    the annotation list; the output list, [dict_obj] and the person id
    are left as they were. *)
Theorem X1_correlator_keeps_source_order (json_data : dict)
    (items obs : list value) (person_id : value) (frame_id : Z)
    (s : TopDown.locals) :
  dict_get "annotations" json_data = Some (VList items) ->
  TopDown.this_person_cat_id s = Some person_id ->
  Forall indexed_record items ->
  map_result TopDown.normalize_person
    (filter (selected frame_id person_id) items) = Ok obs ->
  exists s',
    TopDown.person_observations (VDict json_data) frame_id s = Ok (s', obs) /\
    TopDown.this_person_cat_id s' = Some person_id /\
    TopDown.dict_obj s' = TopDown.dict_obj s /\
    TopDown.annotations s' = TopDown.annotations s.
Proof.
  intros Ha Hp Hwf Hm. unfold TopDown.person_observations.
  rewrite (getitem_key_some _ _ _ Ha). cbn [bind py_iter].
  exact (top_down_correlate_loop frame_id person_id items Hwf s [] obs Hp Hm).
Qed.

Lemma X1_correlator_keeps_source_order_witness :
  exists s',
    TopDown.person_observations
      (Samples.document [Samples.person_category]
         [Samples.person_at_frame_0; VDict Samples.record_nested_occluded;
          VDict Samples.record_with_both])
      0 (TopDown.Locals (Some (VInt 1)) None None [])
    = Ok (s',
          [VDict [("activity", VStr ""); ("track_id", VInt 5);
                  ("bbox", VList [VInt 10; VInt 20; VInt 40; VInt 60;
                                  VFloat 1]);
                  ("category_id", VInt 1)];
           VDict [("activity", VStr "walking"); ("track_id", VInt 5);
                  ("occluded", VInt 1);
                  ("bbox", VList [VInt 10; VInt 20; VInt 40; VInt 60;
                                  VFloat 1]);
                  ("category_id", VInt 1)]]).
Proof.
  destruct (X1_correlator_keeps_source_order
              [("categories", VList [Samples.person_category]);
               ("annotations",
                VList [Samples.person_at_frame_0;
                       VDict Samples.record_nested_occluded;
                       VDict Samples.record_with_both])]
              [Samples.person_at_frame_0;
               VDict Samples.record_nested_occluded;
               VDict Samples.record_with_both]
              _ (VInt 1) 0 (TopDown.Locals (Some (VInt 1)) None None [])
              eq_refl eq_refl
              ltac:(repeat (apply Forall_cons;
                              [do 2 eexists; split; reflexivity|]);
                    apply Forall_nil)
              eq_refl)
    as (s' & H & _).
  exists s'. exact H.
Defined.

(** *** The visualisation script, frame by frame *)

Lemma vis_correlate_loop (frame_id : Z) (person_id : value)
    (items : list value) :
  Forall indexed_record items ->
  forall s acc obs,
    Vis.this_person_cat_id s = Some person_id ->
    map_result (fun data => Vis.normalize_person data frame_id)
      (filter (selected frame_id person_id) items) = Ok obs ->
    exists s',
      for_each (Vis.correlate_body frame_id) (s, acc) items
        = Ok (s', acc ++ obs) /\
      Vis.this_person_cat_id s' = Some person_id.
Proof.
  induction 1 as [|data items (index & category_id & Hi & Hc) _ IH];
    intros s acc obs Hp Hm.
  - cbn in Hm. injection Hm as <-. exists s. rewrite app_nil_r. auto.
  - cbn [for_each filter] in *.
    rewrite (vis_correlate_indexed _ _ _ _ _ _ _ Hi Hc Hp).
    destruct (selected frame_id person_id data).
    + cbn [map_result] in Hm.
      apply bind_inv in Hm as (person & Hn & Hm).
      apply bind_inv in Hm as (rest & Hrest & Hm). injection Hm as <-.
      rewrite Hn. cbn [bind].
      destruct (IH (Vis.Locals (Some person_id) (Some (VInt index)))
                   (acc ++ [person]) rest eq_refl Hrest)
        as (s' & Hloop & Hp').
      exists s'. rewrite Hloop, <- app_assoc. auto.
    + cbn [bind].
      destruct (IH (Vis.Locals (Some person_id) (Some (VInt index)))
                   acc obs eq_refl Hm)
        as (s' & Hloop & Hp').
      exists s'. auto.
Qed.

Lemma frame_ids_succ (first : Z) (n : nat) :
  frame_ids first (S n) = first :: frame_ids (first + 1) n.
Proof.
  unfold frame_ids. cbn [seq map]. f_equal; [lia|].
  rewrite <- seq_shift, map_map. apply map_ext. intros j. lia.
Qed.

(** X2. In the visualisation script, when every record has an integer
    frame index and a category id, a video of [n] frames yields [n]
    lists, one per frame in order, and the list of frame [k] holds the
    normalised person records whose index is [k], in the order of the
    annotation list.  So a record is drawn on the one frame of its
    index, and on none when that index is not a frame of the video. *)
Theorem X2_vis_frames_are_selections (json_data : dict)
    (items : list value) (person_id : value) (per_frame : Z -> list value)
    (n : nat) (first : Z) (s : Vis.locals) :
  dict_get "annotations" json_data = Some (VList items) ->
  Forall indexed_record items ->
  Vis.this_person_cat_id s = Some person_id ->
  (forall k,
     In k (frame_ids first n) ->
     map_result (fun data => Vis.normalize_person data k)
       (filter (selected k person_id) items) = Ok (per_frame k)) ->
  Vis.frame_loop (VDict json_data) n first s
    = Ok (map per_frame (frame_ids first n)).
Proof.
  intros Ha Hwf. revert first s.
  induction n as [|n IH]; intros first s Hp Hall; [reflexivity|].
  rewrite frame_ids_succ in *. cbn [Vis.frame_loop map].
  unfold Vis.person_observations.
  rewrite (getitem_key_some _ _ _ Ha). cbn [bind py_iter].
  destruct (vis_correlate_loop first person_id items Hwf s [] _ Hp
              (Hall first (or_introl eq_refl)))
    as (s' & Hloop & Hp').
  rewrite Hloop. cbn [bind fst snd app].
  rewrite (IH (first + 1) s' Hp'
              (fun k Hk => Hall k (or_intror Hk))).
  reflexivity.
Qed.

Lemma X2_vis_frames_are_selections_witness :
  Vis.main
    (Samples.document [Samples.person_category]
       [Samples.person_at_frame_0; VDict Samples.record_nested_occluded])
    2
  = Ok [[VDict [("activity", VStr ""); ("track_id", VInt 5);
                ("category_id", VInt 1);
                ("bbox", VList [VInt 10; VInt 20; VInt 40; VInt 60;
                                VFloat 1]);
                ("frame_id", VInt 0); ("keypoints", VList [])]];
        []].
Proof.
  exact (X2_vis_frames_are_selections
           [("categories", VList [Samples.person_category]);
            ("annotations",
             VList [Samples.person_at_frame_0;
                    VDict Samples.record_nested_occluded])]
           [Samples.person_at_frame_0; VDict Samples.record_nested_occluded]
           (VInt 1)
           (fun k =>
              if k =? 0
              then [VDict [("activity", VStr ""); ("track_id", VInt 5);
                           ("category_id", VInt 1);
                           ("bbox", VList [VInt 10; VInt 20; VInt 40;
                                           VInt 60; VFloat 1]);
                           ("frame_id", VInt 0); ("keypoints", VList [])]]
              else [])
           2 0 (Vis.Locals (Some (VInt 1)) None)
           eq_refl
           ltac:(repeat (apply Forall_cons;
                           [do 2 eexists; split; reflexivity|]);
                 apply Forall_nil)
           eq_refl
           ltac:(intros k [<- | [<- | []]]; reflexivity)).
Defined.

(** *** What every observation looks like *)

Lemma xywh_to_xyxy_shape (bbox converted : value) :
  xywh_to_xyxy bbox = Ok converted ->
  exists x y x2 y2, converted = VList [x; y; x2; y2; VFloat 1].
Proof.
  unfold xywh_to_xyxy. intros H.
  apply bind_inv in H as (x & _ & H).
  apply bind_inv in H as (y & _ & H).
  apply bind_inv in H as (w & _ & H).
  apply bind_inv in H as (x2 & _ & H).
  apply bind_inv in H as (h & _ & H).
  apply bind_inv in H as (y2 & _ & H).
  injection H as <-. eauto.
Qed.

Lemma top_down_normalize_shape (data person : value) :
  TopDown.normalize_person data = Ok person -> observation_shape person.
Proof.
  unfold TopDown.normalize_person. intros H.
  apply bind_inv in H as (fields & Hf & H).
  apply bind_inv in H as (bbox & Hb & H). injection H as <-.
  unfold person_bbox in Hb. apply bind_inv in Hb as (raw & _ & Hb).
  destruct (xywh_to_xyxy_shape _ _ Hb) as (x & y & x2 & y2 & ->).
  destruct (CorrelatorProps.person_fields_activity _ _ Hf) as [activity Hact].
  eexists _, x, y, x2, y2, activity. split; [reflexivity|].
  split; [apply dict_get_set_eq|]. split.
  - rewrite dict_get_set_ne by discriminate. apply dict_get_set_eq.
  - now rewrite !dict_get_set_ne by discriminate.
Qed.

(** One iteration keeps the list or adds one normalised record to its
    end, and touches only [frame_json_id]. *)
Lemma top_down_correlate_grows (frame_id : Z) (s s' : TopDown.locals)
    (acc acc' : list value) (data : value) :
  TopDown.correlate_body frame_id (s, acc) data = Ok (s', acc') ->
  (acc' = acc \/
   exists person,
     TopDown.normalize_person data = Ok person /\ acc' = acc ++ [person]) /\
  TopDown.this_person_cat_id s' = TopDown.this_person_cat_id s /\
  TopDown.dict_obj s' = TopDown.dict_obj s /\
  TopDown.annotations s' = TopDown.annotations s.
Proof.
  unfold TopDown.correlate_body. intros H.
  apply bind_inv in H as (fj & _ & H).
  apply bind_inv in H as (current & _ & H).
  destruct (negb (py_eq (VInt frame_id) current)).
  - injection H as <- <-. auto.
  - apply bind_inv in H as (category_id & _ & H).
    apply bind_inv in H as (person_id & _ & H).
    destruct (negb (py_eq category_id person_id)).
    + injection H as <- <-. auto.
    + apply bind_inv in H as (person & Hn & H).
      injection H as <- <-. split; [right; eauto | auto].
Qed.

Lemma top_down_observations_invariant (json_data : value) (frame_id : Z)
    (s s' : TopDown.locals) (obs : list value) :
  TopDown.person_observations json_data frame_id s = Ok (s', obs) ->
  Forall observation_shape obs /\
  TopDown.this_person_cat_id s' = TopDown.this_person_cat_id s /\
  TopDown.dict_obj s' = TopDown.dict_obj s /\
  TopDown.annotations s' = TopDown.annotations s.
Proof.
  unfold TopDown.person_observations. intros H.
  apply bind_inv in H as (anns & _ & H).
  apply bind_inv in H as (items & _ & H).
  apply (for_each_invariant
           (fun st : TopDown.locals * list value =>
              Forall observation_shape (snd st) /\
              TopDown.this_person_cat_id (fst st)
                = TopDown.this_person_cat_id s /\
              TopDown.dict_obj (fst st) = TopDown.dict_obj s /\
              TopDown.annotations (fst st) = TopDown.annotations s)
           (TopDown.correlate_body frame_id)) in H; [exact H | | cbn; auto].
  intros [s1 acc] data [s2 acc'] (Hshape & Hp & Hd & Ha) Hstep.
  cbn [fst snd] in *.
  destruct (top_down_correlate_grows _ _ _ _ _ _ Hstep)
    as ([-> | (person & Hn & ->)] & Hp' & Hd' & Ha').
  - repeat split; congruence.
  - split; [|repeat split; congruence].
    apply Forall_app. split; [assumption|].
    constructor; [|constructor]. exact (top_down_normalize_shape _ _ Hn).
Qed.

(** X3. Whatever the annotation list holds, when the correlator of the
    inference script returns for a frame, every observation it hands to
    the pose stage is a dict with [category_id] 1, an [activity], and a
    five-entry [bbox] ending in the confidence 1.0; and the loop has
    changed neither the output list, nor [dict_obj], nor the person
    id. *)
Theorem X3_observations_are_well_shaped (json_data : value) (frame_id : Z)
    (s s' : TopDown.locals) (obs : list value) :
  TopDown.person_observations json_data frame_id s = Ok (s', obs) ->
  Forall observation_shape obs /\
  TopDown.this_person_cat_id s' = TopDown.this_person_cat_id s /\
  TopDown.dict_obj s' = TopDown.dict_obj s /\
  TopDown.annotations s' = TopDown.annotations s.
Proof. apply top_down_observations_invariant. Qed.

Lemma X3_observations_are_well_shaped_witness :
  exists s' obs,
    TopDown.person_observations
      (Samples.document [Samples.person_category]
         [Samples.person_at_frame_0; Samples.person_without_frame_index])
      0 (TopDown.Locals (Some (VInt 1)) None None [])
    = Ok (s', obs) /\
    Forall observation_shape obs /\ List.length obs = 2%nat.
Proof.
  eexists. eexists. split; [vm_compute; reflexivity|]. split.
  - refine (proj1 (X3_observations_are_well_shaped
                     (Samples.document [Samples.person_category]
                        [Samples.person_at_frame_0;
                         Samples.person_without_frame_index])
                     0 (TopDown.Locals (Some (VInt 1)) None None [])
                     _ _ _)).
    vm_compute. reflexivity.
  - reflexivity.
Defined.

End SelectionProps.

(** ** The output list across the whole run *)

Module PipelineProps.

Import Py Common Notions Selection PyFacts SelectionProps.
Local Open Scope string_scope.
Local Open Scope list_scope.
Local Open Scope Z_scope.

(** *** The non-person loop *)

Lemma non_person_entry_copies (data category_id entry : value) :
  py_getitem_key data "category_id" = Ok category_id ->
  TopDown.non_person_entry data category_id = Ok entry ->
  copied data entry.
Proof.
  unfold TopDown.non_person_entry. intros Hc H.
  apply bind_inv in H as (has_track_id & _ & H).
  apply bind_inv in H as (track_id & _ & H).
  apply bind_inv in H as (has_frame_id & _ & H).
  apply bind_inv in H as (frame_id & _ & H).
  apply bind_inv in H as (bbox & Hb & H).
  apply bind_inv in H as (occ & _ & H).
  apply bind_inv in H as (occluded & _ & H).
  injection H as <-. exists bbox, category_id. auto.
Qed.

Lemma passthrough_body_step (s s' : TopDown.locals)
    (data person_id : value) :
  TopDown.this_person_cat_id s = Some person_id ->
  TopDown.passthrough_body s data = Ok s' ->
  TopDown.this_person_cat_id s' = Some person_id /\
  (is_other_category person_id data = false /\
   TopDown.annotations s' = TopDown.annotations s \/
   is_other_category person_id data = true /\
   exists entry,
     copied data entry /\
     TopDown.annotations s' = TopDown.annotations s ++ [entry]).
Proof.
  unfold TopDown.passthrough_body, is_other_category. intros Hp H.
  apply bind_inv in H as (category_id & Hc & H). rewrite Hc.
  rewrite Hp in H. cbn [bind read_local] in H.
  destruct (py_eq category_id person_id).
  - injection H as <-. auto.
  - apply bind_inv in H as (entry & He & H). injection H as <-.
    cbn. split; [reflexivity|]. right. split; [reflexivity|].
    exists entry. split; [|reflexivity].
    exact (non_person_entry_copies _ _ _ Hc He).
Qed.

Lemma passthrough_loop (person_id : value) (items : list value) :
  forall s s',
    TopDown.this_person_cat_id s = Some person_id ->
    for_each TopDown.passthrough_body s items = Ok s' ->
    TopDown.this_person_cat_id s' = Some person_id /\
    exists entries,
      TopDown.annotations s' = TopDown.annotations s ++ entries /\
      Forall2 copied (filter (is_other_category person_id) items) entries.
Proof.
  induction items as [|data items IH]; intros s s' Hp H; cbn in H.
  - injection H as <-. split; [assumption|]. exists []. cbn.
    rewrite app_nil_r. auto.
  - apply bind_inv in H as (s1 & H1 & H).
    destruct (passthrough_body_step _ _ _ _ Hp H1) as (Hp1 & Hcase).
    destruct (IH _ _ Hp1 H) as (Hp' & entries & Ha & Hf).
    split; [assumption|]. cbn [filter].
    destruct Hcase as [(-> & Ha1) | (-> & entry & Hcopy & Ha1)].
    + exists entries. rewrite Ha, Ha1. auto.
    + exists (entry :: entries). rewrite Ha, Ha1, <- app_assoc. auto.
Qed.

Lemma passthrough_entries (json_data : dict) (items : list value)
    (person_id : value) (s s' : TopDown.locals) :
  dict_get "annotations" json_data = Some (VList items) ->
  TopDown.this_person_cat_id s = Some person_id ->
  TopDown.passthrough (VDict json_data) s = Ok s' ->
  exists entries,
    TopDown.annotations s' = TopDown.annotations s ++ entries /\
    Forall2 copied (filter (is_other_category person_id) items) entries.
Proof.
  intros Ha Hp H. unfold TopDown.passthrough in H.
  rewrite (getitem_key_some _ _ _ Ha) in H. cbn [bind py_iter] in H.
  destruct (passthrough_loop person_id items _ _ Hp H) as (_ & Hex).
  exact Hex.
Qed.

(** X4. When the non-person loop runs to its end, it has appended one
    entry per record whose category differs from the person category,
    in the order of the annotation list, each carrying the record's
    [bbox] and [category_id] as they are; person records add nothing,
    and what was in the output list before is still its prefix. *)
Theorem X4_passthrough_copies_other_categories (json_data : dict)
    (items : list value) (person_id : value) (s s' : TopDown.locals) :
  dict_get "annotations" json_data = Some (VList items) ->
  TopDown.this_person_cat_id s = Some person_id ->
  TopDown.passthrough (VDict json_data) s = Ok s' ->
  exists entries,
    TopDown.annotations s' = TopDown.annotations s ++ entries /\
    Forall2 copied (filter (is_other_category person_id) items) entries /\
    List.length entries
      = List.length (filter (is_other_category person_id) items).
Proof.
  intros Ha Hp H. unfold TopDown.passthrough in H.
  rewrite (getitem_key_some _ _ _ Ha) in H. cbn [bind py_iter] in H.
  destruct (passthrough_loop person_id items _ _ Hp H)
    as (_ & entries & Hann & Hcopied).
  exists entries. split; [assumption|]. split; [assumption|].
  symmetry. exact (Forall2_length Hcopied).
Qed.

Lemma X4_passthrough_copies_other_categories_witness :
  exists s' entries,
    TopDown.passthrough
      (Samples.document [Samples.person_category; Samples.car_category]
         [Samples.person_at_frame_0; VDict Samples.car_record])
      (TopDown.Locals (Some (VInt 1)) None None []) = Ok s' /\
    TopDown.annotations s' = entries /\
    Forall2 copied [VDict Samples.car_record] entries /\
    List.length entries = 1%nat.
Proof.
  eexists. 
  destruct (X4_passthrough_copies_other_categories
              [("categories",
                VList [Samples.person_category; Samples.car_category]);
               ("annotations",
                VList [Samples.person_at_frame_0; VDict Samples.car_record])]
              [Samples.person_at_frame_0; VDict Samples.car_record]
              (VInt 1) (TopDown.Locals (Some (VInt 1)) None None []) _
              eq_refl eq_refl eq_refl)
    as (entries & Hann & Hcopied & Hlen).
  exists entries. split; [reflexivity|]. auto.
Defined.

(** X5. A record of another category that carries a track id neither
    directly nor under [attributes] stops the inference script with
    [KeyError] in the non-person loop, before any frame is read,
    whatever the records after it, the video and the pose stage. *)
Theorem X5_passthrough_needs_a_track_id (json_data data : dict)
    (before rest : list value) (person_id category_id : value)
    (s1 : TopDown.locals) :
  dict_get "annotations" json_data
    = Some (VList (before ++ VDict data :: rest)) ->
  resolve_person_cat_id (VDict json_data) None = Ok (Some person_id) ->
  for_each TopDown.passthrough_body
    (TopDown.Locals (Some person_id) None None []) before = Ok s1 ->
  dict_get "category_id" data = Some category_id ->
  py_eq category_id person_id = false ->
  dict_get "track_id" data = None ->
  dict_get "attributes" data = None ->
  TopDown.prelude (VDict json_data) = Raise KeyError /\
  forall pose_stage n_frames,
    TopDown.main pose_stage (VDict json_data) n_frames = Raise KeyError.
Proof.
  intros Ha Hr Hb Hc Hne Ht Hat.
  assert (Hpre : TopDown.prelude (VDict json_data) = Raise KeyError).
  { unfold TopDown.prelude. rewrite Hr. cbn [bind].
    unfold TopDown.passthrough.
    rewrite (getitem_key_some _ _ _ Ha). cbn [bind py_iter].
    rewrite for_each_app, Hb. cbn [bind for_each].
    destruct (passthrough_loop person_id before
                (TopDown.Locals (Some person_id) None None []) s1
                eq_refl Hb) as (Hp & _).
    unfold TopDown.passthrough_body at 1.
    rewrite (getitem_key_some _ _ _ Hc), Hp. cbn [bind read_local].
    rewrite Hne. unfold TopDown.non_person_entry.
    rewrite contains_dict, (dict_mem_none _ _ Ht). cbn [bind].
    cbn [py_getitem_key]. rewrite Hat. reflexivity. }
  split; [exact Hpre|].
  intros pose_stage n_frames. unfold TopDown.main. now rewrite Hpre.
Qed.

Lemma X5_passthrough_needs_a_track_id_witness :
  TopDown.prelude
    (Samples.document [Samples.person_category]
       [Samples.person_at_frame_0;
        VDict [("category_id", VInt 2); ("frame_id", VInt 0);
               ("bbox", VList [VInt 1; VInt 2; VInt 3; VInt 4])];
        VDict Samples.car_record])
  = Raise KeyError.
Proof.
  exact (proj1 (X5_passthrough_needs_a_track_id
                  [("categories", VList [Samples.person_category]);
                   ("annotations",
                    VList [Samples.person_at_frame_0;
                           VDict [("category_id", VInt 2);
                                  ("frame_id", VInt 0);
                                  ("bbox", VList [VInt 1; VInt 2; VInt 3;
                                                  VInt 4])];
                           VDict Samples.car_record])]
                  [("category_id", VInt 2); ("frame_id", VInt 0);
                   ("bbox", VList [VInt 1; VInt 2; VInt 3; VInt 4])]
                  [Samples.person_at_frame_0] [VDict Samples.car_record]
                  (VInt 1) (VInt 2) _
                  eq_refl eq_refl eq_refl eq_refl eq_refl eq_refl eq_refl)).
Defined.

(** *** The encoding loop *)

Lemma encode_body_step (frame_id : Z) (s s' : TopDown.locals)
    (pose_result : value) :
  TopDown.encode_body frame_id s pose_result = Ok s' ->
  TopDown.this_person_cat_id s' = TopDown.this_person_cat_id s /\
  exists entry,
    TopDown.annotations s' = TopDown.annotations s ++ [entry] /\
    (is_person_result pose_result = true ->
     encoding frame_id pose_result entry).
Proof.
  unfold TopDown.encode_body. intros H.
  apply bind_inv in H as (keypoints & Hk & H).
  apply bind_inv in H as (pos_arr & Hf & H).
  apply bind_inv in H as (key_point & Hr & H).
  apply bind_inv in H as (category_id & Hc & H).
  apply bind_inv in H as (obj & Ho & H).
  apply bind_inv in H as (entry & He & H).
  injection H as <-. cbn. split; [reflexivity|].
  exists entry. split; [reflexivity|]. intros Hperson.
  split; [exact Hperson|].
  unfold is_person_result in Hperson. rewrite Hc in Hperson.
  rewrite Hperson in Ho.
  apply bind_inv in Ho as (d & Hd & Ho). injection Ho as <-.
  cbn in He. injection He as <-.
  exists keypoints, pos_arr, key_point. auto.
Qed.

Lemma encode_results_step (frame_id : Z) (pose_results : list value) :
  forall s s',
    TopDown.encode_results frame_id s pose_results = Ok s' ->
    TopDown.this_person_cat_id s' = TopDown.this_person_cat_id s /\
    exists entries,
      TopDown.annotations s' = TopDown.annotations s ++ entries /\
      List.length entries = List.length pose_results /\
      (forallb is_person_result pose_results = true ->
       Forall2 (encoding frame_id) pose_results entries).
Proof.
  unfold TopDown.encode_results.
  induction pose_results as [|pr prs IH]; intros s s' H; cbn in H.
  - injection H as <-. split; [reflexivity|]. exists [].
    rewrite app_nil_r. auto.
  - apply bind_inv in H as (s1 & H1 & H).
    destruct (encode_body_step _ _ _ _ H1) as (Hp1 & entry & Ha1 & He).
    destruct (IH _ _ H) as (Hp & entries & Ha & Hlen & Hall).
    split; [congruence|]. exists (entry :: entries).
    rewrite Ha, Ha1, <- app_assoc. split; [reflexivity|].
    split; [cbn; congruence|].
    cbn [forallb]. intros Hb. apply andb_true_iff in Hb as (Hb1 & Hb2).
    constructor; auto.
Qed.

(** X7. When the encoding loop of a frame runs to its end it has
    appended exactly one annotation per pose result, after what the
    output list already held.  If moreover every pose result has
    [category_id == 1], the appended annotations are the encodings of
    the pose results, one each and in the same order: each is the
    [dict_obj] literal built from its pose result, with the flattened
    keypoints rounded to three decimals and the bbox converted; so their
    number is the number of person results. *)
Theorem X7_encoder_appends_one_per_result (frame_id : Z)
    (s s' : TopDown.locals) (pose_results : list value) :
  TopDown.encode_results frame_id s pose_results = Ok s' ->
  exists entries,
    TopDown.annotations s' = TopDown.annotations s ++ entries /\
    List.length entries = List.length pose_results /\
    (forallb is_person_result pose_results = true ->
     List.length entries = person_results_count pose_results /\
     Forall2 (encoding frame_id) pose_results entries).
Proof.
  intros H.
  destruct (encode_results_step _ _ _ _ H) as (_ & entries & Ha & Hlen & Hall).
  exists entries. split; [assumption|]. split; [assumption|].
  intros Hb. split; [|auto].
  rewrite Hlen. unfold person_results_count.
  clear - Hb. induction pose_results as [|pr prs IH]; [reflexivity|].
  cbn [forallb filter] in *. apply andb_true_iff in Hb as (-> & Hb).
  cbn. now rewrite IH.
Qed.

Lemma X7_encoder_appends_one_per_result_witness :
  exists s' entry1,
    TopDown.encode_results 3 TopDown.initial
      [VDict Samples.person_pose_result; VDict Samples.tied_pose_result]
    = Ok s' /\
    TopDown.annotations s'
    = [entry1;
       VDict [("track_id", VInt 5); ("frame_id", VInt 3);
              ("keypoints",
               VList [VFloat 0x1.3c28f5c28f5c3p+0;
                      VFloat 0x1.0020c49ba5e35p+1; VFloat 0.5]);
              ("bbox",
               VList [VFloat 0x1.44p+3; VFloat 0x1.41p+4;
                      VFloat Samples.f76_378; VFloat Samples.f39_326]);
              ("occluded", VInt 0); ("activity", VNone);
              ("category_id", VInt 1)]].
Proof.
  eexists.
  destruct (X7_encoder_appends_one_per_result 3 TopDown.initial _
              [VDict Samples.person_pose_result;
               VDict Samples.tied_pose_result] eq_refl)
    as (entries & Ha & Hlen & Hall).
  destruct (Hall eq_refl) as [_ Hall2].
  destruct entries as [|entry1 [|entry2 [|]]]; try discriminate.
  exists entry1. split; [reflexivity|].
  apply Forall2_cons_iff in Hall2 as [_ Hall2].
  apply Forall2_cons_iff in Hall2 as [[_ (k & p & kp & Hk & Hf & Hr & He)] _].
  cbn in Hk. injection Hk as <-.
  cbn in Hf. injection Hf as <-.
  vm_compute in Hr. injection Hr as <-.
  vm_compute in He. injection He as <-.
  exact Ha.
Defined.

(** *** The frame loop and [main] *)

Section WithPoseStage.

Variable pose_stage : Z -> list value -> result (list value).

Lemma process_frame_step (json_data : value) (frame_id : Z)
    (s s' : TopDown.locals) :
  TopDown.process_frame pose_stage json_data frame_id s = Ok s' ->
  TopDown.this_person_cat_id s' = TopDown.this_person_cat_id s /\
  exists added, TopDown.annotations s' = TopDown.annotations s ++ added.
Proof.
  unfold TopDown.process_frame. intros H.
  apply bind_inv in H as ([s1 obs] & Hobs & H).
  apply bind_inv in H as (pose_results & _ & H). cbn [fst snd] in H.
  destruct (top_down_observations_invariant _ _ _ _ _ Hobs)
    as (_ & Hp1 & _ & Ha1).
  destruct (encode_results_step _ _ _ _ H) as (Hp & entries & Ha & _).
  split; [congruence|]. exists entries. congruence.
Qed.


Lemma frame_loop_step (json_data : value) (n : nat) :
  forall frame_id s s',
    TopDown.frame_loop pose_stage json_data n frame_id s = Ok s' ->
    TopDown.this_person_cat_id s' = TopDown.this_person_cat_id s /\
    exists added, TopDown.annotations s' = TopDown.annotations s ++ added.
Proof.
  induction n as [|n IH]; intros frame_id s s' H; cbn in H.
  - injection H as <-. split; [reflexivity|]. exists [].
    now rewrite app_nil_r.
  - apply bind_inv in H as (s1 & H1 & H).
    destruct (process_frame_step _ _ _ _ H1) as (Hp1 & added1 & Ha1).
    destruct (IH _ _ _ H) as (Hp & added & Ha).
    split; [congruence|]. exists (added1 ++ added).
    rewrite Ha, Ha1. now rewrite app_assoc.
Qed.

(** X6. The output list only grows.  When the inference script runs to
    its end, its annotations start with the entries of the non-person
    loop, one per record of another category in the order of the
    annotation list and with that record's [bbox] and [category_id];
    everything the frames append comes after them, whatever the pose
    stage returns and however many frames the video has. *)
Theorem X6_output_starts_with_passthrough (json_data : dict)
    (items out : list value) (person_id : value) (n_frames : nat) :
  dict_get "annotations" json_data = Some (VList items) ->
  resolve_person_cat_id (VDict json_data) None = Ok (Some person_id) ->
  TopDown.main pose_stage (VDict json_data) n_frames = Ok out ->
  exists entries added,
    out = entries ++ added /\
    Forall2 copied (filter (is_other_category person_id) items) entries.
Proof.
  intros Ha Hr H. unfold TopDown.main, TopDown.prelude in H.
  rewrite Hr in H. cbn [bind] in H.
  apply bind_inv in H as (s0 & H0 & H).
  apply bind_inv in H as (s1 & H1 & H). injection H as <-.
  destruct (passthrough_entries json_data items person_id
              (TopDown.Locals (Some person_id) None None []) s0
              Ha eq_refl H0)
    as (entries & Hann & Hcopied).
  destruct (frame_loop_step _ _ _ _ _ H1) as (_ & added & Hadd).
  exists entries, added. rewrite Hadd, Hann. auto.
Qed.

End WithPoseStage.


Lemma X6_output_starts_with_passthrough_witness :
  exists entry added,
    TopDown.main Samples.identity_pose_stage
      (Samples.document [Samples.person_category; Samples.car_category]
         [Samples.person_at_frame_0; VDict Samples.car_record]) 1
    = Ok (entry :: added) /\
    copied (VDict Samples.car_record) entry.
Proof.
  destruct (X6_output_starts_with_passthrough Samples.identity_pose_stage
              [("categories",
                VList [Samples.person_category; Samples.car_category]);
               ("annotations",
                VList [Samples.person_at_frame_0; VDict Samples.car_record])]
              [Samples.person_at_frame_0; VDict Samples.car_record]
              _ (VInt 1) 1 eq_refl eq_refl eq_refl)
    as (entries & added & Hout & Hcopied).
  cbn in Hcopied.
  destruct entries as [|entry entries]; [inversion Hcopied|].
  exists entry, (entries ++ added). split.
  - change (entry :: entries ++ added) with ((entry :: entries) ++ added).
    rewrite <- Hout. reflexivity.
  - inversion Hcopied. assumption.
Defined.

End PipelineProps.

(** ** Normalisation in the two scripts *)

Module NormalizeProps.

Import Py Common Notions Selection PyFacts.
Local Open Scope string_scope.
Local Open Scope list_scope.
Local Open Scope Z_scope.

Lemma dict_get_set (k k' : string) (v : value) (d : dict) :
  dict_get k (dict_set k' v d)
    = if String.eqb k k' then Some v else dict_get k d.
Proof.
  destruct (String.eqb_spec k k') as [-> | Hne].
  - apply dict_get_set_eq.
  - now apply dict_get_set_ne.
Qed.

(** X8. The two scripts normalise a record alike.  Whenever the
    inference script builds a person dict from a record whose
    [keypoints], if any, is a list, the visualisation script builds one
    too, with the same value under every key other than [frame_id] and
    [keypoints]; it adds the frame counter as [frame_id], and as
    [keypoints] the record's keypoints regrouped three by three in
    order, [floor(length / 3)] rows, none when the record has no
    [keypoints]. *)
Theorem X8_vis_extends_top_down_person (data person : dict) (frame_id : Z) :
  TopDown.normalize_person (VDict data) = Ok (VDict person) ->
  (dict_get "keypoints" data = None \/
   exists flat, dict_get "keypoints" data = Some (VList flat)) ->
  exists person' rows,
    Vis.normalize_person (VDict data) frame_id = Ok (VDict person') /\
    (forall k, k <> "frame_id" -> k <> "keypoints" ->
               dict_get k person' = dict_get k person) /\
    dict_get "frame_id" person' = Some (VInt frame_id) /\
    dict_get "keypoints" person' = Some (VList rows) /\
    rows = match dict_get "keypoints" data with
           | Some (VList flat) => keypoint_rows (Vis.threewise flat)
           | _ => []
           end /\
    List.length rows
      = match dict_get "keypoints" data with
        | Some (VList flat) => (List.length flat / 3)%nat
        | _ => 0%nat
        end.
Proof.
  unfold TopDown.normalize_person, Vis.normalize_person. intros H Hk.
  apply bind_inv in H as (fields & Hf & H).
  apply bind_inv in H as (bbox & Hb & H). injection H as <-.
  rewrite Hf, Hb. cbn [bind]. rewrite contains_dict.
  assert (Hsame : forall groups k,
            k <> "frame_id" -> k <> "keypoints" ->
            dict_get k
              (dict_set "keypoints" groups
                 (dict_set "frame_id" (VInt frame_id)
                    (dict_set "bbox" bbox
                       (dict_set "category_id" (VInt 1) fields))))
            = dict_get k
                (dict_set "category_id" (VInt 1)
                   (dict_set "bbox" bbox fields))).
  { intros groups k Hk1 Hk2. rewrite !dict_get_set.
    apply String.eqb_neq in Hk1, Hk2. rewrite Hk1, Hk2.
    destruct (String.eqb_spec k "bbox") as [-> | _]; [reflexivity|].
    reflexivity. }
  destruct Hk as [Hnone | [flat Hflat]].
  - rewrite (dict_mem_none _ _ Hnone), Hnone. cbn [bind].
    eexists _, []. split; [reflexivity|]. split; [apply Hsame|].
    split; [|split; [apply dict_get_set_eq | split; reflexivity]].
    rewrite dict_get_set_ne by discriminate. apply dict_get_set_eq.
  - rewrite (dict_mem_some _ _ _ Hflat), Hflat.
    cbn [bind py_getitem_key]. rewrite Hflat.
    unfold Vis.regroup_keypoints. cbn [bind py_iter].
    eexists _, (keypoint_rows (Vis.threewise flat)).
    assert (Hrows :
      map (fun t : value * value * value =>
             match t with (x, y, z) => VList [x; y; z] end)
          (Vis.threewise flat)
      = keypoint_rows (Vis.threewise flat)).
    { unfold keypoint_rows. apply map_ext. intros [[x y] z]. reflexivity. }
    rewrite Hrows.
    split; [reflexivity|]. split; [apply Hsame|].
    split; [|split; [apply dict_get_set_eq|split; [reflexivity|]]].
    + rewrite dict_get_set_ne by discriminate. apply dict_get_set_eq.
    + unfold keypoint_rows. rewrite length_map.
      apply ThreewiseProps.threewise_length.
Qed.

Lemma X8_vis_extends_top_down_person_witness :
  exists person',
    Vis.normalize_person (VDict Samples.record_with_keypoints) 7
      = Ok (VDict person') /\
    dict_get "track_id" person' = Some (VInt 5) /\
    dict_get "bbox" person'
      = Some (VList [VInt 10; VInt 20; VInt 40; VInt 60; VFloat 1]) /\
    dict_get "frame_id" person' = Some (VInt 7) /\
    dict_get "keypoints" person'
      = Some (VList [VList [VFloat 1.5; VFloat 2.25; VFloat 0.5];
                     VList [VFloat 3.5; VFloat 4.25; VFloat 0.75]]).
Proof.
  destruct (X8_vis_extends_top_down_person Samples.record_with_keypoints _ 7
              eq_refl (or_intror (ex_intro _ _ eq_refl)))
    as (person' & rows & Hv & Hsame & Hframe & Hkp & Hrows & _).
  cbn in Hrows. subst rows.
  exists person'. split; [exact Hv|].
  split; [|split; [|split; [exact Hframe | exact Hkp]]].
  - rewrite Hsame by discriminate. reflexivity.
  - rewrite Hsame by discriminate. reflexivity.
Defined.

(** X11. A record whose [occluded] is given only under [attributes],
    with a value [int] rejects, cannot be normalised: both scripts raise
    what [int] raises (for instance [ValueError] on the string "false"),
    although a direct [occluded] would have been taken as it is. *)
Theorem X11_nested_occluded_must_convert (data attributes : dict)
    (track_id w : value) (e : exn) :
  dict_get "track_id" data = Some track_id ->
  dict_get "occluded" data = None ->
  dict_get "attributes" data = Some (VDict attributes) ->
  dict_get "occluded" attributes = Some w ->
  py_int w = Raise e ->
  TopDown.normalize_person (VDict data) = Raise e /\
  forall frame_id, Vis.normalize_person (VDict data) frame_id = Raise e.
Proof.
  intros Ht Ho Ha Hw He.
  assert (Hf : person_fields (VDict data) = Raise e).
  { unfold person_fields.
    rewrite (CorrelatorProps.direct_wins _ _ _ _ _ Ht). cbn [bind].
    unfold direct_or_attributes at 1, in_attributes.
    rewrite !contains_dict.
    rewrite (dict_mem_none _ _ Ho), (dict_mem_some _ _ _ Ha). cbn [bind].
    rewrite (getitem_key_some _ _ _ Ha). cbn [bind].
    rewrite contains_dict, (dict_mem_some _ _ _ Hw). cbn [bind].
    rewrite (getitem_key_some _ _ _ Hw). cbn [bind].
    rewrite He. reflexivity. }
  split.
  - unfold TopDown.normalize_person. now rewrite Hf.
  - intros frame_id. unfold Vis.normalize_person. now rewrite Hf.
Qed.

Lemma X11_nested_occluded_must_convert_witness :
  TopDown.normalize_person
    (VDict [("frame_id", VInt 0); ("category_id", VInt 1);
            ("track_id", VInt 5);
            ("bbox", VList [VInt 10; VInt 20; VInt 30; VInt 40]);
            ("attributes", VDict [("occluded", VStr "false")])])
  = Raise ValueError.
Proof.
  exact (proj1 (X11_nested_occluded_must_convert
                  [("frame_id", VInt 0); ("category_id", VInt 1);
                   ("track_id", VInt 5);
                   ("bbox", VList [VInt 10; VInt 20; VInt 30; VInt 40]);
                   ("attributes", VDict [("occluded", VStr "false")])]
                  [("occluded", VStr "false")] (VInt 5) (VStr "false")
                  ValueError eq_refl eq_refl eq_refl eq_refl eq_refl)).
Defined.

(** [int] reads the decimal digits of every script: a nested
    [occluded] written with the Arabic-Indic digit one (U+0661, here in
    UTF-8) is normalised to the int 1, by both scripts. *)
Example nested_occluded_arabic_indic_digit :
  let data :=
    VDict [("frame_id", VInt 0); ("category_id", VInt 1);
           ("track_id", VInt 5);
           ("bbox", VList [VInt 10; VInt 20; VInt 30; VInt 40]);
           ("attributes",
            VDict [("occluded",
                    VStr (String (ascii_of_nat 217)
                            (String (ascii_of_nat 161) EmptyString)))])] in
  (exists person,
     TopDown.normalize_person data = Ok (VDict person) /\
     dict_get "occluded" person = Some (VInt 1)) /\
  (exists person,
     Vis.normalize_person data 0 = Ok (VDict person) /\
     dict_get "occluded" person = Some (VInt 1)).
Proof. split; eexists; split; reflexivity. Qed.

End NormalizeProps.

(** ** Keypoint lists and bounding boxes *)

Module ShapeProps.

Import Py Common Notions Selection PyFacts.
Local Open Scope string_scope.
Local Open Scope list_scope.
Local Open Scope Z_scope.

Lemma threewise_untriple {A : Type} (triples : list (A * A * A)) :
  Vis.threewise (flat_map untriple triples) = triples.
Proof.
  induction triples as [|[[x y] z] triples IH]; [reflexivity|].
  cbn. now rewrite IH.
Qed.

Lemma flatten_scalars (l : list value) :
  forallb is_scalar l = true -> flat_map flatten_entries l = l.
Proof.
  induction l as [|v l IH]; [reflexivity|].
  cbn [forallb flat_map]. intros H. apply andb_true_iff in H as (Hv & Hl).
  rewrite (IH Hl). destruct v; try reflexivity. discriminate.
Qed.

Lemma flatten_rows (triples : list (value * value * value)) :
  forallb is_scalar (flat_map untriple triples) = true ->
  flat_map flatten_entries (keypoint_rows triples)
    = flat_map untriple triples.
Proof.
  induction triples as [|[[x y] z] triples IH]; [reflexivity|].
  cbn [flat_map untriple keypoint_rows map app forallb].
  intros H. apply andb_true_iff in H as (Hx & H).
  apply andb_true_iff in H as (Hy & H).
  apply andb_true_iff in H as (Hz & H).
  fold (keypoint_rows triples). rewrite (IH H).
  cbn [flatten_entries flat_map].
  destruct x, y, z; try discriminate; reflexivity.
Qed.

(** X9. Flattening and regrouping keypoints are inverse to each other
    on whole triples.  A keypoint array of (x, y, confidence) rows,
    flattened as the inference script does, is regrouped by the
    visualisation script into the same rows; and regrouping a flat list
    of numbers and flattening the result gives back the list cut to its
    first [3 * floor(length / 3)] values, that is the list itself when
    its length is a multiple of 3. *)
Theorem X9_flatten_regroup_round_trip :
  (forall triples : list (value * value * value),
     forallb is_scalar (flat_map untriple triples) = true ->
     exists flat,
       flatten_tolist (VList (keypoint_rows triples)) = Ok flat /\
       Vis.regroup_keypoints (VList flat)
         = Ok (VList (keypoint_rows triples))) /\
  (forall flat : list value,
     forallb is_scalar flat = true ->
     (rows <- Vis.regroup_keypoints (VList flat) ;; flatten_tolist rows)
       = Ok (firstn (3 * (List.length flat / 3)) flat)) /\
  (forall flat : list value,
     forallb is_scalar flat = true ->
     (List.length flat mod 3 = 0)%nat ->
     (rows <- Vis.regroup_keypoints (VList flat) ;; flatten_tolist rows)
       = Ok flat).
Proof.
  assert (Hregroup : forall flat,
            Vis.regroup_keypoints (VList flat)
              = Ok (VList (keypoint_rows (Vis.threewise flat)))).
  { intros flat. unfold Vis.regroup_keypoints, keypoint_rows.
    cbn [bind py_iter]. do 2 f_equal. apply map_ext.
    intros [[x y] z]. reflexivity. }
  assert (Hprefix : forall flat,
            forallb is_scalar flat = true ->
            (rows <- Vis.regroup_keypoints (VList flat) ;;
             flatten_tolist rows)
              = Ok (firstn (3 * (List.length flat / 3)) flat)).
  { intros flat Hs. rewrite Hregroup. cbn [bind flatten_tolist].
    rewrite <- ThreewiseProps.threewise_prefix. f_equal.
    apply flatten_rows. rewrite ThreewiseProps.threewise_prefix.
    rewrite <- (firstn_skipn (3 * (List.length flat / 3)) flat) in Hs.
    rewrite forallb_app in Hs. now apply andb_true_iff in Hs as (Hs & _). }
  split; [|split].
  - intros triples Hs. exists (flat_map untriple triples). split.
    + cbn [flatten_tolist]. f_equal. now apply flatten_rows.
    + rewrite Hregroup. now rewrite threewise_untriple.
  - exact Hprefix.
  - intros flat Hs Hmod. rewrite (Hprefix flat Hs). f_equal.
    apply firstn_all2.
    pose proof (Nat.div_mod_eq (List.length flat) 3). lia.
Qed.

Lemma X9_flatten_regroup_round_trip_witness :
  Vis.regroup_keypoints
    (VList [VFloat 1.5; VFloat 2.25; VFloat 0.5;
            VFloat 3.5; VFloat 4.25; VFloat 0.75])
  = Ok (VList [VList [VFloat 1.5; VFloat 2.25; VFloat 0.5];
               VList [VFloat 3.5; VFloat 4.25; VFloat 0.75]]).
Proof.
  destruct (proj1 X9_flatten_regroup_round_trip
              [(VFloat 1.5, VFloat 2.25, VFloat 0.5);
               (VFloat 3.5, VFloat 4.25, VFloat 0.75)] eq_refl)
    as (flat & Hflat & Hrows).
  cbn in Hflat. injection Hflat as <-. exact Hrows.
Defined.

(** X10. Both bbox conversions read exactly the first four entries.
    With fewer than four the conversion never returns, and with fewer
    than three it raises [IndexError]; entries after the fourth, such as
    the confidence the pose stage carries, do not change the result. *)
Theorem X10_bbox_conversions_read_four_entries :
  (forall l : list value,
     (List.length l < 4)%nat ->
     forall converted,
       xywh_to_xyxy (VList l) <> Ok converted /\
       TopDown.xyxy_to_xywh (VList l) <> Ok converted) /\
  (forall l : list value,
     (List.length l < 3)%nat ->
     xywh_to_xyxy (VList l) = Raise IndexError /\
     TopDown.xyxy_to_xywh (VList l) = Raise IndexError) /\
  (forall (a b c d : value) (rest : list value),
     xywh_to_xyxy (VList (a :: b :: c :: d :: rest))
       = xywh_to_xyxy (VList [a; b; c; d]) /\
     TopDown.xyxy_to_xywh (VList (a :: b :: c :: d :: rest))
       = TopDown.xyxy_to_xywh (VList [a; b; c; d])).
Proof.
  split; [|split].
  - intros l Hlen converted.
    destruct l as [|a [|b [|c [|d l]]]]; cbn in Hlen; try lia;
      (split; [unfold xywh_to_xyxy | unfold TopDown.xyxy_to_xywh]);
      cbn [py_getitem_idx nth_error bind]; try discriminate.
    + destruct (py_add a c); cbn [bind]; discriminate.
    + destruct (np_sub c a) as [dx|]; cbn [bind]; [|discriminate].
      destruct (np_round3 dx); cbn [bind]; discriminate.
  - intros l Hlen.
    destruct l as [|a [|b [|c l]]]; cbn in Hlen; try lia;
      split; reflexivity.
  - intros a b c d rest. split; reflexivity.
Qed.

Lemma X10_bbox_conversions_read_four_entries_witness :
  xywh_to_xyxy (VList [VInt 10; VInt 20]) = Raise IndexError /\
  xywh_to_xyxy (VList [VInt 10; VInt 20; VInt 30]) <> Ok (VList []).
Proof.
  split.
  - apply (proj1 (proj2 X10_bbox_conversions_read_four_entries)). cbn. lia.
  - apply (proj1 X10_bbox_conversions_read_four_entries). cbn. lia.
Defined.

End ShapeProps.

(** ** Runs without a usable person category *)

Module CategoryProps.

Import Py Common Notions Selection PyFacts SelectionProps.
Local Open Scope string_scope.
Local Open Scope list_scope.
Local Open Scope Z_scope.

(** X12. Every category entry the scan reaches must have a [name].
    With a non-empty annotations list, a category without one stops
    both scripts with [KeyError] during the scan, wherever it stands in
    the list and even when a "person" category precedes it. *)
Theorem X12_category_without_name_aborts (json_data category : dict)
    (first : value) (rest before after : list value) :
  dict_get "annotations" json_data = Some (VList (first :: rest)) ->
  dict_get "categories" json_data
    = Some (VList (before ++ VDict category :: after)) ->
  Forall well_formed_category before ->
  dict_get "name" category = None ->
  resolve_person_cat_id (VDict json_data) None = Raise KeyError /\
  (forall pose_stage n_frames,
     TopDown.main pose_stage (VDict json_data) n_frames = Raise KeyError) /\
  (forall n_frames, Vis.main (VDict json_data) n_frames = Raise KeyError).
Proof.
  intros Ha Hc Hwf Hn.
  assert (Hr : resolve_person_cat_id (VDict json_data) None = Raise KeyError).
  { unfold resolve_person_cat_id.
    rewrite (getitem_key_some _ _ _ Ha). cbn [bind py_iter for_each].
    rewrite (getitem_key_some _ _ _ Hc). cbn [bind py_iter].
    rewrite for_each_app, (ResolveProps.scan_categories _ Hwf).
    cbn [bind for_each]. unfold scan_category at 1.
    cbn [py_getitem_key]. rewrite Hn. reflexivity. }
  split; [exact Hr|]. split.
  - intros pose_stage n_frames. unfold TopDown.main, TopDown.prelude.
    now rewrite Hr.
  - intros n_frames. unfold Vis.main. now rewrite Hr.
Qed.

Lemma X12_category_without_name_aborts_witness :
  resolve_person_cat_id
    (Samples.document
       [Samples.person_category; VDict [("id", VInt 2)]]
       [Samples.person_at_frame_0]) None
  = Raise KeyError.
Proof.
  refine (proj1 (X12_category_without_name_aborts
                   [("categories",
                     VList [Samples.person_category; VDict [("id", VInt 2)]]);
                    ("annotations", VList [Samples.person_at_frame_0])]
                   [("id", VInt 2)] Samples.person_at_frame_0 []
                   [Samples.person_category] []
                   eq_refl eq_refl _ eq_refl)).
  repeat constructor. eapply ResolveProps.well_formed_intro; reflexivity.
Defined.

(** One iteration of the visualisation script while the person id is
    unbound: the record is passed over, unless it falls on the frame. *)
Lemma vis_correlate_unbound (frame_id index : Z) (s : Vis.locals)
    (acc : list value) (data category_id : value) :
  record_index data = Some index ->
  py_getitem_key data "category_id" = Ok category_id ->
  Vis.this_person_cat_id s = None ->
  Vis.correlate_body frame_id (s, acc) data
    = if on_frame frame_id data then Raise UnboundLocalError
      else Ok (Vis.Locals None (Some (VInt index)), acc).
Proof.
  intros Hi Hc Hp. unfold Vis.correlate_body, on_frame.
  rewrite (record_index_resolves _ _ Hi), Hi, Hc. cbn [bind read_local].
  cbn [py_eq as_number number_eq Vis.this_person_cat_id].
  rewrite Hp. destruct (frame_id =? index); reflexivity.
Qed.

Lemma vis_loop_unbound (frame_id : Z) (items : list value) :
  Forall indexed_record items ->
  forall s acc,
    Vis.this_person_cat_id s = None ->
    if existsb (on_frame frame_id) items
    then for_each (Vis.correlate_body frame_id) (s, acc) items
           = Raise UnboundLocalError
    else exists s',
           for_each (Vis.correlate_body frame_id) (s, acc) items
             = Ok (s', acc) /\
           Vis.this_person_cat_id s' = None.
Proof.
  induction 1 as [|data items (index & category_id & Hi & Hc) _ IH];
    intros s acc Hp.
  - cbn. eauto.
  - cbn [existsb for_each].
    rewrite (vis_correlate_unbound _ _ _ _ _ _ Hi Hc Hp).
    destruct (on_frame frame_id data); cbn [orb bind]; [reflexivity|].
    apply IH. reflexivity.
Qed.

Lemma vis_frame_loop_unbound (json_data : dict) (items : list value)
    (n : nat) :
  dict_get "annotations" json_data = Some (VList items) ->
  Forall indexed_record items ->
  forall first s,
    Vis.this_person_cat_id s = None ->
    Vis.frame_loop (VDict json_data) n first s
      = if existsb (fun k => existsb (on_frame k) items) (frame_ids first n)
        then Raise UnboundLocalError
        else Ok (map (fun _ => []) (frame_ids first n)).
Proof.
  intros Ha Hwf. induction n as [|n IH]; intros first s Hp; [reflexivity|].
  rewrite frame_ids_succ. cbn [Vis.frame_loop existsb map].
  unfold Vis.person_observations.
  rewrite (getitem_key_some _ _ _ Ha). cbn [bind py_iter].
  pose proof (vis_loop_unbound first items Hwf s [] Hp) as Hloop.
  destruct (existsb (on_frame first) items); cbn [orb].
  - now rewrite Hloop.
  - destruct Hloop as (s' & -> & Hp'). cbn [bind fst snd].
    rewrite (IH (first + 1) s' Hp').
    destruct (existsb _ (frame_ids (first + 1) n)); reflexivity.
Qed.

(** X13. When the scan leaves the person id unbound (no "person"
    category, or an empty annotations list) and every record has an
    integer frame index and a category id, the visualisation script
    stops with [UnboundLocalError] exactly when some record falls on a
    frame of the video; otherwise it runs to the end and draws nobody
    on any frame. *)
Theorem X13_vis_fails_only_on_a_populated_frame (json_data : dict)
    (items : list value) (n_frames : nat) :
  dict_get "annotations" json_data = Some (VList items) ->
  resolve_person_cat_id (VDict json_data) None = Ok None ->
  Forall indexed_record items ->
  Vis.main (VDict json_data) n_frames
    = if existsb (fun k => existsb (on_frame k) items) (frame_ids 0 n_frames)
      then Raise UnboundLocalError
      else Ok (map (fun _ => []) (frame_ids 0 n_frames)).
Proof.
  intros Ha Hr Hwf. unfold Vis.main. rewrite Hr. cbn [bind].
  now apply vis_frame_loop_unbound.
Qed.

Lemma X13_vis_fails_only_on_a_populated_frame_witness :
  Vis.main
    (Samples.document [Samples.car_category]
       [VDict Samples.record_nested_occluded]) 2
  = Ok [[]; []] /\
  Vis.main
    (Samples.document [Samples.car_category]
       [VDict Samples.record_nested_occluded]) 3
  = Raise UnboundLocalError.
Proof.
  split.
  - refine (X13_vis_fails_only_on_a_populated_frame
              [("categories", VList [Samples.car_category]);
               ("annotations", VList [VDict Samples.record_nested_occluded])]
              [VDict Samples.record_nested_occluded] 2 eq_refl eq_refl _).
    repeat constructor. do 2 eexists. split; reflexivity.
  - refine (X13_vis_fails_only_on_a_populated_frame
              [("categories", VList [Samples.car_category]);
               ("annotations", VList [VDict Samples.record_nested_occluded])]
              [VDict Samples.record_nested_occluded] 3 eq_refl eq_refl _).
    repeat constructor. do 2 eexists. split; reflexivity.
Defined.

End CategoryProps.

(** ** Optional and required fields *)

Module FieldProps.

Import Py Common Notions Selection PyFacts.
Local Open Scope string_scope.
Local Open Scope list_scope.
Local Open Scope Z_scope.

(** X14. A track id is optional on input and required on a pose
    result.  A record with no [track_id], direct or nested, is still
    normalised by the inference script, into a person dict without a
    ['track_id'] key; but the encoding loop raises [KeyError] on a
    person pose result that has none. *)
Theorem X14_track_id_optional_then_required :
  (forall data person : dict,
     dict_get "track_id" data = None ->
     in_attributes "track_id" (VDict data) = Ok false ->
     TopDown.normalize_person (VDict data) = Ok (VDict person) ->
     dict_get "track_id" person = None) /\
  (forall (frame_id : Z) (s : TopDown.locals) (pose_result : dict)
          (raw key_point : list value) (category_id : value),
     dict_get "keypoints" pose_result = Some (VList raw) ->
     map_result py_round3 (flat_map flatten_entries raw) = Ok key_point ->
     dict_get "category_id" pose_result = Some category_id ->
     py_eq category_id (VInt 1) = true ->
     dict_get "track_id" pose_result = None ->
     TopDown.encode_body frame_id s (VDict pose_result) = Raise KeyError).
Proof.
  split.
  - intros data person Hd Hn H.
    destruct (CorrelatorProps.top_down_person_fields _ _ H)
      as (fields & Hf & Hsame).
    rewrite (Hsame "track_id") by (cbn; auto).
    exact (CorrelatorProps.person_fields_absent data fields "track_id"
             (or_introl eq_refl) Hd Hn Hf).
  - intros frame_id s pose_result raw key_point category_id Hk Hr Hc Hp Ht.
    unfold TopDown.encode_body.
    rewrite (getitem_key_some _ _ _ Hk). cbn [bind flatten_tolist].
    rewrite Hr. cbn [bind].
    rewrite (getitem_key_some _ _ _ Hc). cbn [bind]. rewrite Hp.
    unfold TopDown.encode_person. cbn [py_getitem_key]. rewrite Ht.
    reflexivity.
Qed.

Lemma X14_track_id_optional_then_required_witness :
  (exists person,
     TopDown.normalize_person
       (VDict [("frame_id", VInt 0); ("category_id", VInt 1);
               ("bbox", VList [VInt 10; VInt 20; VInt 30; VInt 40])])
       = Ok (VDict person) /\
     dict_get "track_id" person = None) /\
  TopDown.encode_body 0 TopDown.initial
    (VDict [("category_id", VInt 1);
            ("bbox", VList [VFloat 10; VFloat 20; VFloat 40; VFloat 60;
                            VFloat 1]);
            ("keypoints", VList [VList [VFloat 1.5; VFloat 2.25; VFloat 0.5]])])
  = Raise KeyError.
Proof.
  split.
  - eexists. split; [reflexivity|].
    apply (proj1 X14_track_id_optional_then_required
             [("frame_id", VInt 0); ("category_id", VInt 1);
              ("bbox", VList [VInt 10; VInt 20; VInt 30; VInt 40])]);
      reflexivity.
  - apply (proj2 X14_track_id_optional_then_required 0 TopDown.initial
             [("category_id", VInt 1);
              ("bbox", VList [VFloat 10; VFloat 20; VFloat 40; VFloat 60;
                              VFloat 1]);
              ("keypoints",
               VList [VList [VFloat 1.5; VFloat 2.25; VFloat 0.5]])]
             [VList [VFloat 1.5; VFloat 2.25; VFloat 0.5]]
             [VFloat 1.5; VFloat 2.25; VFloat 0.5] (VInt 1));
      reflexivity.
Defined.

(** The [dict_obj] literal on a record with the fields direct. *)
Lemma non_person_entry_direct (data : dict) (category_id entry : value) :
  dict_get "category_id" data = Some category_id ->
  direct_entry data = Some entry ->
  TopDown.non_person_entry (VDict data) category_id = Ok entry.
Proof.
  unfold direct_entry. intros Hc H. rewrite Hc in H.
  destruct (dict_get "track_id" data) as [track_id|] eqn:Ht; [|discriminate].
  destruct (dict_get "frame_id" data) as [frame_id|] eqn:Hf; [|discriminate].
  destruct (dict_get "bbox" data) as [bbox|] eqn:Hb; [|discriminate].
  injection H as <-. unfold TopDown.non_person_entry.
  rewrite !contains_dict.
  rewrite (dict_mem_some _ _ _ Ht), (dict_mem_some _ _ _ Hf). cbn [bind].
  rewrite (getitem_key_some _ _ _ Ht). cbn [bind].
  rewrite (getitem_key_some _ _ _ Hf). cbn [bind].
  rewrite (getitem_key_some _ _ _ Hb). cbn [bind].
  unfold py_get. destruct (dict_get "occluded" data) as [o|]; cbn [bind].
  - destruct o; reflexivity.
  - reflexivity.
Qed.

Lemma passthrough_ready_loop (person_id : value) (items : list value) :
  Forall (passthrough_ready person_id) items ->
  forall s,
    TopDown.this_person_cat_id s = Some person_id ->
    exists s' entries,
      for_each TopDown.passthrough_body s items = Ok s' /\
      TopDown.annotations s' = TopDown.annotations s ++ entries /\
      Forall2 (fun data entry =>
                 exists d, data = VDict d /\ direct_entry d = Some entry)
        (filter (is_other_category person_id) items) entries.
Proof.
  induction 1 as [|data items (d & category_id & -> & Hc & Hcase) _ IH];
    intros s Hp.
  - exists s, []. cbn. rewrite app_nil_r. auto.
  - cbn [for_each filter]. unfold TopDown.passthrough_body at 1.
    unfold is_other_category at 1.
    rewrite (getitem_key_some _ _ _ Hc), Hp. cbn [bind read_local].
    destruct (py_eq category_id person_id) eqn:He; cbn [negb].
    + destruct (IH s Hp) as (s' & entries & Hloop & Ha & Hall).
      exists s', entries. cbn [bind]. auto.
    + destruct Hcase as [Hcase | (entry & Hentry)]; [discriminate|].
      rewrite (non_person_entry_direct _ _ _ Hc Hentry). cbn [bind].
      destruct (IH (TopDown.Locals (Some person_id)
                      (TopDown.frame_json_id s) (Some entry)
                      (TopDown.annotations s ++ [entry])) eq_refl)
        as (s' & entries & Hloop & Ha & Hall).
      exists s', (entry :: entries). split; [exact Hloop|].
      cbn [TopDown.annotations] in Ha. rewrite Ha, <- app_assoc.
      split; [reflexivity|]. constructor; eauto.
Qed.

(** X15. The non-person loop always runs to its end on records that
    carry their fields directly.  When the person id is bound and every
    record of another category has a direct [track_id], [frame_id] and
    [bbox], the loop returns, whether or not the records have
    [attributes]; it appends, for each such record in order, the entry
    with those direct values, the record's category, and as [occluded]
    the record's value, or 0 when the record has none or has [null]. *)
Theorem X15_passthrough_returns_on_direct_records (json_data : dict)
    (items : list value) (person_id : value) (s : TopDown.locals) :
  dict_get "annotations" json_data = Some (VList items) ->
  TopDown.this_person_cat_id s = Some person_id ->
  Forall (passthrough_ready person_id) items ->
  exists s' entries,
    TopDown.passthrough (VDict json_data) s = Ok s' /\
    TopDown.annotations s' = TopDown.annotations s ++ entries /\
    Forall2 (fun data entry =>
               exists d, data = VDict d /\ direct_entry d = Some entry)
      (filter (is_other_category person_id) items) entries.
Proof.
  intros Ha Hp Hready. unfold TopDown.passthrough.
  rewrite (getitem_key_some _ _ _ Ha). cbn [bind py_iter].
  exact (passthrough_ready_loop person_id items Hready s Hp).
Qed.

Lemma X15_passthrough_returns_on_direct_records_witness :
  exists s',
    TopDown.passthrough
      (Samples.document [Samples.person_category; Samples.car_category]
         [Samples.person_at_frame_0;
          VDict [("category_id", VInt 2); ("track_id", VInt 9);
                 ("frame_id", VInt 4); ("occluded", VNone);
                 ("bbox", VList [VInt 1; VInt 2; VInt 3; VInt 4]);
                 ("attributes", VDict [("track_id", VInt 8)])]])
      (TopDown.Locals (Some (VInt 1)) None None []) = Ok s' /\
    TopDown.annotations s'
      = [VDict [("track_id", VInt 9); ("frame_id", VInt 4);
                ("bbox", VList [VInt 1; VInt 2; VInt 3; VInt 4]);
                ("occluded", VInt 0); ("category_id", VInt 2)]].
Proof.
  destruct (X15_passthrough_returns_on_direct_records
              [("categories",
                VList [Samples.person_category; Samples.car_category]);
               ("annotations",
                VList [Samples.person_at_frame_0;
                       VDict [("category_id", VInt 2); ("track_id", VInt 9);
                              ("frame_id", VInt 4); ("occluded", VNone);
                              ("bbox", VList [VInt 1; VInt 2; VInt 3; VInt 4]);
                              ("attributes",
                               VDict [("track_id", VInt 8)])]])]
              [Samples.person_at_frame_0;
               VDict [("category_id", VInt 2); ("track_id", VInt 9);
                      ("frame_id", VInt 4); ("occluded", VNone);
                      ("bbox", VList [VInt 1; VInt 2; VInt 3; VInt 4]);
                      ("attributes", VDict [("track_id", VInt 8)])]]
              (VInt 1) (TopDown.Locals (Some (VInt 1)) None None [])
              eq_refl eq_refl)
    as (s' & entries & Hrun & Hann & Hall).
  - apply Forall_cons.
    + do 2 eexists. split; [reflexivity|]. split; [reflexivity|].
      left. reflexivity.
    + apply Forall_cons; [|apply Forall_nil].
      do 2 eexists. split; [reflexivity|]. split; [reflexivity|].
      right. eexists. reflexivity.
  - exists s'. split; [exact Hrun|]. rewrite Hann.
    cbn in Hall. inversion Hall as [|r e rs es (d & Hd & He) Hrest]; subst.
    inversion Hrest; subst. injection Hd as <-.
    cbn in He. injection He as <-. reflexivity.
Defined.

End FieldProps.
